(** * Pomodoro tracker: session ledger, settings store and statistics

    A shallow embedding of the request handlers of [app/routes.py], the
    tables of [app/models.py] and the settings form of [app/forms.py],
    followed by the properties of the session lifecycle and of the
    statistics queries.

    Conventions of the embedding.
    - The three tables are lists of rows in insertion order; a query is a
      [filter] over the table, [.first()] is [find], [.count()] is [length].
    - A [datetime] is the number of microseconds since 0001-01-01T00:00:00
      UTC, a [date] the number of whole days since 0001-01-01.  Python
      raises [OverflowError] when datetime arithmetic leaves the years
      1..9999; [datetime_sub] does the same.
    - The wall clock is an input of each handler: one argument per call of
      [datetime.now(timezone.utc)].  [complete_session] reads the clock
      twice; the second reading is given as the time elapsed since the
      first one, a natural number of microseconds.
    - The logged-in user is what Flask-Login restores from the session
      cookie: the handlers take the user id remembered in the cookie
      ([None] for an anonymous visitor) and [load_user] looks it up.
    - The JSON body of the two session routes is restricted to the two keys
      the handlers read, with the types of the interface: an optional
      integer [duration] and an optional string [session_type].
    - The database is the SQLite file of the default configuration.  An
      INTEGER column holds a signed 64-bit integer: the driver raises
      [OverflowError] when it is given any other integer to bind, on an
      INSERT as on the OFFSET of a page, and SQL [sum] fails with "integer
      overflow", an [OperationalError], as soon as its running total
      leaves that range.  The length of VARCHAR is not enforced.  An
      exception leaves the handler as the answer 500, after the rollback
      of the error handler at the end of [app/routes.py].
    - Clock readings are instants of the calendar, past its first week:
      the dates the dashboard computes from today are dates of the
      calendar.
    - Form data is typed: the integer fields of the settings form hold
      integers.  The CSRF token of Flask-WTF is not part of the model.
    - [run] serves the routes that write to the database: login, register,
      settings and the two session routes, besides the two statistics
      routes.  The index, logout and history routes only read.
    - Python floats are IEEE 754 binary64 numbers, here [spec_float] with
      the operations of the standard library's [SpecFloat]. *)

From Stdlib Require Import ZArith List String Bool Lia.
From Stdlib Require Import SpecFloat.
From Stdlib Require Import Permutation Sorted.
Import ListNotations.

Open Scope Z_scope.

(** ** Time *)

Definition datetime := Z.
Definition date := Z.
Definition timedelta := Z.

Definition MICROSECONDS_PER_MINUTE : Z := 60000000.
Definition MICROSECONDS_PER_DAY : Z := 86400000000.

(** [date.max.toordinal()]: 9999-12-31 is day 3652059 of the calendar. *)
Definition MAXORDINAL : Z := 3652059.

Definition timedelta_minutes (minutes : Z) : timedelta :=
  minutes * MICROSECONDS_PER_MINUTE.

(** [datetime.date()] and SQL [date(started_at)]. *)
Definition date_of (t : datetime) : date := t / MICROSECONDS_PER_DAY.

Inductive exn : Set :=
| OverflowError
| ZeroDivisionError
| OperationalError.

Inductive result (A : Type) : Type :=
| Ok (a : A)
| Raise (e : exn).
Arguments Ok {A} a.
Arguments Raise {A} e.

Definition datetime_in_range (t : datetime) : bool :=
  (0 <=? t) && (t <? MAXORDINAL * MICROSECONDS_PER_DAY).

(** [t - delta] on datetimes: "date value out of range" outside the
    calendar. *)
Definition datetime_sub (t : datetime) (delta : timedelta) : result datetime :=
  let r := t - delta in
  if datetime_in_range r then Ok r else Raise OverflowError.

(** The dates of the calendar: 0001-01-01 to 9999-12-31. *)
Definition date_in_range (d : date) : bool :=
  (0 <=? d) && (d <? MAXORDINAL).

(** ** Columns *)

Definition INT64_MIN : Z := -9223372036854775808.
Definition INT64_MAX : Z := 9223372036854775807.

(** The integers the driver binds to an INTEGER parameter. *)
Definition fits_int64 (n : Z) : bool :=
  (INT64_MIN <=? n) && (n <=? INT64_MAX).

(** ** Tables ([app/models.py]) *)

Module User.
Record t : Set := mk {
  id : Z;
  username : string;
  email : string;
  password_hash : string;
  created_at : datetime;
  last_login : option datetime
}.

(** The method [update_last_login] at the given clock reading. *)
Definition update_last_login (self : t) (now : datetime) : t :=
  mk (id self) (username self) (email self) (password_hash self)
     (created_at self) (Some now).
End User.

Module PomodoroSession.
Record t : Set := mk {
  id : Z;
  user_id : Z;
  duration : Z;
  completed : bool;
  session_type : string;
  started_at : datetime;
  completed_at : option datetime;
  task_description : option string
}.

(** The method [complete_session] of the model: marks the row completed
    at the given clock reading. *)
Definition complete_session (self : t) (now : datetime) : t :=
  mk (id self) (user_id self) (duration self) true (session_type self)
     (started_at self) (Some now) (task_description self).
End PomodoroSession.

Module UserSettings.
Record t : Set := mk {
  id : Z;
  user_id : Z;
  work_duration : Z;
  short_break_duration : Z;
  long_break_duration : Z;
  long_break_interval : Z;
  auto_start_breaks : bool;
  auto_start_pomodoros : bool;
  notifications_enabled : bool;
  sound_enabled : bool;
  theme : string
}.

(** [UserSettings(user_id=...)] once inserted: every other column takes
    its declared default. *)
Definition new (id user_id : Z) : t :=
  mk id user_id 25 5 15 4 false false true true "light".
End UserSettings.

Record DB : Set := mkDB {
  users : list User.t;
  pomodoro_sessions : list PomodoroSession.t;
  user_settings : list UserSettings.t
}.

Definition empty_db : DB := mkDB [] [] [].

(** Integer primary key of the next inserted row: one more than the largest
    key in the table, 1 in an empty table. *)
Definition next_id (ids : list Z) : Z := 1 + fold_right Z.max 0 ids.

Definition add_user (db : DB) (u : User.t) : DB :=
  mkDB (users db ++ [u]) (pomodoro_sessions db) (user_settings db).

Definition add_session (db : DB) (s : PomodoroSession.t) : DB :=
  mkDB (users db) (pomodoro_sessions db ++ [s]) (user_settings db).

Definition add_settings (db : DB) (s : UserSettings.t) : DB :=
  mkDB (users db) (pomodoro_sessions db) (user_settings db ++ [s]).

(** Commit of a modified user object: the row with its primary key is
    overwritten. *)
Definition update_user_row (db : DB) (u : User.t) : DB :=
  mkDB (map (fun r => if User.id r =? User.id u then u else r) (users db))
       (pomodoro_sessions db) (user_settings db).

(** Commit of a modified settings object: the row with its primary key is
    overwritten. *)
Definition update_settings_row (db : DB) (s : UserSettings.t) : DB :=
  mkDB (users db) (pomodoro_sessions db)
       (map (fun r => if UserSettings.id r =? UserSettings.id s then s else r)
            (user_settings db)).

(** ** Responses *)

Inductive jvalue : Set :=
| JBool (b : bool)
| JInt (n : Z).

Inductive validation_error : Set :=
| Required
| OutOfRange (min max : Z).

Definition form_errors : Set := list (string * list validation_error).

Record Stats : Set := mkStats {
  today_sessions : nat;
  week_sessions : nat;
  total_sessions : nat;
  total_hours : spec_float
}.

Inductive response : Set :=
| Redirect (endpoint : string)
| Jsonify (body : list (string * jvalue))
| RenderLogin
| RenderRegister
| RenderSettings (errors : form_errors) (settings : UserSettings.t)
| RenderDashboard (stats : Stats) (weekly_data : list nat)
| InternalServerError (e : exn).

(** ** Login ([app/__init__.py], Flask-Login) *)

Definition load_user (db : DB) (user_id : Z) : option User.t :=
  find (fun u => User.id u =? user_id) (users db).

Definition current_user (db : DB) (cookie : option Z) : option User.t :=
  match cookie with
  | Some user_id => load_user db user_id
  | None => None
  end.

(** [@login_required]: an anonymous request is redirected to the login view
    and the handler body does not run. *)
Definition login_required (db : DB) (cookie : option Z)
    (view : User.t -> DB * response) : DB * response :=
  match current_user db cookie with
  | Some u => view u
  | None => (db, Redirect "main.login")
  end.

(** ** Request payloads *)

(** JSON body of [/api/session/start] and [/api/session/complete]. *)
Record payload : Set := mkPayload {
  p_duration : option Z;
  p_session_type : option string
}.

(** [data.get(key, default)]. *)
Definition data_get {A : Type} (field : option A) (default : A) : A :=
  match field with
  | Some v => v
  | None => default
  end.

Module LoginForm.
Record t : Set := mk {
  username : string;
  password : string;
  remember_me : bool
}.
End LoginForm.

Module RegistrationForm.
Record t : Set := mk {
  username : string;
  email : string;
  password : string;
  password2 : string
}.

(** [validate_username]: rejected when a user with this name exists. *)
Definition validate_username (db : DB) (form : t) : bool :=
  match find (fun u => String.eqb (User.username u) (username form)) (users db) with
  | Some _ => false
  | None => true
  end.

(** [validate_email]: rejected when a user with this address exists. *)
Definition validate_email (db : DB) (form : t) : bool :=
  match find (fun u => String.eqb (User.email u) (email form)) (users db) with
  | Some _ => false
  | None => true
  end.
End RegistrationForm.

Module SettingsForm.
Record t : Set := mk {
  work_duration : Z;
  short_break_duration : Z;
  long_break_duration : Z;
  long_break_interval : Z;
  auto_start_breaks : bool;
  auto_start_pomodoros : bool;
  notifications_enabled : bool;
  sound_enabled : bool
}.

(** The validator chain [DataRequired(), NumberRange(min, max)] of an
    integer field.  [DataRequired] rejects a falsy value and stops the
    chain. *)
Definition validate_field (min max data : Z) : list validation_error :=
  if data =? 0 then [Required]
  else if (min <=? data) && (data <=? max) then []
  else [OutOfRange min max].

Definition has_errors (kv : string * list validation_error) : bool :=
  match snd kv with
  | [] => false
  | _ :: _ => true
  end.

(** [form.errors] after [form.validate()]: the fields with a non-empty
    list of errors, in declaration order. *)
Definition errors (form : t) : form_errors :=
  filter has_errors
    [ ("work_duration"%string, validate_field 1 60 (work_duration form));
      ("short_break_duration"%string, validate_field 1 30 (short_break_duration form));
      ("long_break_duration"%string, validate_field 1 60 (long_break_duration form));
      ("long_break_interval"%string, validate_field 2 10 (long_break_interval form)) ].

(** [form.populate_obj(user_settings)]: the eight form fields overwrite
    the columns of the same name; [id], [user_id] and [theme] stay. *)
Definition populate_obj (form : t) (obj : UserSettings.t) : UserSettings.t :=
  UserSettings.mk (UserSettings.id obj) (UserSettings.user_id obj)
    (work_duration form) (short_break_duration form)
    (long_break_duration form) (long_break_interval form)
    (auto_start_breaks form) (auto_start_pomodoros form)
    (notifications_enabled form) (sound_enabled form)
    (UserSettings.theme obj).
End SettingsForm.

(** ** Statistics queries ([dashboard], [get_stats], [complete_session])

    The routes write these queries inline; they are named here as the
    specification names them. *)

(** The filter shared by every statistics query: the user's completed work
    sessions. *)
Definition completed_work (uid : Z) (s : PomodoroSession.t) : bool :=
  (PomodoroSession.user_id s =? uid)
  && String.eqb (PomodoroSession.session_type s) "work"
  && PomodoroSession.completed s.

(** [... func.date(started_at) == day).count()] *)
Definition count_on_date (db : DB) (uid : Z) (day : date) : nat :=
  List.length (filter (fun s => completed_work uid s
                           && (date_of (PomodoroSession.started_at s) =? day))
                 (pomodoro_sessions db)).

(** [... func.date(started_at) >= day).count()] *)
Definition count_since (db : DB) (uid : Z) (day : date) : nat :=
  List.length (filter (fun s => completed_work uid s
                           && (day <=? date_of (PomodoroSession.started_at s)))
                 (pomodoro_sessions db)).

Definition total_count (db : DB) (uid : Z) : nat :=
  List.length (filter (completed_work uid) (pomodoro_sessions db)).

(** The running total of SQL [sum(...)] over the rows in the order of the
    scan: "integer overflow" once it leaves the 64-bit range. *)
Fixpoint sum_from (acc : Z) (l : list Z) : result Z :=
  match l with
  | [] => Ok acc
  | x :: l' =>
      if fits_int64 (acc + x) then sum_from (acc + x) l'
      else Raise OperationalError
  end.

(** The totals that sum runs through from [acc] on. *)
Fixpoint running_totals (acc : Z) (l : list Z) : list Z :=
  match l with
  | [] => []
  | x :: l' => (acc + x) :: running_totals (acc + x) l'
  end.

(** SQL [sum(...)]: NULL over no rows. *)
Definition sql_sum (l : list Z) : result (option Z) :=
  match l with
  | [] => Ok None
  | _ :: _ =>
      match sum_from 0 l with
      | Ok total => Ok (Some total)
      | Raise e => Raise e
      end
  end.

(** Python [x or 0] on the scalar of the query. *)
Definition or_zero (x : option Z) : Z :=
  match x with
  | Some v => if v =? 0 then 0 else v
  | None => 0
  end.

Definition total_focus_minutes (db : DB) (uid : Z) : result Z :=
  match sql_sum (map PomodoroSession.duration
                     (filter (completed_work uid) (pomodoro_sessions db))) with
  | Ok total => Ok (or_zero total)
  | Raise e => Raise e
  end.

(** The loop [for i in range(7)] of the dashboard. *)
Definition weekly_histogram (db : DB) (uid : Z) (today : date) : list nat :=
  map (fun i => count_on_date db uid (today - (6 - Z.of_nat i))) (seq 0 7).

(** ** Floats: [total_duration / 60] and [round(x, 1)] *)

(** Correctly rounded binary64 division ([prec = 53], [emax = 1024]). *)
Definition float_div : spec_float -> spec_float -> spec_float :=
  SFdiv 53 1024.

Definition SF_of_int (n : Z) : spec_float :=
  match n with
  | Z0 => S754_zero false
  | Zpos p => S754_finite false p 0
  | Zneg p => S754_finite true p 0
  end.

(** Python's true division of two integers: the binary64 number nearest to
    the exact quotient; [OverflowError] when that is not finite. *)
Definition int_true_divide (a b : Z) : result spec_float :=
  if b =? 0 then Raise ZeroDivisionError
  else match float_div (SF_of_int a) (SF_of_int b) with
       | S754_infinity _ => Raise OverflowError
       | q => Ok q
       end.

(** The integer nearest to [num / den] for [0 < den], a tie going to the
    even neighbour. *)
Definition round_half_even (num den : Z) : Z :=
  let q := num / den in
  match 2 * (num mod den) ?= den with
  | Lt => q
  | Gt => q + 1
  | Eq => if Z.even q then q else q + 1
  end.

(** [k] is an integer nearest to [num / den], and the even one of the two
    when [num / den] is half-way between them. *)
Definition nearest_even (num den k : Z) : Prop :=
  2 * Z.abs (num - k * den) < den
  \/ (2 * Z.abs (num - k * den) = den /\ Z.even k = true).

(** [q] is the binary64 number nearest to [num / den], for [0 < den] and a
    quotient in the range of the normal numbers: zero for [num = 0], else
    the sign of [num] and a mantissa of 53 bits that is nearest to the
    quotient scaled by the exponent, the even one in a tie. *)
Definition nearest_binary64 (num den : Z) (q : spec_float) : Prop :=
  match q with
  | S754_zero s => num = 0 /\ s = false
  | S754_finite s m e =>
      s = (num <? 0)
      /\ 2 ^ 52 <= Zpos m < 2 ^ 53
      /\ nearest_even (Z.abs num * 2 ^ Z.max 0 (- e)) (den * 2 ^ Z.max 0 e) (Zpos m)
  | _ => False
  end.

(** The quotient and the two bits of [num / den] in a shift record: the
    round bit says that the fraction is at least one half, the sticky bit
    that it is neither zero nor one half. *)
Definition rec_of (N D : Z) : shr_record :=
  Build_shr_record (N / D) (D <=? 2 * (N mod D))
    (negb (N mod D =? 0) && negb (2 * (N mod D) =? D)).

(** The number of tenths in [m * 2^e] rounded to one decimal place. *)
Definition tenths (m : positive) (e : Z) : Z :=
  if 0 <=? e then 10 * Zpos m * 2 ^ e
  else round_half_even (10 * Zpos m) (2 ^ (- e)).

(** [round(x, 1)] on a float: the exact value of [x] is rounded to the
    nearest multiple of 1/10, ties to even, and the decimal result is
    converted back to the nearest binary64 number. *)
Definition float_round1 (x : spec_float) : spec_float :=
  match x with
  | S754_finite s m e =>
      match tenths m e with
      | Zpos k => float_div (S754_finite s k 0) (S754_finite false 10 0)
      | _ => S754_zero s
      end
  | _ => x
  end.

Definition total_focus_hours (db : DB) (uid : Z) : result spec_float :=
  match total_focus_minutes db uid with
  | Ok total_duration =>
      match int_true_divide total_duration 60 with
      | Ok q => Ok (float_round1 q)
      | Raise e => Raise e
      end
  | Raise e => Raise e
  end.

(** ** Routes ([app/routes.py]) *)

(** [login].  The verdict of the library validators of the form, the
    verdict of [check_password] on the stored hash and the [next] argument
    of the URL are inputs.  A successful login stamps [last_login]. *)
Definition login (db : DB) (cookie : option Z) (post : option LoginForm.t)
    (validators_ok password_ok : bool) (next_page : option string)
    (now : datetime) : DB * response :=
  match current_user db cookie with
  | Some _ => (db, Redirect "main.index")
  | None =>
      match post with
      | Some form =>
          if validators_ok then
            match find (fun u => String.eqb (User.username u) (LoginForm.username form))
                       (users db) with
            | Some user =>
                if password_ok then
                  (update_user_row db (User.update_last_login user now),
                   Redirect (match next_page with
                             | Some path =>
                                 if String.prefix "/" path then path
                                 else "main.index"%string
                             | None => "main.index"%string
                             end))
                else (db, Redirect "main.login")
            | None => (db, Redirect "main.login")
            end
          else (db, RenderLogin)
      | None => (db, RenderLogin)
      end
  end.

(** [register].  The verdict of the library validators of the form
    ([DataRequired], [Length], [Email], [EqualTo]) and the salted password
    hash are inputs; the two uniqueness validators of the form are run on
    the users table. *)
Definition register (db : DB) (cookie : option Z)
    (post : option RegistrationForm.t) (validators_ok : bool)
    (password_hash : string) (now : datetime) : DB * response :=
  match current_user db cookie with
  | Some _ => (db, Redirect "main.index")
  | None =>
      match post with
      | Some form =>
          if validators_ok
             && RegistrationForm.validate_username db form
             && RegistrationForm.validate_email db form
          then
            let user :=
              User.mk (next_id (map User.id (users db)))
                      (RegistrationForm.username form)
                      (RegistrationForm.email form)
                      password_hash now None in
            let db := add_user db user in
            let settings :=
              UserSettings.new (next_id (map UserSettings.id (user_settings db)))
                               (User.id user) in
            (add_settings db settings, Redirect "main.login")
          else (db, RenderRegister)
      | None => (db, RenderRegister)
      end
  end.

(** First half of [settings]: the user's settings row, created with the
    defaults when the query finds none. *)
Definition get_or_create_settings (db : DB) (uid : Z) : DB * UserSettings.t :=
  match find (fun s => UserSettings.user_id s =? uid) (user_settings db) with
  | Some user_settings => (db, user_settings)
  | None =>
      let user_settings :=
        UserSettings.new (next_id (map UserSettings.id (user_settings db))) uid in
      (add_settings db user_settings, user_settings)
  end.

(** [settings]: [post] is the submitted form of a POST request, [None] for
    a GET request. *)
Definition settings (db : DB) (cookie : option Z)
    (post : option SettingsForm.t) : DB * response :=
  login_required db cookie (fun current_user =>
    let (db, user_settings) := get_or_create_settings db (User.id current_user) in
    match post with
    | Some form =>
        match SettingsForm.errors form with
        | [] =>
            (update_settings_row db (SettingsForm.populate_obj form user_settings),
             Redirect "main.settings")
        | errors => (db, RenderSettings errors user_settings)
        end
    | None => (db, RenderSettings [] user_settings)
    end).

(** [start_session].  The commit binds [duration] to an INTEGER parameter
    of the INSERT. *)
Definition start_session (db : DB) (cookie : option Z) (data : payload)
    (now : datetime) : DB * response :=
  login_required db cookie (fun current_user =>
    let session :=
      PomodoroSession.mk
        (next_id (map PomodoroSession.id (pomodoro_sessions db)))
        (User.id current_user)
        (data_get (p_duration data) 25)
        false
        (data_get (p_session_type data) "work"%string)
        now
        None
        None in
    if fits_int64 (PomodoroSession.duration session)
    then (add_session db session,
          Jsonify [("success"%string, JBool true);
                   ("session_id"%string, JInt (PomodoroSession.id session))])
    else (db, InternalServerError OverflowError)).

(** [complete_session]: [now] is the clock when [started_at] is computed,
    [now + elapsed] the clock when [completed_at] is.  At a clock of the
    calendar a [duration] whose [started_at] is in the calendar is within
    the range of its column. *)
Definition complete_session (db : DB) (cookie : option Z) (data : payload)
    (now : datetime) (elapsed : N) : DB * response :=
  login_required db cookie (fun current_user =>
    match datetime_sub now (timedelta_minutes (data_get (p_duration data) 25)) with
    | Raise e => (db, InternalServerError e)
    | Ok started =>
        let session :=
          PomodoroSession.mk
            (next_id (map PomodoroSession.id (pomodoro_sessions db)))
            (User.id current_user)
            (data_get (p_duration data) 25)
            true
            (data_get (p_session_type data) "work"%string)
            started
            (Some (now + Z.of_N elapsed))
            None in
        let db := add_session db session in
        let total_sessions := total_count db (User.id current_user) in
        (db,
         Jsonify [("success"%string, JBool true);
                  ("session_id"%string, JInt (PomodoroSession.id session));
                  ("total_sessions"%string, JInt (Z.of_nat total_sessions))])
    end).

Definition get_stats (db : DB) (cookie : option Z) (now : datetime)
    : DB * response :=
  login_required db cookie (fun current_user =>
    let today := date_of now in
    let today_sessions := count_on_date db (User.id current_user) today in
    let total_sessions := total_count db (User.id current_user) in
    (db,
     Jsonify [("today_sessions"%string, JInt (Z.of_nat today_sessions));
              ("total_sessions"%string, JInt (Z.of_nat total_sessions))])).

(** [dashboard], without the list of recent sessions.  The three counts
    are queried before the sum, which may fail. *)
Definition dashboard (db : DB) (cookie : option Z) (now : datetime)
    : DB * response :=
  login_required db cookie (fun current_user =>
    let today := date_of now in
    let week_ago := today - 7 in
    let today_sessions := count_on_date db (User.id current_user) today in
    let week_sessions := count_since db (User.id current_user) week_ago in
    let total_sessions := total_count db (User.id current_user) in
    match total_focus_hours db (User.id current_user) with
    | Raise e => (db, InternalServerError e)
    | Ok total_hours =>
        let stats :=
          mkStats today_sessions week_sessions total_sessions total_hours in
        let weekly_data := weekly_histogram db (User.id current_user) today in
        (db, RenderDashboard stats weekly_data)
    end).

(** ** The application as a transition system *)

Inductive request : Set :=
| POST_login (cookie : option Z) (form : LoginForm.t)
    (validators_ok password_ok : bool) (next_page : option string)
    (now : datetime)
| POST_register (cookie : option Z) (form : RegistrationForm.t)
    (validators_ok : bool) (password_hash : string) (now : datetime)
| GET_settings (cookie : option Z)
| POST_settings (cookie : option Z) (form : SettingsForm.t)
| POST_session_start (cookie : option Z) (data : payload) (now : datetime)
| POST_session_complete (cookie : option Z) (data : payload)
    (now : datetime) (elapsed : N)
| GET_stats (cookie : option Z) (now : datetime)
| GET_dashboard (cookie : option Z) (now : datetime).

Definition handle (db : DB) (r : request) : DB * response :=
  match r with
  | POST_login cookie form ok pw next_page now =>
      login db cookie (Some form) ok pw next_page now
  | POST_register cookie form ok h now => register db cookie (Some form) ok h now
  | GET_settings cookie => settings db cookie None
  | POST_settings cookie form => settings db cookie (Some form)
  | POST_session_start cookie data now => start_session db cookie data now
  | POST_session_complete cookie data now elapsed =>
      complete_session db cookie data now elapsed
  | GET_stats cookie now => get_stats db cookie now
  | GET_dashboard cookie now => dashboard db cookie now
  end.

(** The database after serving the requests in order. *)
Definition run (db : DB) (rs : list request) : DB :=
  fold_left (fun db r => fst (handle db r)) rs db.

(** ** Views of the tables and invariants *)

(** The user's rows of the ledger. *)
Definition sessions_of (db : DB) (uid : Z) : list PomodoroSession.t :=
  filter (fun s => PomodoroSession.user_id s =? uid) (pomodoro_sessions db).

(** The user's rows of the settings table. *)
Definition settings_of (db : DB) (uid : Z) : list UserSettings.t :=
  filter (fun s => UserSettings.user_id s =? uid) (user_settings db).

(** The row invariant of the ledger: a pending row has no completion time;
    a completed row has one, and it is not before the start when the
    duration is positive. *)
Definition session_invariant (s : PomodoroSession.t) : Prop :=
  if PomodoroSession.completed s
  then exists c : datetime,
         PomodoroSession.completed_at s = Some c
         /\ (0 < PomodoroSession.duration s -> PomodoroSession.started_at s <= c)
  else PomodoroSession.completed_at s = None.

(** Well-formedness of the settings table: primary keys are distinct, no
    two rows belong to the same user, and every row belongs to a user. *)
Definition settings_wf (db : DB) : Prop :=
  NoDup (map UserSettings.id (user_settings db))
  /\ NoDup (map UserSettings.user_id (user_settings db))
  /\ forall s, In s (user_settings db) ->
               In (UserSettings.user_id s) (map User.id (users db)).

(** No user has two rows of the settings table. *)
Definition one_row_per_user (db : DB) : Prop :=
  forall uid : Z, (List.length (settings_of db uid) <= 1)%nat.


(** The float 1.0: mantissa [2^52], exponent [-52]. *)
Definition float_one : spec_float := S754_finite false 4503599627370496 (-52).

(** ** Session cycle policy *)

Inductive session_type : Set :=
| work
| short_break
| long_break.

(** Modelled from the spec: the session cycle policy, which the repository
    leaves to the timer script of the browser; no Python source decides
    the next session type.  After every [long_break_interval]-th completed
    work session of the cycle the next type is a long break, after any
    other work session a short break. *)
Definition next_session_type (settings : UserSettings.t)
    (completed_work_count_in_cycle : Z) : session_type :=
  if (0 <? completed_work_count_in_cycle)
     && (completed_work_count_in_cycle mod UserSettings.long_break_interval settings
         =? 0)
  then long_break
  else short_break.

(** Modelled from the spec: the suggestion after a session of type [last];
    after any break the next type is work. *)
Definition suggest_next (last : session_type) (settings : UserSettings.t)
    (completed_work_count_in_cycle : Z) : session_type :=
  match last with
  | work => next_session_type settings completed_work_count_in_cycle
  | short_break | long_break => work
  end.

(** ** Sample data *)

Definition alice_form : RegistrationForm.t :=
  RegistrationForm.mk "alice" "alice@example.org" "tomato25" "tomato25".

(** 2026-11-03 12:00:00 UTC. *)
Definition noon : datetime := 739922 * MICROSECONDS_PER_DAY + 43200000000.

(** The database once alice has registered: user 1 with settings row 1. *)
Definition db_alice : DB :=
  run empty_db [POST_register None alice_form true "pbkdf2:sha256:0001" (noon - 1)].

Definition alice : User.t :=
  User.mk 1 "alice" "alice@example.org" "pbkdf2:sha256:0001" (noon - 1) None.

(** Alice after three completed work sessions of 25, 25 and 10 minutes, a
    break and a pending session. *)
Definition db_three_sessions : DB :=
  run db_alice
    [ POST_session_complete (Some 1) (mkPayload None None) noon 3;
      POST_session_complete (Some 1) (mkPayload (Some 5) (Some "short_break"%string)) noon 3;
      POST_session_complete (Some 1) (mkPayload (Some 25) (Some "work"%string)) noon 3;
      POST_session_start (Some 1) (mkPayload (Some 25) None) noon;
      POST_session_complete (Some 1) (mkPayload (Some 10) None) noon 3 ].

Definition form_with_interval (i : Z) : SettingsForm.t :=
  SettingsForm.mk 30 10 20 i true false true false.

Definition bob_form : RegistrationForm.t :=
  RegistrationForm.mk "bob" "bob@example.org" "carrot50" "carrot50".

(** Alice and bob registered; alice has completed one work session. *)
Definition db_two_users : DB :=
  run db_alice
    [ POST_register None bob_form true "pbkdf2:sha256:0002" noon;
      POST_session_complete (Some 1) (mkPayload None None) noon 7 ].

(** The same, after bob has started one session and completed two. *)
Definition db_bob_busy : DB :=
  run db_two_users
    [ POST_session_start (Some 2) (mkPayload (Some 50) None) noon;
      POST_session_complete (Some 2) (mkPayload (Some 50) None) noon 7;
      POST_session_complete (Some 2) (mkPayload None None) noon 9 ].

(** ** Listings: [history] and the recent sessions of [dashboard]

    Both listings order the user's rows by [started_at], newest first.  The
    order among rows that started at the same instant is the database's:
    [order_by] stands for the ordering it applies, whatever it does with
    ties. *)

(** [query.paginate(page=page, per_page=per_page, error_out=False)], for a
    page size within the cap of the library, as the 20 of [history] is: a
    page or page size below 1 falls back to 1 and 20; the items are the
    rows after the first [(page - 1) * per_page], an OFFSET the driver has
    to bind, as it has to bind the LIMIT. *)
Definition paginate {A : Type} (items : list A) (page per_page : Z)
    : result (list A) :=
  let page := if page <? 1 then 1 else page in
  let per_page := if per_page <? 1 then 20 else per_page in
  let offset := (page - 1) * per_page in
  if fits_int64 per_page && fits_int64 offset
  then Ok (firstn (Z.to_nat per_page) (skipn (Z.to_nat offset) items))
  else Raise OverflowError.

(** The last page of 20 rows whose OFFSET the driver can bind:
    [INT64_MAX / 20 + 1]. *)
Definition LAST_PAGE : Z := 461168601842738791.

Inductive listing : Set :=
| ListingRedirect (endpoint : string)
| RenderHistory (sessions : list PomodoroSession.t)
| ListingError (e : exn).

(** [history]: [page_arg] is the integer of the [page] argument of the URL,
    [None] when it is absent or not an integer. *)
Definition history
    (order_by : list PomodoroSession.t -> list PomodoroSession.t)
    (db : DB) (cookie : option Z) (page_arg : option Z) : listing :=
  match current_user db cookie with
  | Some current_user =>
      let page := data_get page_arg 1 in
      let per_page := 20 in
      match paginate (order_by (sessions_of db (User.id current_user)))
                     page per_page with
      | Ok sessions => RenderHistory sessions
      | Raise e => ListingError e
      end
  | None => ListingRedirect "main.login"
  end.

(** [recent_sessions] of [dashboard]: [.limit(10)] of the same ordering. *)
Definition recent_sessions
    (order_by : list PomodoroSession.t -> list PomodoroSession.t)
    (db : DB) (uid : Z) : list PomodoroSession.t :=
  firstn 10 (order_by (sessions_of db uid)).

(** Newest first. *)
Definition newer_or_equal (x y : PomodoroSession.t) : Prop :=
  PomodoroSession.started_at y <= PomodoroSession.started_at x.

(** An ordering by insertion, to have one at hand. *)
Fixpoint insert_desc (x : PomodoroSession.t) (l : list PomodoroSession.t)
    : list PomodoroSession.t :=
  match l with
  | [] => [x]
  | y :: l' =>
      if PomodoroSession.started_at y <=? PomodoroSession.started_at x
      then x :: l
      else y :: insert_desc x l'
  end.

Definition sort_desc (l : list PomodoroSession.t) : list PomodoroSession.t :=
  fold_right insert_desc [] l.

(** ** The model method with its commit, and the [seed_db] command *)

(** Commit of a modified session object. *)
Definition update_session_row (db : DB) (s : PomodoroSession.t) : DB :=
  mkDB (users db)
       (map (fun r => if PomodoroSession.id r =? PomodoroSession.id s then s else r)
            (pomodoro_sessions db))
       (user_settings db).

(** [session.complete_session()] on a row of the ledger: the method sets
    the two columns and commits. *)
Definition complete_row (db : DB) (s : PomodoroSession.t) (now : datetime) : DB :=
  update_session_row db (PomodoroSession.complete_session s now).

Inductive seed_result : Set :=
| Seeded (db : DB)
| IntegrityError.

(** [seed_db] of [run.py]: inserts the user demo, without a settings row.
    [username] and [email] are unique columns: the commit fails when either
    value is taken.  The password hash and the clock are inputs. *)
Definition seed_db (db : DB) (password_hash : string) (now : datetime)
    : seed_result :=
  if existsb (fun u => String.eqb (User.username u) "demo") (users db)
     || existsb (fun u => String.eqb (User.email u) "demo@example.com") (users db)
  then IntegrityError
  else
    Seeded (add_user db
              (User.mk (next_id (map User.id (users db)))
                       "demo" "demo@example.com" password_hash now None)).

(** ** The application with its command line *)

Inductive command : Set :=
| Serve (r : request)
| Seed (password_hash : string) (now : datetime).

(** A command whose commit fails leaves the database as it was. *)
Definition exec (db : DB) (c : command) : DB :=
  match c with
  | Serve r => fst (handle db r)
  | Seed password_hash now =>
      match seed_db db password_hash now with
      | Seeded db' => db'
      | IntegrityError => db
      end
  end.

(** The database after the commands in order. *)
Definition execute (db : DB) (cs : list command) : DB :=
  fold_left exec cs db.

(** ** Retry helper of the page objects ([tests/page_objects/base_page.py]) *)

(** What one call of [func()] does. *)
Inductive call_outcome (A : Type) : Type :=
| Returns (a : A)
| RaisesStale
| RaisesOther (name : string).
Arguments Returns {A} a.
Arguments RaisesStale {A}.
Arguments RaisesOther {A} name.

Inductive retry_result (A : Type) : Type :=
| Returned (a : A)
| ReturnedNone
| RaisedStale
| RaisedOther (name : string).
Arguments Returned {A} a.
Arguments ReturnedNone {A}.
Arguments RaisedStale {A}.
Arguments RaisedOther {A} name.

(** The loop [for attempt in range(max_attempts)], from [attempt] on with
    [remaining] iterations to go; [func k] is what the call number [k] of
    [func] does.  The result comes with the number of calls of [func] and
    of [time.sleep]. *)
Fixpoint retry_loop {A : Type} (func : nat -> call_outcome A)
    (max_attempts : Z) (remaining attempt : nat) : retry_result A * nat * nat :=
  match remaining with
  | O => (ReturnedNone, attempt, attempt)
  | S remaining' =>
      match func attempt with
      | Returns a => (Returned a, S attempt, attempt)
      | RaisesStale =>
          if Z.of_nat attempt =? max_attempts - 1
          then (RaisedStale, S attempt, attempt)
          else retry_loop func max_attempts remaining' (S attempt)
      | RaisesOther name => (RaisedOther name, S attempt, attempt)
      end
  end.

Definition retry_on_stale_element {A : Type} (func : nat -> call_outcome A)
    (max_attempts : Z) : retry_result A * nat * nat :=
  retry_loop func max_attempts (Z.to_nat max_attempts) 0.

(** ** What a request can do to the database *)

(** The shape of every row the session routes insert: no task description;
    a pending row without completion time; a completed row with a
    completion time at least [duration] minutes after a start that lies in
    the calendar. *)
Definition timed_row (s : PomodoroSession.t) : Prop :=
  PomodoroSession.task_description s = None
  /\ if PomodoroSession.completed s
     then exists c : datetime,
            PomodoroSession.completed_at s = Some c
            /\ PomodoroSession.started_at s
               + timedelta_minutes (PomodoroSession.duration s) <= c
            /\ datetime_in_range (PomodoroSession.started_at s) = true
     else PomodoroSession.completed_at s = None.

(** The five writes the routes perform. *)
Inductive effect (db : DB) : DB -> Prop :=
| effect_stamp (user : User.t) (now : datetime) :
    In user (users db) ->
    effect db (update_user_row db (User.update_last_login user now))
| effect_register (user : User.t) :
    User.id user = next_id (map User.id (users db)) ->
    ~ In (User.username user) (map User.username (users db)) ->
    ~ In (User.email user) (map User.email (users db)) ->
    effect db
      (add_settings (add_user db user)
         (UserSettings.new (next_id (map UserSettings.id (user_settings db)))
                           (User.id user)))
| effect_settings_create (uid : Z) :
    In uid (map User.id (users db)) ->
    ~ In uid (map UserSettings.user_id (user_settings db)) ->
    effect db
      (add_settings db
         (UserSettings.new (next_id (map UserSettings.id (user_settings db))) uid))
| effect_settings_update (row : UserSettings.t) (form : SettingsForm.t) :
    In row (user_settings db) ->
    SettingsForm.errors form = [] ->
    effect db (update_settings_row db (SettingsForm.populate_obj form row))
| effect_session (row : PomodoroSession.t) :
    PomodoroSession.id row = next_id (map PomodoroSession.id (pomodoro_sessions db)) ->
    In (PomodoroSession.user_id row) (map User.id (users db)) ->
    timed_row row ->
    effect db (add_session db row).

Inductive effects (db : DB) : DB -> Prop :=
| effects_done : effects db db
| effects_step (db1 db2 : DB) :
    effects db db1 -> effect db1 db2 -> effects db db2.

(** Keys of the users table: ids, names and addresses are distinct. *)
Definition users_wf (db : DB) : Prop :=
  NoDup (map User.id (users db))
  /\ NoDup (map User.username (users db))
  /\ NoDup (map User.email (users db)).

(** Keys of the ledger: ids are distinct and every row belongs to a user. *)
Definition ledger_wf (db : DB) : Prop :=
  NoDup (map PomodoroSession.id (pomodoro_sessions db))
  /\ forall s, In s (pomodoro_sessions db) ->
               In (PomodoroSession.user_id s) (map User.id (users db)).

(** The ranges of the settings form, and the default theme. *)
Definition settings_in_range (s : UserSettings.t) : Prop :=
  1 <= UserSettings.work_duration s <= 60
  /\ 1 <= UserSettings.short_break_duration s <= 30
  /\ 1 <= UserSettings.long_break_duration s <= 60
  /\ 2 <= UserSettings.long_break_interval s <= 10
  /\ UserSettings.theme s = "light"%string.

(** The settings table is well formed, every user has a row in it, and
    every row is within the ranges. *)
Definition settings_complete (db : DB) : Prop :=
  settings_wf db
  /\ (forall uid, In uid (map User.id (users db)) ->
                  In uid (map UserSettings.user_id (user_settings db)))
  /\ Forall settings_in_range (user_settings db).

(** ** More sample data *)

(** Alice with five sessions of her own and bob with three. *)
Definition db_history : DB :=
  run db_bob_busy
    [ POST_session_start (Some 1) (mkPayload (Some 15) None) (noon + 50);
      POST_session_complete (Some 1) (mkPayload (Some 5) (Some "short_break"%string))
        (noon + 90) 2;
      POST_session_complete (Some 1) (mkPayload (Some 45) None) (noon + 70) 2;
      POST_session_start (Some 1) (mkPayload None (Some "long_break"%string))
        (noon + 50) ].

Definition form_short : SettingsForm.t :=
  SettingsForm.mk 50 10 30 3 true true false false.

(** A work session of a thousand million minutes, completed at noon of
    2026-11-03: it started in the year 125. *)
Definition marathon : request :=
  POST_session_complete (Some 1) (mkPayload (Some 1000000000) None) noon 0.

(** Alice after [n] such sessions. *)
Definition db_marathons (n : nat) : DB := run db_alice (repeat marathon n).

(** * Properties *)

(** ** Primary keys, login and table lemmas *)

Lemma fold_max_upper (ids : list Z) (x : Z) :
  In x ids -> x <= fold_right Z.max 0 ids.
Proof.
  induction ids as [|y ids IH]; simpl; intros H.
  - contradiction.
  - destruct H as [-> | H]; [lia | specialize (IH H); lia].
Qed.

Lemma next_id_fresh (ids : list Z) : ~ In (next_id ids) ids.
Proof.
  intros H. apply fold_max_upper in H. unfold next_id in H. lia.
Qed.

Lemma load_user_id (db : DB) (uid : Z) (u : User.t) :
  load_user db uid = Some u -> User.id u = uid /\ In u (users db).
Proof.
  unfold load_user. intros H. apply find_some in H.
  destruct H as [Hin Heq]. split; [now apply Z.eqb_eq | exact Hin].
Qed.

Lemma current_user_id (db : DB) (cookie : option Z) (u : User.t) :
  current_user db cookie = Some u ->
  cookie = Some (User.id u) /\ In u (users db).
Proof.
  destruct cookie as [uid|]; simpl; [|discriminate].
  intros H. apply load_user_id in H. destruct H as [<- Hin]. now split.
Qed.

Lemma login_required_some (db : DB) (cookie : option Z) (u : User.t)
    (view : User.t -> DB * response) :
  current_user db cookie = Some u -> login_required db cookie view = view u.
Proof. unfold login_required. now intros ->. Qed.

Lemma login_required_none (db : DB) (cookie : option Z)
    (view : User.t -> DB * response) :
  current_user db cookie = None ->
  login_required db cookie view = (db, Redirect "main.login").
Proof. unfold login_required. now intros ->. Qed.

Lemma sessions_of_add (db : DB) (uid : Z) (s : PomodoroSession.t) :
  sessions_of (add_session db s) uid =
  sessions_of db uid ++ (if PomodoroSession.user_id s =? uid then [s] else []).
Proof. unfold sessions_of. simpl. now rewrite filter_app. Qed.

(** What each of the two session routes does for a logged-in user. *)
Lemma start_session_eq (db : DB) (cookie : option Z) (u : User.t)
    (data : payload) (now : datetime) :
  current_user db cookie = Some u ->
  let session :=
    PomodoroSession.mk (next_id (map PomodoroSession.id (pomodoro_sessions db)))
      (User.id u) (data_get (p_duration data) 25) false
      (data_get (p_session_type data) "work"%string) now None None in
  fits_int64 (data_get (p_duration data) 25) = true ->
  start_session db cookie data now =
  (add_session db session,
   Jsonify [("success"%string, JBool true);
            ("session_id"%string, JInt (PomodoroSession.id session))]).
Proof.
  intros H session Hf. unfold start_session.
  rewrite (login_required_some _ _ u) by exact H.
  cbn [PomodoroSession.duration]. now rewrite Hf.
Qed.

Lemma start_session_overflow (db : DB) (cookie : option Z) (u : User.t)
    (data : payload) (now : datetime) :
  current_user db cookie = Some u ->
  fits_int64 (data_get (p_duration data) 25) = false ->
  start_session db cookie data now = (db, InternalServerError OverflowError).
Proof.
  intros H Hf. unfold start_session.
  rewrite (login_required_some _ _ u) by exact H.
  cbn [PomodoroSession.duration]. now rewrite Hf.
Qed.

Lemma fits_int64_bounds (n : Z) :
  fits_int64 n = true <-> - 2 ^ 63 <= n < 2 ^ 63.
Proof.
  unfold fits_int64, INT64_MIN, INT64_MAX.
  change (2 ^ 63) with 9223372036854775808.
  rewrite andb_true_iff, Z.leb_le, Z.leb_le. lia.
Qed.

(** At a clock of the calendar, a duration whose start lies in the calendar
    fits its column. *)
Lemma calendar_duration_fits (now : datetime) (d : Z) :
  datetime_in_range now = true ->
  datetime_in_range (now - timedelta_minutes d) = true ->
  fits_int64 d = true.
Proof.
  unfold datetime_in_range, timedelta_minutes, MAXORDINAL, MICROSECONDS_PER_DAY,
    MICROSECONDS_PER_MINUTE.
  rewrite !andb_true_iff, !Z.leb_le, !Z.ltb_lt. intros H1 H2.
  apply fits_int64_bounds. change (2 ^ 63) with 9223372036854775808. lia.
Qed.

Lemma complete_session_eq (db : DB) (cookie : option Z) (u : User.t)
    (data : payload) (now : datetime) (elapsed : N) :
  current_user db cookie = Some u ->
  let d := data_get (p_duration data) 25 in
  datetime_in_range (now - timedelta_minutes d) = true ->
  let session :=
    PomodoroSession.mk (next_id (map PomodoroSession.id (pomodoro_sessions db)))
      (User.id u) d true (data_get (p_session_type data) "work"%string)
      (now - timedelta_minutes d) (Some (now + Z.of_N elapsed)) None in
  complete_session db cookie data now elapsed =
  (add_session db session,
   Jsonify [("success"%string, JBool true);
            ("session_id"%string, JInt (PomodoroSession.id session));
            ("total_sessions"%string,
             JInt (Z.of_nat (total_count (add_session db session) (User.id u))))]).
Proof.
  intros H d Hr. unfold complete_session.
  rewrite (login_required_some _ _ u) by exact H.
  unfold datetime_sub. fold d. now rewrite Hr.
Qed.

Lemma complete_session_overflow (db : DB) (cookie : option Z) (u : User.t)
    (data : payload) (now : datetime) (elapsed : N) :
  current_user db cookie = Some u ->
  datetime_in_range (now - timedelta_minutes (data_get (p_duration data) 25)) = false ->
  complete_session db cookie data now elapsed = (db, InternalServerError OverflowError).
Proof.
  intros H Hr. unfold complete_session.
  rewrite (login_required_some _ _ u) by exact H.
  unfold datetime_sub. now rewrite Hr.
Qed.

Example db_alice_eq : db_alice = mkDB [alice] [] [UserSettings.new 1 1].
Proof. reflexivity. Qed.

Example alice_logged_in : current_user db_alice (Some 1) = Some alice.
Proof. reflexivity. Qed.

(** ** Session ledger: [start_session] and [complete_session] *)

(** C8, as the code has it.  For a logged-in user and a duration that the
    INTEGER column can hold, [start_session] appends one row: not
    completed, without completion time, started at the server's clock
    reading, with the requested duration (25 when absent) and the requested
    session type (work when absent), and answers with the id of that row.
    The row does not depend on the settings table: no setting is consulted
    to validate the duration.  For any other duration the commit raises
    [OverflowError] and no row is created. *)
Theorem start_session_creates_pending (db : DB) (cookie : option Z)
    (u : User.t) (data : payload) (now : datetime) :
  current_user db cookie = Some u ->
  let d := match p_duration data with Some d => d | None => 25 end in
  if (- 2 ^ 63 <=? d) && (d <? 2 ^ 63)
  then
    exists row : PomodoroSession.t,
      start_session db cookie data now =
        (add_session db row,
         Jsonify [("success"%string, JBool true);
                  ("session_id"%string, JInt (PomodoroSession.id row))])
      /\ PomodoroSession.user_id row = User.id u
      /\ PomodoroSession.completed row = false
      /\ PomodoroSession.completed_at row = None
      /\ PomodoroSession.started_at row = now
      /\ PomodoroSession.duration row = d
      /\ PomodoroSession.session_type row =
           match p_session_type data with Some ty => ty | None => "work"%string end
      /\ forall table : list UserSettings.t,
           pomodoro_sessions
             (fst (start_session (mkDB (users db) (pomodoro_sessions db) table)
                                 cookie data now))
           = pomodoro_sessions db ++ [row]
  else
    forall table : list UserSettings.t,
      let db' := mkDB (users db) (pomodoro_sessions db) table in
      start_session db' cookie data now = (db', InternalServerError OverflowError).
Proof.
  intros H d.
  assert (Hd : data_get (p_duration data) 25 = d) by reflexivity.
  destruct ((- 2 ^ 63 <=? d) && (d <? 2 ^ 63)) eqn:Hb.
  - assert (Hf : fits_int64 (data_get (p_duration data) 25) = true).
    { rewrite Hd. apply fits_int64_bounds.
      apply andb_true_iff in Hb. rewrite Z.leb_le, Z.ltb_lt in Hb. exact Hb. }
    eexists. split; [apply (start_session_eq db cookie u data now H Hf)|].
    repeat split.
    intros table.
    assert (H' : current_user (mkDB (users db) (pomodoro_sessions db) table) cookie
                 = Some u) by exact H.
    now rewrite (start_session_eq _ cookie u data now H' Hf).
  - assert (Hf : fits_int64 (data_get (p_duration data) 25) = false).
    { rewrite Hd. destruct (fits_int64 d) eqn:E; [|reflexivity].
      apply fits_int64_bounds in E. apply andb_false_iff in Hb.
      rewrite Z.leb_gt, Z.ltb_ge in Hb. lia. }
    intros table db'.
    assert (H' : current_user db' cookie = Some u) by exact H.
    exact (start_session_overflow db' cookie u data now H' Hf).
Qed.

Lemma start_session_creates_pending_witness :
  current_user db_alice (Some 1) = Some alice
  /\ exists row : PomodoroSession.t,
    start_session db_alice (Some 1) (mkPayload (Some 90) None) noon =
      (add_session db_alice row,
       Jsonify [("success"%string, JBool true);
                ("session_id"%string, JInt (PomodoroSession.id row))])
    /\ PomodoroSession.user_id row = 1
    /\ PomodoroSession.completed row = false
    /\ PomodoroSession.completed_at row = None
    /\ PomodoroSession.started_at row = noon
    /\ PomodoroSession.duration row = 90
    /\ PomodoroSession.session_type row = "work"%string
    /\ forall table : list UserSettings.t,
         pomodoro_sessions
           (fst (start_session (mkDB (users db_alice) (pomodoro_sessions db_alice) table)
                               (Some 1) (mkPayload (Some 90) None) noon))
         = pomodoro_sessions db_alice ++ [row].
Proof.
  split; [reflexivity|].
  exact (start_session_creates_pending db_alice (Some 1) alice
           (mkPayload (Some 90) None) noon eq_refl).
Defined.

(** C8 as stated fails for a duration of [2^63] minutes: the commit raises,
    the answer is the error page, and the ledger has no new row. *)
Lemma start_session_wide_duration_no_row :
  let data := mkPayload (Some 9223372036854775808) (Some "work"%string) in
  start_session db_alice (Some 1) data noon
    = (db_alice, InternalServerError OverflowError)
  /\ sessions_of (run db_alice [POST_session_start (Some 1) data noon]) 1 = [].
Proof. split; reflexivity. Qed.

(** C1, as the code has it.  For a logged-in user and a duration [d] for
    which [now] minus [d] minutes is a datetime of the calendar,
    [complete_session] appends one row under a fresh id: completed, with
    [completed_at] the clock reading taken for it and [started_at] the
    clock reading minus [d] minutes; every earlier row stays as it was.
    [start_session] with a duration its column can hold, followed by
    [complete_session], therefore adds two rows to the user's ledger, the
    pending one left untouched and a completed one.  At a clock of the
    calendar the column can hold [d] itself. *)
Theorem complete_session_creates_row (db : DB) (cookie : option Z)
    (u : User.t) (data : payload) (now : datetime) (elapsed : N) :
  current_user db cookie = Some u ->
  let d := match p_duration data with Some d => d | None => 25 end in
  datetime_in_range (now - d * MICROSECONDS_PER_MINUTE) = true ->
  (exists row : PomodoroSession.t,
     fst (complete_session db cookie data now elapsed) = add_session db row
     /\ ~ In (PomodoroSession.id row)
             (map PomodoroSession.id (pomodoro_sessions db))
     /\ PomodoroSession.user_id row = User.id u
     /\ PomodoroSession.duration row = d
     /\ PomodoroSession.completed row = true
     /\ PomodoroSession.completed_at row = Some (now + Z.of_N elapsed)
     /\ PomodoroSession.started_at row = now - d * MICROSECONDS_PER_MINUTE)
  /\ (forall (data0 : payload) (now0 : datetime),
       let d0 := match p_duration data0 with Some d0 => d0 | None => 25 end in
       - 2 ^ 63 <= d0 < 2 ^ 63 ->
       let db1 := fst (start_session db cookie data0 now0) in
       let db2 := fst (complete_session db1 cookie data now elapsed) in
       exists pending done : PomodoroSession.t,
         pomodoro_sessions db1 = pomodoro_sessions db ++ [pending]
         /\ pomodoro_sessions db2 = pomodoro_sessions db ++ [pending; done]
         /\ sessions_of db2 (User.id u) = sessions_of db (User.id u) ++ [pending; done]
         /\ PomodoroSession.duration pending = d0
         /\ PomodoroSession.completed pending = false
         /\ PomodoroSession.duration done = d
         /\ PomodoroSession.completed done = true)
  /\ (datetime_in_range now = true -> - 2 ^ 63 <= d < 2 ^ 63).
Proof.
  intros H d Hr.
  assert (Hd : data_get (p_duration data) 25 = d) by reflexivity.
  split; [|split].
  - eexists. split.
    + rewrite (complete_session_eq db cookie u data now elapsed H); [reflexivity|].
      rewrite Hd. exact Hr.
    + simpl. split; [apply next_id_fresh|]. repeat split.
  - intros data0 now0 d0 Hd0 db1 db2. subst db1 db2.
    assert (Hf : fits_int64 (data_get (p_duration data0) 25) = true)
      by (apply fits_int64_bounds; exact Hd0).
    rewrite (start_session_eq db cookie u data0 now0 H Hf). simpl fst.
    set (pending := PomodoroSession.mk _ _ _ false _ now0 None None).
    assert (H1 : current_user (add_session db pending) cookie = Some u) by exact H.
    rewrite (complete_session_eq _ cookie u data now elapsed H1)
      by (rewrite Hd; exact Hr).
    simpl fst.
    set (done := PomodoroSession.mk _ _ _ true _ _ _ None).
    exists pending, done. split; [reflexivity|]. split.
    + simpl. now rewrite <- app_assoc.
    + split; [|repeat split; reflexivity].
      rewrite !sessions_of_add. simpl.
      rewrite Z.eqb_refl. now rewrite <- app_assoc.
  - intros Hnow. apply fits_int64_bounds.
    exact (calendar_duration_fits now d Hnow Hr).
Qed.

Lemma complete_session_creates_row_witness :
  current_user db_alice (Some 1) = Some alice
  /\ datetime_in_range (noon - 25 * MICROSECONDS_PER_MINUTE) = true
  /\ (exists row : PomodoroSession.t,
     fst (complete_session db_alice (Some 1) (mkPayload (Some 25) None) noon 12)
       = add_session db_alice row
     /\ ~ In (PomodoroSession.id row)
             (map PomodoroSession.id (pomodoro_sessions db_alice))
     /\ PomodoroSession.user_id row = 1
     /\ PomodoroSession.duration row = 25
     /\ PomodoroSession.completed row = true
     /\ PomodoroSession.completed_at row = Some (noon + 12)
     /\ PomodoroSession.started_at row = noon - 25 * MICROSECONDS_PER_MINUTE)
  /\ (forall (data0 : payload) (now0 : datetime),
       let d0 := match p_duration data0 with Some d0 => d0 | None => 25 end in
       - 2 ^ 63 <= d0 < 2 ^ 63 ->
       let db1 := fst (start_session db_alice (Some 1) data0 now0) in
       let db2 := fst (complete_session db1 (Some 1) (mkPayload (Some 25) None) noon 12) in
       exists pending done : PomodoroSession.t,
         pomodoro_sessions db1 = pomodoro_sessions db_alice ++ [pending]
         /\ pomodoro_sessions db2 = pomodoro_sessions db_alice ++ [pending; done]
         /\ sessions_of db2 1 = sessions_of db_alice 1 ++ [pending; done]
         /\ PomodoroSession.duration pending = d0
         /\ PomodoroSession.completed pending = false
         /\ PomodoroSession.duration done = 25
         /\ PomodoroSession.completed done = true)
  /\ (datetime_in_range noon = true -> - 2 ^ 63 <= 25 < 2 ^ 63).
Proof.
  split; [reflexivity|]. split; [reflexivity|].
  apply (complete_session_creates_row db_alice (Some 1) alice
           (mkPayload (Some 25) None) noon 12); reflexivity.
Defined.

(** [start_session] and then [complete_session] with the payload of the
    interface, 25 minutes of work, at noon of 2026-11-03: rows 1 and 2. *)
Example start_then_complete_at_noon :
  let data := mkPayload (Some 25) (Some "work"%string) in
  sessions_of (run db_alice [POST_session_start (Some 1) data (noon - 1500000000);
                             POST_session_complete (Some 1) data noon 12]) 1
  = [ PomodoroSession.mk 1 1 25 false "work" (noon - 1500000000) None None;
      PomodoroSession.mk 2 1 25 true "work" (noon - 1500000000) (Some (noon + 12))
        None ].
Proof. reflexivity. Qed.

(** C1 as stated fails for a large duration: two thousand million minutes
    before noon of 2026-11-03 lies before year 1, the subtraction raises,
    and no row is created; [start_session] then [complete_session] with
    that duration leaves one row, not two. *)
Lemma complete_session_large_duration_no_row :
  let data := mkPayload (Some 2000000000) (Some "work"%string) in
  complete_session db_alice (Some 1) data noon 0
    = (db_alice, InternalServerError OverflowError)
  /\ List.length
       (sessions_of (run db_alice [POST_session_start (Some 1) data noon;
                                   POST_session_complete (Some 1) data noon 0]) 1)
     = 1%nat.
Proof. split; reflexivity. Qed.




(** ** Invariants of every reachable database *)

(** Case analysis on the route a request is for. *)
Ltac request_cases r :=
  destruct r as [cookie form ok pw next_page now
                | cookie form ok h now | cookie | cookie form | cookie data now
                | cookie data now elapsed | cookie now | cookie now];
  simpl.

Lemma run_app (db : DB) (rs1 rs2 : list request) :
  run db (rs1 ++ rs2) = run (run db rs1) rs2.
Proof. unfold run. apply fold_left_app. Qed.

Lemma run_snoc (db : DB) (rs : list request) (r : request) :
  run db (rs ++ [r]) = fst (handle (run db rs) r).
Proof. now rewrite run_app. Qed.

(** A property of the initial database that every request preserves holds
    after every sequence of requests. *)
Lemma run_invariant (P : DB -> Prop) (db : DB) :
  P db ->
  (forall db r, P db -> P (fst (handle db r))) ->
  forall rs, P (run db rs).
Proof.
  intros H0 Hstep rs. induction rs as [|r rs IH] using rev_ind.
  - exact H0.
  - rewrite run_snoc. now apply Hstep.
Qed.

Lemma get_or_create_settings_frame (db : DB) (uid : Z) :
  users (fst (get_or_create_settings db uid)) = users db
  /\ pomodoro_sessions (fst (get_or_create_settings db uid)) = pomodoro_sessions db.
Proof.
  unfold get_or_create_settings.
  destruct (find _ (user_settings db)); now split.
Qed.

Lemma update_user_row_ids (db : DB) (u : User.t) :
  map User.id (users (update_user_row db u)) = map User.id (users db).
Proof.
  simpl. rewrite map_map. apply map_ext. intros r.
  destruct (Z.eqb_spec (User.id r) (User.id u)) as [E|E]; congruence.
Qed.

(** [login] changes nothing but the [last_login] stamp of a user. *)
Lemma login_frame (db : DB) cookie post ok pw next_page now :
  let db' := fst (login db cookie post ok pw next_page now) in
  map User.id (users db') = map User.id (users db)
  /\ pomodoro_sessions db' = pomodoro_sessions db
  /\ user_settings db' = user_settings db.
Proof.
  unfold login. destruct (current_user db cookie); [now repeat split|].
  destruct post as [form|]; [|now repeat split].
  destruct ok; [|now repeat split].
  destruct (find _ (users db)) as [user|]; [|now repeat split].
  destruct pw; [|now repeat split].
  split; [exact (update_user_row_ids db (User.update_last_login user now))
         | now split].
Qed.

(** [register] and [settings] leave the ledger alone. *)
Lemma register_sessions (db : DB) cookie post ok h now :
  pomodoro_sessions (fst (register db cookie post ok h now)) = pomodoro_sessions db.
Proof.
  unfold register. destruct (current_user db cookie); [reflexivity|].
  destruct post as [form|]; [|reflexivity].
  destruct (ok && _ && _); reflexivity.
Qed.

Lemma settings_sessions (db : DB) cookie post :
  pomodoro_sessions (fst (settings db cookie post)) = pomodoro_sessions db.
Proof.
  unfold settings, login_required. destruct (current_user db cookie) as [u|]; [|reflexivity].
  destruct (get_or_create_settings_frame db (User.id u)) as [_ Hs].
  destruct (get_or_create_settings db (User.id u)) as [db1 s]. simpl in Hs.
  destruct post as [form|]; [|exact Hs].
  destruct (SettingsForm.errors form); exact Hs.
Qed.

(** Every request leaves the ledger as it was or appends one row that
    satisfies the invariant. *)
Lemma handle_ledger (db : DB) (r : request) :
  pomodoro_sessions (fst (handle db r)) = pomodoro_sessions db
  \/ exists row : PomodoroSession.t,
       pomodoro_sessions (fst (handle db r)) = pomodoro_sessions db ++ [row]
       /\ session_invariant row.
Proof.
  request_cases r.
  - left. apply login_frame.
  - left. apply register_sessions.
  - left. apply settings_sessions.
  - left. apply settings_sessions.
  - destruct (current_user db cookie) as [u|] eqn:H.
    + destruct (fits_int64 (data_get (p_duration data) 25)) eqn:Hf.
      * right. rewrite (start_session_eq db cookie u data now H Hf).
        eexists. split; reflexivity.
      * left. now rewrite (start_session_overflow db cookie u data now H Hf).
    + left. unfold start_session. now rewrite login_required_none.
  - destruct (current_user db cookie) as [u|] eqn:H.
    + destruct (datetime_in_range
                  (now - timedelta_minutes (data_get (p_duration data) 25))) eqn:Hr.
      * right. rewrite (complete_session_eq db cookie u data now elapsed H Hr).
        eexists. split; [reflexivity|].
        unfold session_invariant. simpl.
        exists (now + Z.of_N elapsed). split; [reflexivity|].
        unfold timedelta_minutes, MICROSECONDS_PER_MINUTE. lia.
      * left. now rewrite (complete_session_overflow db cookie u data now elapsed H Hr).
    + left. unfold complete_session. now rewrite login_required_none.
  - left. unfold get_stats, login_required. now destruct (current_user db cookie).
  - left. unfold dashboard, login_required.
    destruct (current_user db cookie) as [u|]; [|reflexivity].
    now destruct (total_focus_hours db (User.id u)).
Qed.

(** C7.  Every row of the ledger, after any sequence of requests served
    from the empty database, satisfies the row invariant: not completed
    means no completion time; completed means a completion time, not
    earlier than the start when the duration is positive. *)
Theorem ledger_rows_invariant (rs : list request) :
  Forall session_invariant (pomodoro_sessions (run empty_db rs)).
Proof.
  apply (run_invariant (fun db => Forall session_invariant (pomodoro_sessions db))).
  - constructor.
  - intros db r IH. destruct (handle_ledger db r) as [-> | [row [-> Hrow]]].
    + exact IH.
    + apply Forall_app. split; [exact IH | now constructor].
Qed.

(** The method [complete_session] of the model, which no route calls,
    keeps the invariant when the clock has not gone back since the start. *)
Lemma model_complete_session_invariant (s : PomodoroSession.t) (now : datetime) :
  PomodoroSession.started_at s <= now ->
  session_invariant (PomodoroSession.complete_session s now).
Proof.
  intros H. unfold session_invariant. simpl. exists now. now split.
Qed.

(** The proviso on the duration matters: a completed session of minus five
    minutes starts after it was completed. *)
Example negative_duration_starts_later :
  pomodoro_sessions
    (run db_alice [POST_session_complete (Some 1) (mkPayload (Some (-5)) None) noon 0])
  = [PomodoroSession.mk 1 1 (-5) true "work"
       (noon + 5 * MICROSECONDS_PER_MINUTE) (Some noon) None].
Proof. reflexivity. Qed.

(** ** Settings store *)

Lemma NoDup_snoc {A : Type} (l : list A) (x : A) :
  NoDup l -> ~ In x l -> NoDup (l ++ [x]).
Proof.
  intros Hl Hx. apply NoDup_app; [exact Hl | repeat constructor; intros [] |].
  intros a Ha [<- | []]. now apply Hx.
Qed.

Lemma NoDup_map_eq {A B : Type} (f : A -> B) (l : list A) (a b : A) :
  NoDup (map f l) -> In a l -> In b l -> f a = f b -> a = b.
Proof.
  induction l as [|x l IH]; simpl; intros Hnd Ha Hb Hab; [contradiction|].
  inversion Hnd as [|? ? Hx Hl]; subst.
  destruct Ha as [-> | Ha], Hb as [-> | Hb].
  - reflexivity.
  - exfalso. apply Hx. rewrite Hab. now apply in_map.
  - exfalso. apply Hx. rewrite <- Hab. now apply in_map.
  - now apply IH.
Qed.

Lemma find_filter {A : Type} (f : A -> bool) (l : list A) :
  find f l = hd_error (filter f l).
Proof.
  induction l as [|x l IH]; simpl; [reflexivity|].
  now destruct (f x).
Qed.

Lemma find_snoc {A : Type} (f : A -> bool) (l : list A) (x : A) :
  find f l = None -> f x = true -> find f (l ++ [x]) = Some x.
Proof.
  induction l as [|y l IH]; simpl; intros Hl Hx.
  - now rewrite Hx.
  - destruct (f y); [discriminate | now apply IH].
Qed.

(** At most one row carries a given value of a column without duplicates. *)
Lemma filter_unique_key {A : Type} (key : A -> Z) (l : list A) (k : Z) :
  NoDup (map key l) ->
  (List.length (filter (fun s => (key s =? k)%Z) l) <= 1)%nat.
Proof.
  induction l as [|x l IH]; simpl; intros Hnd; [lia|].
  inversion Hnd as [|? ? Hx Hl]; subst.
  destruct (key x =? k) eqn:E; [|now apply IH].
  apply Z.eqb_eq in E. simpl.
  destruct (filter (fun s => key s =? k) l) as [|y ys] eqn:F; [simpl; lia|].
  exfalso. apply Hx.
  assert (Hy : In y (filter (fun s => key s =? k) l)) by (rewrite F; now left).
  apply filter_In in Hy. destruct Hy as [Hy Hk]. apply Z.eqb_eq in Hk.
  rewrite E, <- Hk. now apply in_map.
Qed.

Lemma add_settings_wf (db : DB) (uid : Z) :
  settings_wf db ->
  In uid (map User.id (users db)) ->
  ~ In uid (map UserSettings.user_id (user_settings db)) ->
  settings_wf
    (add_settings db
       (UserSettings.new (next_id (map UserSettings.id (user_settings db))) uid)).
Proof.
  intros (Hid & Hu & Hfk) Hin Hnew. unfold settings_wf. simpl.
  rewrite !map_app. simpl. repeat split.
  - apply NoDup_snoc; [exact Hid | apply next_id_fresh].
  - now apply NoDup_snoc.
  - intros s Hs. apply in_app_or in Hs. destruct Hs as [Hs | [<- | []]].
    + now apply Hfk.
    + exact Hin.
Qed.

Lemma update_settings_row_wf (db : DB) (s s' : UserSettings.t) :
  settings_wf db ->
  In s (user_settings db) ->
  UserSettings.id s' = UserSettings.id s ->
  UserSettings.user_id s' = UserSettings.user_id s ->
  settings_wf (update_settings_row db s').
Proof.
  intros (Hid & Hu & Hfk) Hs Hi Hui.
  assert (Hrow : forall r, In r (user_settings db) ->
            UserSettings.id r = UserSettings.id s' -> r = s).
  { intros r Hr E. apply (NoDup_map_eq UserSettings.id (user_settings db)); auto.
    now rewrite E. }
  assert (Hids : map UserSettings.id (user_settings (update_settings_row db s'))
                 = map UserSettings.id (user_settings db)).
  { simpl. rewrite map_map. apply map_ext_in. intros r Hr.
    destruct (UserSettings.id r =? UserSettings.id s') eqn:E; [|reflexivity].
    apply Z.eqb_eq in E. now rewrite E. }
  assert (Huids : map UserSettings.user_id (user_settings (update_settings_row db s'))
                  = map UserSettings.user_id (user_settings db)).
  { simpl. rewrite map_map. apply map_ext_in. intros r Hr.
    destruct (UserSettings.id r =? UserSettings.id s') eqn:E; [|reflexivity].
    apply Z.eqb_eq in E. rewrite (Hrow r Hr E). exact Hui. }
  unfold settings_wf. rewrite Hids, Huids. repeat split; auto.
  intros r Hr. simpl in Hr. apply in_map_iff in Hr.
  destruct Hr as (r0 & E & Hr0).
  destruct (UserSettings.id r0 =? UserSettings.id s'); subst r.
  - rewrite Hui. now apply Hfk.
  - now apply Hfk.
Qed.

Lemma find_none_user_id (db : DB) (uid : Z) :
  find (fun s => UserSettings.user_id s =? uid) (user_settings db) = None ->
  ~ In uid (map UserSettings.user_id (user_settings db)).
Proof.
  intros Hf Hin. apply in_map_iff in Hin. destruct Hin as (s & E & Hs).
  apply (find_none _ _ Hf) in Hs. simpl in Hs. rewrite E, Z.eqb_refl in Hs.
  discriminate.
Qed.

(** The row returned by [get_or_create_settings] is in the table, for the
    requested user. *)
Lemma get_or_create_settings_row (db : DB) (uid : Z) :
  In (snd (get_or_create_settings db uid))
     (user_settings (fst (get_or_create_settings db uid)))
  /\ UserSettings.user_id (snd (get_or_create_settings db uid)) = uid.
Proof.
  unfold get_or_create_settings.
  destruct (find _ (user_settings db)) as [s|] eqn:Hf; simpl.
  - apply find_some in Hf. destruct Hf as [Hin E]. split; [exact Hin|].
    now apply Z.eqb_eq.
  - split; [apply in_or_app; right; now left | reflexivity].
Qed.

Lemma get_or_create_settings_wf (db : DB) (uid : Z) :
  settings_wf db ->
  In uid (map User.id (users db)) ->
  settings_wf (fst (get_or_create_settings db uid)).
Proof.
  intros Hwf Hin. unfold get_or_create_settings.
  destruct (find _ (user_settings db)) as [s|] eqn:Hf; simpl; [exact Hwf|].
  apply add_settings_wf; auto. now apply find_none_user_id.
Qed.

Lemma handle_settings_wf (db : DB) (r : request) :
  settings_wf db -> settings_wf (fst (handle db r)).
Proof.
  intros Hwf.
  request_cases r.
  - destruct (login_frame db cookie (Some form) ok pw next_page now) as (Hu & _ & Hs).
    unfold settings_wf. now rewrite Hu, Hs.
  - unfold register. destruct (current_user db cookie); [exact Hwf|].
    destruct (ok && _ && _); [|exact Hwf]. simpl.
    set (uid := next_id (map User.id (users db))).
    destruct Hwf as (Hid & Hu & Hfk).
    apply (add_settings_wf (add_user db _) uid).
    + repeat split; auto. intros s Hs. simpl. rewrite map_app.
      apply in_or_app. left. now apply Hfk.
    + simpl. rewrite map_app. apply in_or_app. right. now left.
    + simpl. intros Hin. apply in_map_iff in Hin. destruct Hin as (s & E & Hs).
      apply Hfk in Hs. rewrite E in Hs. now apply (next_id_fresh _ Hs).
  - unfold settings, login_required.
    destruct (current_user db cookie) as [u|] eqn:H; [|exact Hwf].
    apply current_user_id in H. destruct H as [_ Hin].
    pose proof (get_or_create_settings_wf db (User.id u) Hwf (in_map User.id _ _ Hin)) as H1.
    now destruct (get_or_create_settings db (User.id u)).
  - unfold settings, login_required.
    destruct (current_user db cookie) as [u|] eqn:H; [|exact Hwf].
    apply current_user_id in H. destruct H as [_ Hin].
    pose proof (get_or_create_settings_wf db (User.id u) Hwf (in_map User.id _ _ Hin)) as H1.
    pose proof (get_or_create_settings_row db (User.id u)) as [H2 _].
    destruct (get_or_create_settings db (User.id u)) as [db1 s]. simpl in H1, H2.
    destruct (SettingsForm.errors form); [|exact H1]. simpl.
    now apply (update_settings_row_wf db1 s).
  - unfold start_session, login_required.
    destruct (current_user db cookie); [|exact Hwf].
    cbn [PomodoroSession.duration]. now destruct (fits_int64 _).
  - unfold complete_session, login_required.
    destruct (current_user db cookie); [|exact Hwf].
    now destruct (datetime_sub now _).
  - unfold get_stats, login_required. now destruct (current_user db cookie).
  - unfold dashboard, login_required.
    destruct (current_user db cookie) as [u|]; [|exact Hwf].
    now destruct (total_focus_hours db (User.id u)).
Qed.

Lemma empty_settings_wf : settings_wf empty_db.
Proof. repeat split; simpl; try constructor. intros s []. Qed.

Lemma reachable_settings_wf (rs : list request) : settings_wf (run empty_db rs).
Proof.
  apply (run_invariant settings_wf).
  - exact empty_settings_wf.
  - intros db r. apply handle_settings_wf.
Qed.

(** The seeded user comes without a settings row: the table stays as it
    was, and well formed. *)
Lemma exec_settings_wf (db : DB) (c : command) :
  settings_wf db -> settings_wf (exec db c).
Proof.
  intros Hwf. destruct c as [r|h now]; simpl.
  - now apply handle_settings_wf.
  - unfold seed_db. destruct (_ || _); [exact Hwf|].
    destruct Hwf as (Hid & Hu & Hfk). repeat split; auto.
    intros s Hs. simpl. rewrite map_app. apply in_or_app. left. now apply Hfk.
Qed.

Lemma executed_settings_wf (cs : list command) : settings_wf (execute empty_db cs).
Proof.
  induction cs as [|c cs IH] using rev_ind.
  - exact empty_settings_wf.
  - unfold execute in *. rewrite fold_left_app. simpl. now apply exec_settings_wf.
Qed.

Lemma execute_serve (db : DB) (rs : list request) :
  execute db (map Serve rs) = run db rs.
Proof.
  revert db. induction rs as [|r rs IH]; intros db; [reflexivity|].
  simpl. apply IH.
Qed.

(** C3.  In every database reached from the empty one, by requests to the
    routes and by the seed command, which creates a user without settings,
    a user has at most one settings row.  In every database with at most
    one row per user [get_or_create_settings] keeps it so, returns the
    user's row and leaves the user with exactly that row; a second call
    returns the row with the same id and changes nothing.  When the user
    had no row, the first call appends one with the defaults 25/5/15/4,
    both auto-start flags off, notifications and sound on, theme light. *)
Theorem settings_one_row_per_user (cs : list command) (db : DB) (uid : Z) :
  one_row_per_user (execute empty_db cs)
  /\ (one_row_per_user db ->
      let db1 := fst (get_or_create_settings db uid) in
      let s1 := snd (get_or_create_settings db uid) in
      let db2 := fst (get_or_create_settings db1 uid) in
      let s2 := snd (get_or_create_settings db1 uid) in
      one_row_per_user db1
      /\ settings_of db1 uid = [s1]
      /\ UserSettings.id s2 = UserSettings.id s1
      /\ db2 = db1
      /\ match settings_of db uid with
         | [] =>
             user_settings db1 = user_settings db ++ [s1]
             /\ s1 = UserSettings.mk
                       (next_id (map UserSettings.id (user_settings db))) uid
                       25 5 15 4 false false true true "light"
         | _ :: _ => db1 = db
         end).
Proof.
  split.
  { intros v. pose proof (executed_settings_wf cs) as (_ & Hu & _).
    exact (filter_unique_key UserSettings.user_id _ v Hu). }
  intros Hone db1 s1 db2 s2.
  pose proof (Hone uid) as Hle.
  pose proof (find_filter (fun s => UserSettings.user_id s =? uid) (user_settings db))
    as Hfind.
  fold (settings_of db uid) in Hfind.
  destruct (settings_of db uid) as [|s rest] eqn:Hrows; simpl in Hfind.
  - set (new := UserSettings.new (next_id (map UserSettings.id (user_settings db))) uid).
    assert (E1 : get_or_create_settings db uid = (add_settings db new, new)).
    { unfold get_or_create_settings. now rewrite Hfind. }
    assert (E2 : get_or_create_settings (add_settings db new) uid
                 = (add_settings db new, new)).
    { unfold get_or_create_settings. simpl user_settings at 1.
      rewrite (find_snoc _ _ new Hfind (Z.eqb_refl uid)). reflexivity. }
    assert (Hadd : forall v, settings_of (add_settings db new) v
                             = settings_of db v ++ (if uid =? v then [new] else [])).
    { intros v. unfold settings_of. simpl user_settings. now rewrite filter_app. }
    subst db2 s2 db1 s1. rewrite E1. simpl fst. simpl snd. rewrite E2.
    split; [|repeat split].
    + intros v. rewrite Hadd. destruct (Z.eqb_spec uid v) as [<-|Hv].
      * rewrite Hrows. simpl. lia.
      * rewrite app_nil_r. apply Hone.
    + rewrite Hadd, Hrows, Z.eqb_refl. reflexivity.
  - assert (rest = []) by (destruct rest; [reflexivity | simpl in Hle; lia]).
    subst rest.
    assert (E1 : get_or_create_settings db uid = (db, s)).
    { unfold get_or_create_settings. now rewrite Hfind. }
    subst db2 s2 db1 s1. rewrite E1. simpl fst. simpl snd. rewrite E1.
    split; [exact Hone|]. repeat split. exact Hrows.
Qed.

(** The user demo after the seed command: no row before the first call, the
    default row after it. *)
Lemma settings_one_row_per_user_witness :
  let db := execute empty_db [Seed "pbkdf2:sha256:0000" noon] in
  one_row_per_user db
  /\ map User.id (users db) = [1]
  /\ settings_of db 1 = []
  /\ settings_of (fst (get_or_create_settings db 1)) 1
     = [UserSettings.mk 1 1 25 5 15 4 false false true true "light"].
Proof.
  intros db.
  destruct (settings_one_row_per_user [Seed "pbkdf2:sha256:0000" noon] db 1)
    as [Hone Hget].
  split; [exact Hone|]. split; [reflexivity|]. split; [reflexivity|].
  destruct (Hget Hone) as (_ & H & _). rewrite H. reflexivity.
Defined.

(** The seeded user has no settings row until the first visit of the
    settings page creates the default one; a second visit finds it. *)
Example seeded_user_gets_default_settings :
  let db := execute empty_db [Seed "pbkdf2:sha256:0000" noon] in
  map User.id (users db) = [1]
  /\ settings_of db 1 = []
  /\ settings_of (fst (get_or_create_settings db 1)) 1
     = [UserSettings.mk 1 1 25 5 15 4 false false true true "light"]
  /\ settings_of (execute db [Serve (GET_settings (Some 1));
                              Serve (GET_settings (Some 1))]) 1
     = [UserSettings.mk 1 1 25 5 15 4 false false true true "light"].
Proof. repeat split. Qed.

(** ** Statistics engine *)

Lemma length_filter_cons {A : Type} (f : A -> bool) (x : A) (l : list A) :
  List.length (filter f (x :: l))
  = ((if f x then 1 else 0) + List.length (filter f l))%nat.
Proof. simpl. now destruct (f x). Qed.

(** The seven entries of the histogram, oldest day first. *)
Lemma weekly_histogram_days (db : DB) (uid : Z) (today : date) :
  weekly_histogram db uid today =
  [ count_on_date db uid (today - 6); count_on_date db uid (today - 5);
    count_on_date db uid (today - 4); count_on_date db uid (today - 3);
    count_on_date db uid (today - 2); count_on_date db uid (today - 1);
    count_on_date db uid today ].
Proof.
  unfold weekly_histogram. simpl map.
  repeat (f_equal; try (f_equal; lia)).
Qed.

(** A session counted from day [lo] on falls on one of the days
    [lo .. lo + 6] or is counted from day [lo + 7] on. *)
Lemma week_partition (l : list PomodoroSession.t) (uid : Z) (lo : date) :
  let on d := List.length (filter (fun s => completed_work uid s
                  && (date_of (PomodoroSession.started_at s) =? d)) l) in
  let since d := List.length (filter (fun s => completed_work uid s
                  && (d <=? date_of (PomodoroSession.started_at s))) l) in
  (on lo + on (lo + 1)%Z + on (lo + 2)%Z + on (lo + 3)%Z + on (lo + 4)%Z
   + on (lo + 5)%Z + on (lo + 6)%Z + since (lo + 7)%Z = since lo)%nat.
Proof.
  intros on since. subst on since.
  induction l as [|x l IH]; [reflexivity|].
  rewrite !length_filter_cons.
  destruct (completed_work uid x); simpl andb; [|simpl; exact IH].
  generalize dependent (date_of (PomodoroSession.started_at x)). intros d.
  repeat match goal with
         | |- context [Z.eqb ?a ?b] => destruct (Z.eqb_spec a b); try lia
         | |- context [Z.leb ?a ?b] => destruct (Z.leb_spec a b); try lia
         end.
Qed.

(** C4, as the code has it.  The histogram has exactly seven entries, the
    counts of the days [today - 6] to [today] in this order.  Their sum is
    the number of the user's completed work sessions started on those
    seven days: [count_since] from [today - 6] less [count_since] from
    tomorrow. *)
Theorem weekly_histogram_sum (db : DB) (uid : Z) (today : date) :
  weekly_histogram db uid today =
    [ count_on_date db uid (today - 6); count_on_date db uid (today - 5);
      count_on_date db uid (today - 4); count_on_date db uid (today - 3);
      count_on_date db uid (today - 2); count_on_date db uid (today - 1);
      count_on_date db uid today ]
  /\ List.length (weekly_histogram db uid today) = 7%nat
  /\ (list_sum (weekly_histogram db uid today) + count_since db uid (today + 1)%Z
      = count_since db uid (today - 6)%Z)%nat.
Proof.
  split; [apply weekly_histogram_days|]. split; [reflexivity|].
  rewrite weekly_histogram_days.
  pose proof (week_partition (pomodoro_sessions db) uid (today - 6)) as H.
  cbv zeta in H. unfold count_on_date, count_since.
  replace (today - 6 + 1) with (today - 5) in H by lia.
  replace (today - 6 + 2) with (today - 4) in H by lia.
  replace (today - 6 + 3) with (today - 3) in H by lia.
  replace (today - 6 + 4) with (today - 2) in H by lia.
  replace (today - 6 + 5) with (today - 1) in H by lia.
  replace (today - 6 + 6) with today in H by lia.
  replace (today - 6 + 7) with (today + 1) in H by lia.
  simpl list_sum. lia.
Qed.

(** C4 as stated fails.  A completed work session recorded at noon with a
    duration of minus two days starts the day after tomorrow: it is
    counted by [count_since] from six days ago, and no entry of today's
    histogram counts it. *)
Lemma weekly_histogram_misses_later_session :
  let db := run db_alice
              [POST_session_complete (Some 1) (mkPayload (Some (-2880)) None) noon 0] in
  let today := date_of noon in
  weekly_histogram db 1 today = [0; 0; 0; 0; 0; 0; 0]%nat
  /\ count_since db 1 (today - 6) = 1%nat
  /\ list_sum (weekly_histogram db 1 today) <> count_since db 1 (today - 6).
Proof.
  vm_compute. repeat split. discriminate.
Qed.

(** The running total is the sum, unless one of the totals it runs
    through leaves the 64-bit range. *)
Lemma sum_from_spec (l : list Z) : forall acc : Z,
  sum_from acc l =
  if forallb fits_int64 (running_totals acc l)
  then Ok (acc + fold_right Z.add 0 l)
  else Raise OperationalError.
Proof.
  induction l as [|x l IH]; intros acc; simpl.
  - now rewrite Z.add_0_r.
  - destruct (fits_int64 (acc + x)); simpl; [|reflexivity].
    rewrite IH. now rewrite Z.add_assoc.
Qed.

Lemma running_totals_last (l : list Z) : forall acc : Z,
  fits_int64 acc = true ->
  forallb fits_int64 (running_totals acc l) = true ->
  fits_int64 (acc + fold_right Z.add 0 l) = true.
Proof.
  induction l as [|x l IH]; intros acc Hacc H; simpl in *.
  - now rewrite Z.add_0_r.
  - apply andb_true_iff in H. destruct H as [H1 H2].
    rewrite Z.add_assoc. now apply IH.
Qed.

Lemma total_focus_minutes_spec (db : DB) (uid : Z) :
  let durations :=
    map PomodoroSession.duration
        (filter (completed_work uid) (pomodoro_sessions db)) in
  total_focus_minutes db uid =
  if forallb fits_int64 (running_totals 0 durations)
  then Ok (fold_right Z.add 0 durations)
  else Raise OperationalError.
Proof.
  intros durations. unfold total_focus_minutes. fold durations.
  destruct durations as [|x l] eqn:E; [reflexivity|].
  unfold sql_sum. rewrite sum_from_spec. rewrite Z.add_0_l.
  destruct (forallb fits_int64 (running_totals 0 (x :: l))); [|reflexivity].
  unfold or_zero.
  destruct (Z.eqb_spec (fold_right Z.add 0 (x :: l)) 0) as [E0|E0]; congruence.
Qed.

(** A total that the query returns is within the 64-bit range. *)
Lemma total_focus_minutes_fits (db : DB) (uid : Z) (total : Z) :
  total_focus_minutes db uid = Ok total -> - 2 ^ 63 <= total < 2 ^ 63.
Proof.
  rewrite total_focus_minutes_spec.
  destruct (forallb fits_int64 (running_totals 0 _)) eqn:H; [|discriminate].
  intros [= <-]. apply fits_int64_bounds.
  apply (running_totals_last _ 0 eq_refl) in H. exact H.
Qed.

(** [round_half_even num den] is nearest to [num / den]; exactly half-way
    between two integers it is the even one. *)
Lemma round_half_even_nearest (num den : Z) :
  0 < den -> nearest_even num den (round_half_even num den).
Proof.
  intros Hden. unfold nearest_even, round_half_even.
  pose proof (Z.div_mod num den ltac:(lia)) as Hdm.
  pose proof (Z.mod_pos_bound num den Hden) as Hr.
  set (q := num / den) in *. set (r := num mod den) in *.
  destruct (Z.compare_spec (2 * r) den) as [E|E|E].
  - right. destruct (Z.even q) eqn:Hq.
    + split; [lia | exact Hq].
    + split; [lia|]. rewrite Z.even_add, Hq. reflexivity.
  - left. lia.
  - left. lia.
Qed.

(** *** The division of the minutes by 60

    [float_div] works on a shift record: the quotient of the scaled
    mantissas with a round bit and a sticky bit, shifted right until 53
    bits are left, then rounded.  The record stays the one of the exact
    quotient, so that the rounding is [round_half_even] of it. *)

Lemma digits2_pos_bounds (p : positive) :
  2 ^ (Zpos (digits2_pos p) - 1) <= Zpos p < 2 ^ Zpos (digits2_pos p).
Proof.
  induction p as [p IH|p IH|]; cbn [digits2_pos].
  - rewrite Pos2Z.inj_succ, (Pos2Z.inj_xI p).
    replace (Z.succ (Zpos (digits2_pos p)) - 1) with (Z.succ (Zpos (digits2_pos p) - 1)) by lia.
    rewrite !Z.pow_succ_r by lia.
    set (a := 2 ^ (Zpos (digits2_pos p) - 1)) in *. set (b := 2 ^ Zpos (digits2_pos p)) in *. clearbody a b.
    lia.
  - rewrite Pos2Z.inj_succ, (Pos2Z.inj_xO p).
    replace (Z.succ (Zpos (digits2_pos p)) - 1) with (Z.succ (Zpos (digits2_pos p) - 1)) by lia.
    rewrite !Z.pow_succ_r by lia.
    set (a := 2 ^ (Zpos (digits2_pos p) - 1)) in *. set (b := 2 ^ Zpos (digits2_pos p)) in *. clearbody a b.
    lia.
  - simpl. lia.
Qed.

Lemma Zdigits2_bounds (m lo hi : Z) :
  0 <= lo -> 0 <= hi -> 2 ^ lo <= m < 2 ^ hi -> lo < Zdigits2 m <= hi
  /\ 2 ^ (Zdigits2 m - 1) <= m < 2 ^ Zdigits2 m.
Proof.
  intros Hlo Hhi [H1 H2].
  assert (0 < m) by (pose proof (Z.pow_pos_nonneg 2 lo); lia).
  destruct m as [|p|p]; try lia. cbn [Zdigits2].
  pose proof (digits2_pos_bounds p) as [B1 B2].
  repeat split; trivial.
  - apply (Z.pow_lt_mono_r_iff 2); lia.
  - assert (Zpos (digits2_pos p) - 1 < hi); [|lia].
    apply (Z.pow_lt_mono_r_iff 2); lia.
Qed.

Lemma shr_1_nonneg (m : Z) (r s : bool) :
  0 <= m ->
  shr_1 (Build_shr_record m r s) = Build_shr_record (m / 2) (Z.odd m) (r || s).
Proof.
  intros Hm. destruct m as [|[p|p|]|p]; try lia; cbn [shr_1 Z.odd].
  - reflexivity.
  - f_equal. rewrite (Pos2Z.inj_xI p). apply (Z.div_unique _ 2 _ 1); lia.
  - f_equal. rewrite (Pos2Z.inj_xO p). apply (Z.div_unique _ 2 _ 0); lia.
  - reflexivity.
Qed.

Lemma shr_1_rec_of (N D : Z) :
  0 <= N -> 0 < D -> shr_1 (rec_of N D) = rec_of N (2 * D).
Proof.
  intros HN HD. unfold rec_of.
  rewrite shr_1_nonneg by (apply Z.div_pos; lia).
  assert (Hq : N / (2 * D) = N / D / 2).
  { rewrite (Z.mul_comm 2 D). symmetry. apply Z.div_div; lia. }
  assert (Hr : N mod (2 * D) = N mod D + D * ((N / D) mod 2)).
  { rewrite (Z.mul_comm 2 D). apply Z.rem_mul_r; lia. }
  rewrite Hq, Hr.
  pose proof (Z.mod_pos_bound N D HD) as Hb.
  pose proof (Zmod_odd (N / D)) as Ho.
  destruct (Z.odd (N / D)); rewrite Ho; f_equal.
  - symmetry. apply Z.leb_le. lia.
  - destruct (Z.leb_spec D (2 * (N mod D))), (Z.eqb_spec (N mod D) 0),
      (Z.eqb_spec (2 * (N mod D)) D), (Z.eqb_spec (N mod D + D * 1) 0),
      (Z.eqb_spec (2 * (N mod D + D * 1)) (2 * D)); simpl; try reflexivity; lia.
  - symmetry. apply Z.leb_gt. lia.
  - destruct (Z.leb_spec D (2 * (N mod D))), (Z.eqb_spec (N mod D) 0),
      (Z.eqb_spec (2 * (N mod D)) D), (Z.eqb_spec (N mod D + D * 0) 0),
      (Z.eqb_spec (2 * (N mod D + D * 0)) (2 * D)); simpl; try reflexivity; lia.
Qed.

Lemma iter_pos_shr_1 (p : positive) :
  forall N D, 0 <= N -> 0 < D ->
  iter_pos shr_1 p (rec_of N D) = rec_of N (D * 2 ^ Zpos p).
Proof.
  induction p as [p IH|p IH|]; intros N D HN HD; cbn [iter_pos].
  - rewrite shr_1_rec_of, !IH; trivial; try (pose proof (Z.pow_pos_nonneg 2 (Zpos p)); nia).
    f_equal. replace (Zpos p~1) with (Zpos p + Zpos p + 1) by lia.
    rewrite !Z.pow_add_r by lia. change (2 ^ 1) with 2. ring.
  - rewrite !IH; trivial; try (pose proof (Z.pow_pos_nonneg 2 (Zpos p)); nia).
    f_equal. replace (Zpos p~0) with (Zpos p + Zpos p) by lia.
    rewrite !Z.pow_add_r by lia. ring.
  - rewrite shr_1_rec_of by trivial. f_equal. change (2 ^ 1) with 2. ring.
Qed.

Lemma shr_rec_of (N D e k : Z) :
  0 <= N -> 0 < D -> 0 <= k ->
  shr (rec_of N D) e k = (rec_of N (D * 2 ^ k), e + k).
Proof.
  intros HN HD Hk. unfold shr. destruct k as [|p|p]; try lia.
  - change (2 ^ 0) with 1. now rewrite Z.mul_1_r, Z.add_0_r.
  - now rewrite iter_pos_shr_1.
Qed.

Lemma round_rec_of (N D : Z) :
  0 < D ->
  round_nearest_even (shr_m (rec_of N D)) (loc_of_shr_record (rec_of N D))
  = round_half_even N D.
Proof.
  intros HD. unfold rec_of, round_half_even. cbn [shr_m loc_of_shr_record].
  pose proof (Z.mod_pos_bound N D HD) as Hb.
  destruct (Z.compare_spec (2 * (N mod D)) D) as [E|E|E].
  - replace (D <=? 2 * (N mod D)) with true by (symmetry; apply Z.leb_le; lia).
    replace (2 * (N mod D) =? D) with true by (symmetry; apply Z.eqb_eq; lia).
    rewrite andb_false_r. reflexivity.
  - replace (D <=? 2 * (N mod D)) with false by (symmetry; apply Z.leb_gt; lia).
    destruct (negb (N mod D =? 0) && negb (2 * (N mod D) =? D)); reflexivity.
  - replace (D <=? 2 * (N mod D)) with true by (symmetry; apply Z.leb_le; lia).
    replace (2 * (N mod D) =? D) with false by (symmetry; apply Z.eqb_neq; lia).
    replace (N mod D =? 0) with false by (symmetry; apply Z.eqb_neq; lia).
    reflexivity.
Qed.

Lemma record_of_new_location (N D : Z) :
  0 < D -> Z.even D = true ->
  shr_record_of_loc (N / D) (new_location D (N mod D)) = rec_of N D.
Proof.
  intros HD He. unfold new_location, new_location_even, rec_of.
  change (IntDef.Z.even D) with (Z.even D). rewrite He.
  pose proof (Z.mod_pos_bound N D HD) as Hb.
  destruct (Z.eqb_spec (N mod D) 0) as [E0|E0].
  - cbn [shr_record_of_loc negb andb]. f_equal. symmetry. apply Z.leb_gt. lia.
  - cbn [negb andb].
    destruct (Z.compare_spec (2 * (N mod D)) D) as [E|E|E], (Z.leb_spec D (2 * (N mod D))),
      (Z.eqb_spec (2 * (N mod D)) D); cbn [shr_record_of_loc negb]; try reflexivity; lia.
Qed.

Lemma round_half_even_floor (num den : Z) :
  num / den <= round_half_even num den <= num / den + 1.
Proof.
  unfold round_half_even.
  destruct (2 * (num mod den) ?= den); [destruct (Z.even (num / den))| |]; lia.
Qed.

Lemma nearest_even_scale (a b m s k : Z) :
  0 <= s -> 0 <= k ->
  nearest_even (a * 2 ^ s) (b * 2 ^ k) m ->
  nearest_even (a * 2 ^ Z.max 0 (s - k)) (b * 2 ^ Z.max 0 (k - s)) m.
Proof.
  intros Hs Hk. unfold nearest_even.
  set (c := 2 ^ Z.min s k).
  assert (Hc : 0 < c) by (apply Z.pow_pos_nonneg; lia).
  replace (2 ^ s) with (c * 2 ^ Z.max 0 (s - k))
    by (unfold c; rewrite <- Z.pow_add_r by lia; f_equal; lia).
  replace (2 ^ k) with (c * 2 ^ Z.max 0 (k - s))
    by (unfold c; rewrite <- Z.pow_add_r by lia; f_equal; lia).
  set (A := a * 2 ^ Z.max 0 (s - k)). set (B := b * 2 ^ Z.max 0 (k - s)).
  replace (a * (c * 2 ^ Z.max 0 (s - k)) - m * (b * (c * 2 ^ Z.max 0 (k - s))))
    with (c * (A - m * B)) by (unfold A, B; ring).
  replace (b * (c * 2 ^ Z.max 0 (k - s))) with (c * B) by (unfold B; ring).
  rewrite Z.abs_mul, (Z.abs_eq c) by lia.
  clearbody A B c. intros [H|[H He]]; [left|right; split; trivial]; nia.
Qed.

Lemma SFdiv_core_60 (p : positive) :
  Zpos p < 2 ^ 64 ->
  let s := Z.max 0 (59 - Zdigits2 (Zpos p)) in
  SFdiv_core_binary 53 1024 (Zpos p) 0 60 0
  = (Zpos p * 2 ^ s / 60, - s, new_location 60 ((Zpos p * 2 ^ s) mod 60)).
Proof.
  intros Hp s.
  destruct (Zdigits2_bounds (Zpos p) 0 64) as [[HD1 HD2] _]; [lia|lia|change (2 ^ 0) with 1; lia|].
  unfold SFdiv_core_binary.
  change (Zdigits2 60) with 6.
  set (D := Zdigits2 (Zpos p)) in *.
  replace (IntDef.Z.min (fexp 53 1024 (D + 0 - (6 + 0))) (0 - 0)) with (- s)
    by (unfold fexp, emin; subst s; change IntDef.Z.min with Z.min; change IntDef.Z.max with Z.max; lia).
  replace (0 - 0 - - s) with s by lia.
  assert (Hs : 0 <= s) by (subst s; lia). clearbody s.
  assert (Hm : match s with
               | 0 => Zpos p
               | Zpos _ => IntDef.Z.shiftl (Zpos p) s
               | Zneg _ => 0
               end = Zpos p * 2 ^ s).
  { destruct s as [|q|q]; [apply Z.mul_1_r with (n := Zpos p) || (change (2 ^ 0) with 1; lia)| |lia].
    change IntDef.Z.shiftl with Z.shiftl. apply Z.shiftl_mul_pow2. lia. }
  rewrite Hm.
  change IntDef.Z.div_eucl with Z.div_eucl.
  unfold Z.div, Z.modulo.
  destruct (Z.div_eucl (Zpos p * 2 ^ s) 60) as [q r]. reflexivity.
Qed.

Lemma scaled_numerator_bounds (p : positive) :
  Zpos p < 2 ^ 64 ->
  let s := Z.max 0 (59 - Zdigits2 (Zpos p)) in
  0 <= s <= 58 /\ 2 ^ 58 <= Zpos p * 2 ^ s < 2 ^ 64.
Proof.
  intros Hp s.
  destruct (Zdigits2_bounds (Zpos p) 0 64) as [[HD1 HD2] [B1 B2]];
    [lia|lia|change (2 ^ 0) with 1; lia|].
  set (D := Zdigits2 (Zpos p)) in *.
  split; [subst s; lia|].
  destruct (Z.le_gt_cases D 59) as [H|H].
  - assert (Es : s = 59 - D) by (subst s; lia). rewrite Es.
    assert (E1 : 2 ^ 58 = 2 ^ (D - 1) * 2 ^ (59 - D))
      by (rewrite <- Z.pow_add_r by lia; f_equal; lia).
    assert (E2 : 2 ^ 59 = 2 ^ D * 2 ^ (59 - D))
      by (rewrite <- Z.pow_add_r by lia; f_equal; lia).
    assert (Hc : 0 < 2 ^ (59 - D)) by (apply Z.pow_pos_nonneg; lia).
    assert (2 ^ 59 < 2 ^ 64) by reflexivity.
    rewrite E1. split; [nia|]. 
    apply Z.lt_trans with (2 ^ 59); [|assumption]. rewrite E2. nia.
  - assert (Es : s = 0) by (subst s; lia). rewrite Es.
    change (2 ^ 0) with 1. rewrite Z.mul_1_r. split; [|lia].
    apply Z.le_trans with (2 ^ (D - 1)); [|lia].
    apply Z.pow_le_mono_r; lia.
Qed.

Lemma float_div_60 (sx : bool) (p : positive) :
  Zpos p < 2 ^ 64 ->
  exists (m : positive) (e : Z),
    float_div (S754_finite sx p 0) (S754_finite false 60 0) = S754_finite sx m e
    /\ 2 ^ 52 <= Zpos m < 2 ^ 53
    /\ nearest_even (Zpos p * 2 ^ Z.max 0 (- e)) (60 * 2 ^ Z.max 0 e) (Zpos m).
Proof.
  intros Hp.
  pose proof (SFdiv_core_60 p Hp) as Hcore.
  pose proof (scaled_numerator_bounds p Hp) as [Hs HN].
  cbv zeta in Hcore.
  set (s := Z.max 0 (59 - Zdigits2 (Zpos p))) in *.
  set (N := Zpos p * 2 ^ s) in *.
  unfold float_div, SFdiv. rewrite Hcore. rewrite xorb_false_r.
  unfold binary_round_aux, shr_fexp.
  rewrite record_of_new_location by (reflexivity || lia).
  (* the quotient has 53 to 58 digits *)
  assert (Hq : 2 ^ 52 <= N / 60 < 2 ^ 59).
  { split.
    - apply Z.div_le_lower_bound; [lia|].
      apply Z.le_trans with (2 ^ 58); [vm_compute; discriminate|lia].
    - apply Z.div_lt_upper_bound; [lia|].
      apply Z.lt_le_trans with (2 ^ 64); [lia|vm_compute; discriminate]. }
  destruct (Zdigits2_bounds (N / 60) 52 59) as [[Hd1 Hd2] [Hb1 Hb2]]; [lia|lia|exact Hq|].
  set (dq := Zdigits2 (N / 60)) in *.
  set (k := dq - 53).
  replace (fexp 53 1024 (dq + - s) - - s) with k
    by (unfold fexp, emin; subst k; change IntDef.Z.max with Z.max; lia).
  assert (Hk : 0 <= k <= 6) by (subst k; lia).
  assert (Hpk : 0 < 2 ^ k) by (apply Z.pow_pos_nonneg; lia).
  rewrite shr_rec_of by lia.
  rewrite round_rec_of by lia.
  set (m2 := round_half_even N (60 * 2 ^ k)).
  assert (Hq1 : 2 ^ 52 <= N / (60 * 2 ^ k) < 2 ^ 53).
  { rewrite <- Z.div_div by lia.
    replace (2 ^ (dq - 1)) with (2 ^ 52 * 2 ^ k) in Hb1
      by (rewrite <- Z.pow_add_r by lia; f_equal; subst k; lia).
    replace (2 ^ dq) with (2 ^ 53 * 2 ^ k) in Hb2
      by (rewrite <- Z.pow_add_r by lia; f_equal; subst k; lia).
    split.
    - apply Z.div_le_lower_bound; lia.
    - apply Z.div_lt_upper_bound; lia. }
  pose proof (round_half_even_floor N (60 * 2 ^ k)) as Hfl. fold m2 in Hfl.
  pose proof (round_half_even_nearest N (60 * 2 ^ k) ltac:(lia)) as Hnear. fold m2 in Hnear.
  assert (Hm2 : 2 ^ 52 <= m2 <= 2 ^ 53) by lia.
  destruct (Zdigits2_bounds m2 52 54) as [[He1 He2] [Hc1 Hc2]];
    [lia|lia|split; [lia|apply Z.le_lt_trans with (2 ^ 53); [lia|reflexivity]]|].
  set (d2 := Zdigits2 m2) in *.
  set (k2 := d2 - 53).
  replace (fexp 53 1024 (d2 + (- s + k)) - (- s + k)) with k2
    by (unfold fexp, emin; subst k2; change IntDef.Z.max with Z.max; lia).
  assert (Hk2 : k2 = 0 \/ k2 = 1) by (subst k2; lia).
  replace (shr_record_of_loc m2 loc_Exact) with (rec_of m2 1)
    by (unfold rec_of; cbn [shr_record_of_loc]; rewrite Z.div_1_r, Z.mod_1_r; reflexivity).
  rewrite shr_rec_of by lia. rewrite Z.mul_1_l.
  cbn [shr_m rec_of]. unfold rec_of. cbn [shr_m].
  destruct Hk2 as [E2|E2]; rewrite E2.
  - change (2 ^ 0) with 1. rewrite Z.div_1_r.
    assert (Hm2' : 2 ^ 52 <= m2 < 2 ^ 53).
    { replace d2 with 53 in Hc1, Hc2 by (subst k2; lia). exact (conj Hc1 Hc2). }
    destruct m2 as [|m|m] eqn:Em; try (exfalso; lia).
    replace (- s + k + 0 <=? 1024 - 53) with true by (symmetry; apply Z.leb_le; lia).
    exists m, (- s + k + 0). split; [reflexivity|]. split; [exact Hm2'|].
    replace (- (- s + k + 0)) with (s - k) by lia.
    replace (- s + k + 0) with (k - s) by lia.
    unfold N in Hnear.
    apply nearest_even_scale; lia || exact Hnear.
  - assert (Hm2' : m2 = 2 ^ 53).
    { replace d2 with 54 in Hc1 by (subst k2; lia). change (2 ^ (54 - 1)) with (2 ^ 53) in Hc1. lia. }
    rewrite Hm2'. change (2 ^ 53 / 2 ^ 1) with (Zpos 4503599627370496).
    replace (- s + k + 1 <=? 1024 - 53) with true by (symmetry; apply Z.leb_le; lia).
    exists 4503599627370496%positive, (- s + k + 1). split; [reflexivity|]. split; [split; reflexivity|].
    replace (- (- s + k + 1)) with (s - (k + 1)) by lia.
    replace (- s + k + 1) with (k + 1 - s) by lia.
    apply nearest_even_scale; [lia|lia|].
    left. rewrite Hm2' in Hnear. fold N.
    rewrite Z.pow_add_r by lia. change (2 ^ 1) with 2.
    change (Zpos 4503599627370496) with (2 ^ 52).
    replace (N - 2 ^ 52 * (60 * (2 ^ k * 2))) with (N - 2 ^ 53 * (60 * 2 ^ k))
      by (change (2 ^ 53) with (2 ^ 52 * 2); ring).
    unfold nearest_even in Hnear. lia.
Qed.

(** Python's [n / 60] for a 64-bit [n]: never an error, and the binary64
    number nearest to the quotient. *)
Lemma int_true_divide_60 (n : Z) :
  - 2 ^ 63 <= n < 2 ^ 63 ->
  exists q : spec_float,
    int_true_divide n 60 = Ok q /\ nearest_binary64 n 60 q.
Proof.
  intros Hn. unfold int_true_divide. simpl (60 =? 0).
  assert (H64 : 2 ^ 63 < 2 ^ 64) by reflexivity.
  destruct n as [|p|p]; cbn [SF_of_int].
  - exists (S754_zero false). split; [reflexivity|]. now split.
  - destruct (float_div_60 false p ltac:(lia)) as (m & e & E & Hm & Hnear).
    rewrite E. exists (S754_finite false m e). split; [reflexivity|].
    repeat split; trivial; apply Hm.
  - destruct (float_div_60 true p ltac:(lia)) as (m & e & E & Hm & Hnear).
    rewrite E. exists (S754_finite true m e). split; [reflexivity|].
    repeat split; trivial; apply Hm.
Qed.

(** C5, as the code has it.  While the totals that SQL [sum] runs through
    stay within 64 bits, [total_focus_minutes] is the sum of [duration]
    over the user's completed work sessions, and [total_focus_hours] is
    the binary64 number nearest to that sum divided by 60, rounded by
    [round(x, 1)], whose one rounding law is: the number of tenths [k] of
    the result is the integer nearest to ten times the exact value
    [m * 2^e] of the quotient, the even one in a tie.  Otherwise the query
    fails with an integer overflow.  Completed work sessions of 25, 25 and
    10 minutes give 60 minutes and 1.0 hours. *)
Theorem total_focus_time (db : DB) (uid : Z) :
  let durations :=
    map PomodoroSession.duration
        (filter (completed_work uid) (pomodoro_sessions db)) in
  let total := fold_right Z.add 0 durations in
  (if forallb fits_int64 (running_totals 0 durations)
   then total_focus_minutes db uid = Ok total
        /\ exists q : spec_float,
             int_true_divide total 60 = Ok q
             /\ nearest_binary64 total 60 q
             /\ total_focus_hours db uid = Ok (float_round1 q)
   else total_focus_minutes db uid = Raise OperationalError
        /\ total_focus_hours db uid = Raise OperationalError)
  /\ (forall (s : bool) (m : positive) (e : Z),
        let k := tenths m e in
        let num := 10 * Zpos m * 2 ^ Z.max 0 e in
        let den := 2 ^ Z.max 0 (- e) in
        float_round1 (S754_finite s m e) =
          match k with
          | Zpos p => float_div (S754_finite s p 0) (S754_finite false 10 0)
          | _ => S754_zero s
          end
        /\ (2 * Z.abs (num - k * den) < den
            \/ (2 * Z.abs (num - k * den) = den /\ Z.even k = true)))
  /\ (durations = [25; 25; 10] ->
      total_focus_minutes db uid = Ok 60
      /\ total_focus_hours db uid = Ok float_one).
Proof.
  intros durations total.
  pose proof (total_focus_minutes_spec db uid) as Hmin. cbv zeta in Hmin.
  fold durations in Hmin. fold total in Hmin.
  split; [|split].
  - destruct (forallb fits_int64 (running_totals 0 durations)) eqn:Hrun.
    + split; [exact Hmin|].
      destruct (int_true_divide_60 total (total_focus_minutes_fits db uid total Hmin))
        as (q & Eq & Hq).
      exists q. split; [exact Eq|]. split; [exact Hq|].
      unfold total_focus_hours. now rewrite Hmin, Eq.
    + split; [exact Hmin|]. unfold total_focus_hours. now rewrite Hmin.
  - intros s m e k num den. split; [reflexivity|].
    subst k num den. unfold tenths.
    destruct (Z.leb_spec 0 e) as [He|He].
    + rewrite (Z.max_r 0 e) by lia. rewrite (Z.max_l 0 (- e)) by lia.
      left. change (2 ^ 0) with 1. lia.
    + rewrite (Z.max_l 0 e) by lia. rewrite (Z.max_r 0 (- e)) by lia.
      change (2 ^ 0) with 1. rewrite Z.mul_1_r.
      apply round_half_even_nearest. apply Z.pow_pos_nonneg; lia.
  - intros E. unfold total_focus_hours. subst total. rewrite E in Hmin.
    rewrite Hmin. split; reflexivity.
Qed.

Lemma fold_right_add_repeat (d : Z) (n : nat) :
  fold_right Z.add 0 (repeat d n) = d * Z.of_nat n.
Proof.
  induction n as [|n IH]; [simpl; lia|].
  cbn [repeat fold_right]. rewrite IH. lia.
Qed.

(** The ledger of alice after [n] marathons. *)
Lemma marathons_ledger (n : nat) : forall db : DB,
  current_user db (Some 1) = Some alice ->
  current_user (run db (repeat marathon n)) (Some 1) = Some alice
  /\ map PomodoroSession.duration
         (filter (completed_work 1) (pomodoro_sessions (run db (repeat marathon n))))
     = map PomodoroSession.duration
           (filter (completed_work 1) (pomodoro_sessions db))
       ++ repeat 1000000000 n.
Proof.
  induction n as [|n IH]; intros db H.
  - split; [exact H|]. cbn [repeat]. now rewrite app_nil_r.
  - cbn [repeat]. change (run db (marathon :: repeat marathon n))
      with (run (fst (handle db marathon)) (repeat marathon n)).
    unfold marathon at 1 3. cbn [handle].
    rewrite (complete_session_eq db (Some 1) alice
               (mkPayload (Some 1000000000) None) noon 0 H eq_refl).
    cbn [fst]. fold marathon.
    set (row := PomodoroSession.mk _ _ _ true _ _ _ None).
    assert (H' : current_user (add_session db row) (Some 1) = Some alice) by exact H.
    destruct (IH (add_session db row) H') as [IH1 IH2].
    split; [exact IH1|]. rewrite IH2.
    cbn [pomodoro_sessions add_session]. rewrite filter_app, map_app, <- app_assoc.
    reflexivity.
Qed.

(** After so many marathons that their minutes exceed 64 bits the sum
    fails, and with it the dashboard. *)
Lemma marathons_overflow (n : nat) :
  INT64_MAX < 1000000000 * Z.of_nat n ->
  fold_right Z.add 0
    (map PomodoroSession.duration
         (filter (completed_work 1) (pomodoro_sessions (db_marathons n))))
  = 1000000000 * Z.of_nat n
  /\ total_focus_minutes (db_marathons n) 1 = Raise OperationalError
  /\ total_focus_hours (db_marathons n) 1 = Raise OperationalError
  /\ dashboard (db_marathons n) (Some 1) noon
     = (db_marathons n, InternalServerError OperationalError).
Proof.
  intros Hn. unfold db_marathons.
  destruct (marathons_ledger n db_alice eq_refl) as [Hu Hd].
  change (map PomodoroSession.duration
            (filter (completed_work 1) (pomodoro_sessions db_alice)))
    with (@nil Z) in Hd.
  rewrite app_nil_l in Hd.
  assert (Hsum : fold_right Z.add 0
            (map PomodoroSession.duration
               (filter (completed_work 1)
                  (pomodoro_sessions (run db_alice (repeat marathon n)))))
          = 1000000000 * Z.of_nat n).
  { rewrite Hd. apply fold_right_add_repeat. }
  assert (Hmin : total_focus_minutes (run db_alice (repeat marathon n)) 1
                 = Raise OperationalError).
  { destruct (total_focus_minutes (run db_alice (repeat marathon n)) 1)
      as [total|e] eqn:E.
    - pose proof (total_focus_minutes_fits _ _ _ E) as Hfit.
      rewrite total_focus_minutes_spec in E.
      destruct (forallb fits_int64 _); [|discriminate E].
      injection E as E. rewrite Hsum in E.
      unfold INT64_MAX in Hn. change (2 ^ 63) with 9223372036854775808 in Hfit. lia.
    - rewrite total_focus_minutes_spec in E.
      destruct (forallb fits_int64 _); [discriminate E | now symmetry]. }
  assert (Hh : total_focus_hours (run db_alice (repeat marathon n)) 1
               = Raise OperationalError)
    by (unfold total_focus_hours; now rewrite Hmin).
  split; [exact Hsum|]. split; [exact Hmin|]. split; [exact Hh|].
  unfold dashboard. rewrite (login_required_some _ _ alice _ Hu).
  change (User.id alice) with 1. now rewrite Hh.
Qed.

(** C5 as stated fails once the minutes exceed 64 bits.  After ten thousand
    million marathons the sum of the durations is [10^19]; the query fails
    with an integer overflow instead of returning it, and the dashboard is
    answered with the error page. *)
Lemma total_focus_time_overflows :
  fold_right Z.add 0
    (map PomodoroSession.duration
         (filter (completed_work 1)
                 (pomodoro_sessions (db_marathons (Z.to_nat 10000000000)))))
  = 10000000000000000000
  /\ total_focus_minutes (db_marathons (Z.to_nat 10000000000)) 1
     = Raise OperationalError
  /\ total_focus_hours (db_marathons (Z.to_nat 10000000000)) 1
     = Raise OperationalError
  /\ dashboard (db_marathons (Z.to_nat 10000000000)) (Some 1) noon
     = (db_marathons (Z.to_nat 10000000000), InternalServerError OperationalError).
Proof.
  assert (Hn : INT64_MAX < 1000000000 * Z.of_nat (Z.to_nat 10000000000))
    by (rewrite Z2Nat.id by lia; reflexivity).
  destruct (marathons_overflow (Z.to_nat 10000000000) Hn) as (H1 & H2 & H3 & H4).
  split; [|split; [exact H2|split; [exact H3|exact H4]]].
  rewrite H1. rewrite Z2Nat.id by lia. reflexivity.
Qed.

Lemma total_focus_time_witness :
  map PomodoroSession.duration
      (filter (completed_work 1) (pomodoro_sessions db_three_sessions))
    = [25; 25; 10]
  /\ total_focus_minutes db_three_sessions 1 = Ok 60
  /\ total_focus_hours db_three_sessions 1 = Ok float_one.
Proof.
  split; [reflexivity|].
  apply (total_focus_time db_three_sessions 1). reflexivity.
Defined.

(** Fifteen minutes are a quarter of an hour, exactly half-way between 0.2
    and 0.3: the tie goes to the even number of tenths.  Nine minutes are
    0.15 hours, a float slightly below the decimal 0.15: one tenth. *)
Example tenths_of_quarter_hour :
  int_true_divide 15 60 = Ok (S754_finite false 4503599627370496 (-54))
  /\ tenths 4503599627370496 (-54) = 2.
Proof. split; reflexivity. Qed.

Example tenths_of_nine_minutes :
  int_true_divide 9 60 = Ok (S754_finite false 5404319552844595 (-55))
  /\ tenths 5404319552844595 (-55) = 1.
Proof. split; reflexivity. Qed.

(** ** Settings form *)

Lemma validate_field_ok (lo hi x : Z) :
  0 < lo -> (SettingsForm.validate_field lo hi x = [] <-> lo <= x <= hi).
Proof.
  intros Hlo. unfold SettingsForm.validate_field.
  destruct (Z.eqb_spec x 0) as [E|E].
  - split; [discriminate | lia].
  - destruct (Z.leb_spec lo x), (Z.leb_spec x hi); simpl;
      split; try discriminate; try lia; reflexivity.
Qed.

(** A field name is a key of [form.errors] exactly when it is one of the
    four integer fields and its validators reported something. *)
Lemma errors_keys (form : SettingsForm.t) (name : string) :
  In name (map fst (SettingsForm.errors form)) <->
  (name = "work_duration"%string
   /\ SettingsForm.validate_field 1 60 (SettingsForm.work_duration form) <> [])
  \/ (name = "short_break_duration"%string
      /\ SettingsForm.validate_field 1 30 (SettingsForm.short_break_duration form) <> [])
  \/ (name = "long_break_duration"%string
      /\ SettingsForm.validate_field 1 60 (SettingsForm.long_break_duration form) <> [])
  \/ (name = "long_break_interval"%string
      /\ SettingsForm.validate_field 2 10 (SettingsForm.long_break_interval form) <> []).
Proof.
  unfold SettingsForm.errors.
  destruct (SettingsForm.validate_field 1 60 (SettingsForm.work_duration form));
  destruct (SettingsForm.validate_field 1 30 (SettingsForm.short_break_duration form));
  destruct (SettingsForm.validate_field 1 60 (SettingsForm.long_break_duration form));
  destruct (SettingsForm.validate_field 2 10 (SettingsForm.long_break_interval form));
  simpl; split; intros H;
  repeat match goal with
         | H : _ \/ _ |- _ => destruct H
         | H : _ /\ _ |- _ => destruct H
         | H : False |- _ => destruct H
         end; subst; try congruence; auto 10;
  first [ left; split; [reflexivity | discriminate]
        | right; left; split; [reflexivity | discriminate]
        | right; right; left; split; [reflexivity | discriminate]
        | right; right; right; split; [reflexivity | discriminate] ].
Qed.

Lemma errors_nil (form : SettingsForm.t) :
  SettingsForm.errors form = [] <->
  1 <= SettingsForm.work_duration form <= 60
  /\ 1 <= SettingsForm.short_break_duration form <= 30
  /\ 1 <= SettingsForm.long_break_duration form <= 60
  /\ 2 <= SettingsForm.long_break_interval form <= 10.
Proof.
  rewrite <- (validate_field_ok 1 60), <- (validate_field_ok 1 30),
          <- (validate_field_ok 1 60), <- (validate_field_ok 2 10) by lia.
  unfold SettingsForm.errors.
  destruct (SettingsForm.validate_field 1 60 (SettingsForm.work_duration form));
  destruct (SettingsForm.validate_field 1 30 (SettingsForm.short_break_duration form));
  destruct (SettingsForm.validate_field 1 60 (SettingsForm.long_break_duration form));
  destruct (SettingsForm.validate_field 2 10 (SettingsForm.long_break_interval form));
  simpl; split; intros H; try discriminate; auto;
  destruct H as (H1 & H2 & H3 & H4); discriminate.
Qed.

Lemma get_or_create_settings_find (db : DB) (uid : Z) :
  find (fun s => UserSettings.user_id s =? uid)
       (user_settings (fst (get_or_create_settings db uid)))
  = Some (snd (get_or_create_settings db uid)).
Proof.
  unfold get_or_create_settings.
  destruct (find _ (user_settings db)) as [s|] eqn:Hf; simpl; [exact Hf|].
  apply find_snoc; [exact Hf | apply Z.eqb_refl].
Qed.

(** After the commit of an updated row, the query for its user finds it. *)
Lemma find_updated_row (l : list UserSettings.t) (uid : Z)
    (row new : UserSettings.t) :
  find (fun s => UserSettings.user_id s =? uid) l = Some row ->
  UserSettings.id new = UserSettings.id row ->
  UserSettings.user_id new = uid ->
  find (fun s => UserSettings.user_id s =? uid)
       (map (fun r => if UserSettings.id r =? UserSettings.id new then new else r) l)
  = Some new.
Proof.
  intros Hf Hid Hu. induction l as [|x l IH]; simpl in *; [discriminate|].
  destruct (UserSettings.user_id x =? uid) eqn:Ex.
  - injection Hf as ->. rewrite Hid, Z.eqb_refl. now rewrite Hu, Z.eqb_refl.
  - destruct (UserSettings.id x =? UserSettings.id new).
    + now rewrite Hu, Z.eqb_refl.
    + rewrite Ex. now apply IH.
Qed.

(** C6.  A POST of the settings form by a logged-in user.  Each of the
    four integer fields is a key of the form's errors exactly when it is
    outside its range: 1..60 for the work and long-break durations, 1..30
    for the short break, 2..10 for the interval.  Without errors, that is
    with all four in range, the user's row takes the submitted values and
    the next read returns them.  With an error nothing of the form is
    applied: the database is the one a GET of the page leaves, every row
    that existed is unchanged, and the page is rendered with the errors. *)
Theorem update_settings_all_or_nothing (db : DB) (cookie : option Z)
    (u : User.t) (form : SettingsForm.t) :
  current_user db cookie = Some u ->
  let valid :=
    1 <= SettingsForm.work_duration form <= 60
    /\ 1 <= SettingsForm.short_break_duration form <= 30
    /\ 1 <= SettingsForm.long_break_duration form <= 60
    /\ 2 <= SettingsForm.long_break_interval form <= 10 in
  let keys := map fst (SettingsForm.errors form) in
  let db1 := fst (get_or_create_settings db (User.id u)) in
  let row := snd (get_or_create_settings db (User.id u)) in
  (In "work_duration"%string keys
     <-> ~ 1 <= SettingsForm.work_duration form <= 60)
  /\ (In "short_break_duration"%string keys
        <-> ~ 1 <= SettingsForm.short_break_duration form <= 30)
  /\ (In "long_break_duration"%string keys
        <-> ~ 1 <= SettingsForm.long_break_duration form <= 60)
  /\ (In "long_break_interval"%string keys
        <-> ~ 2 <= SettingsForm.long_break_interval form <= 10)
  /\ match SettingsForm.errors form with
     | [] =>
         valid
         /\ settings db cookie (Some form) =
              (update_settings_row db1 (SettingsForm.populate_obj form row),
               Redirect "main.settings")
         /\ snd (get_or_create_settings (fst (settings db cookie (Some form)))
                                        (User.id u))
            = UserSettings.mk (UserSettings.id row) (User.id u)
                (SettingsForm.work_duration form)
                (SettingsForm.short_break_duration form)
                (SettingsForm.long_break_duration form)
                (SettingsForm.long_break_interval form)
                (SettingsForm.auto_start_breaks form)
                (SettingsForm.auto_start_pomodoros form)
                (SettingsForm.notifications_enabled form)
                (SettingsForm.sound_enabled form)
                (UserSettings.theme row)
     | errors =>
         ~ valid
         /\ settings db cookie (Some form) = (db1, RenderSettings errors row)
         /\ db1 = fst (settings db cookie None)
         /\ db1 = match settings_of db (User.id u) with
                  | [] => add_settings db row
                  | _ :: _ => db
                  end
     end.
Proof.
  intros H valid keys db1 row.
  split; [|split; [|split; [|split]]].
  1-4: subst keys; rewrite errors_keys;
       rewrite <- validate_field_ok by lia;
       split;
       [ intros [[E N] | [[E N] | [[E N] | [E N]]]]; (exact N || discriminate E)
       | intros N; auto 10 ].
  pose proof (errors_nil form) as Hnil. fold valid in Hnil.
  pose proof (get_or_create_settings_row db (User.id u)) as [Hin Huid].
  pose proof (get_or_create_settings_find db (User.id u)) as Hfind.
  fold db1 row in Hin, Huid, Hfind.
  assert (Hget : settings db cookie None = (db1, RenderSettings [] row)).
  { unfold settings. rewrite (login_required_some _ _ u _ H).
    subst db1 row. now destruct (get_or_create_settings db (User.id u)). }
  assert (Hpost : settings db cookie (Some form) =
            match SettingsForm.errors form with
            | [] => (update_settings_row db1 (SettingsForm.populate_obj form row),
                     Redirect "main.settings")
            | errors => (db1, RenderSettings errors row)
            end).
  { unfold settings. rewrite (login_required_some _ _ u _ H).
    subst db1 row. now destruct (get_or_create_settings db (User.id u)). }
  destruct (SettingsForm.errors form) as [|e errs] eqn:Herr.
  - split; [now apply Hnil|]. split; [exact Hpost|].
    rewrite Hpost. simpl fst.
    assert (Hf : find (fun s => UserSettings.user_id s =? User.id u)
                   (user_settings
                      (update_settings_row db1 (SettingsForm.populate_obj form row)))
                 = Some (SettingsForm.populate_obj form row)).
    { exact (find_updated_row (user_settings db1) (User.id u) row
               (SettingsForm.populate_obj form row) Hfind eq_refl Huid). }
    unfold get_or_create_settings. rewrite Hf. simpl.
    unfold SettingsForm.populate_obj. now rewrite Huid.
  - split; [intros Hv; apply Hnil in Hv; discriminate|].
    split; [exact Hpost|]. split; [now rewrite Hget|].
    subst db1 row. unfold settings_of. unfold get_or_create_settings.
    rewrite find_filter.
    now destruct (filter _ (user_settings db)).
Qed.

Lemma update_settings_all_or_nothing_witness :
  current_user db_alice (Some 1) = Some alice
  /\ settings db_alice (Some 1) (Some (form_with_interval 1)) =
       (db_alice,
        RenderSettings [("long_break_interval"%string, [OutOfRange 2 10])]
                       (UserSettings.new 1 1))
  /\ settings db_alice (Some 1) (Some (form_with_interval 10)) =
       (mkDB [alice] []
             [UserSettings.mk 1 1 30 10 20 10 true false true false "light"],
        Redirect "main.settings").
Proof.
  split; [reflexivity|]. split.
  - pose proof (update_settings_all_or_nothing db_alice (Some 1) alice
                  (form_with_interval 1) eq_refl) as H.
    destruct H as (_ & _ & _ & _ & H). simpl in H.
    destruct H as (_ & H & _). exact H.
  - pose proof (update_settings_all_or_nothing db_alice (Some 1) alice
                  (form_with_interval 10) eq_refl) as H.
    destruct H as (_ & _ & _ & _ & H). simpl in H.
    destruct H as (_ & H & _). exact H.
Defined.

(** ** Statistics are per user *)

Lemma filter_and {A : Type} (f g : A -> bool) (l : list A) :
  filter (fun x => f x && g x) l = filter g (filter f l).
Proof.
  induction l as [|x l IH]; simpl; [reflexivity|].
  destruct (f x); simpl; [destruct (g x); now rewrite IH | exact IH].
Qed.

(** The two counts of [get_stats] read the user's rows only. *)
Lemma count_on_date_sessions_of (db : DB) (uid : Z) (day : date) :
  count_on_date db uid day =
  List.length
    (filter (fun s => String.eqb (PomodoroSession.session_type s) "work"
                      && PomodoroSession.completed s
                      && (date_of (PomodoroSession.started_at s) =? day))
            (sessions_of db uid)).
Proof.
  unfold count_on_date, sessions_of. rewrite <- filter_and. f_equal.
  apply filter_ext. intros s. unfold completed_work.
  now rewrite <- !andb_assoc.
Qed.

Lemma total_count_sessions_of (db : DB) (uid : Z) :
  total_count db uid =
  List.length
    (filter (fun s => String.eqb (PomodoroSession.session_type s) "work"
                      && PomodoroSession.completed s)
            (sessions_of db uid)).
Proof.
  unfold total_count, sessions_of. rewrite <- filter_and. f_equal.
  apply filter_ext. intros s. unfold completed_work.
  now rewrite <- !andb_assoc.
Qed.

Lemma get_stats_eq (db : DB) (uid : Z) (u : User.t) (now : datetime) :
  load_user db uid = Some u ->
  get_stats db (Some uid) now =
  (db, Jsonify [("today_sessions"%string,
                 JInt (Z.of_nat (count_on_date db uid (date_of now))));
                ("total_sessions"%string,
                 JInt (Z.of_nat (total_count db uid)))]).
Proof.
  intros H. unfold get_stats, login_required. simpl. rewrite H.
  apply load_user_id in H. destruct H as [-> _]. reflexivity.
Qed.

(** A session route called with another user's cookie leaves this user's
    rows, and the users table, as they were. *)
Lemma other_user_frame (db : DB) (a b : Z) (data : payload)
    (now : datetime) (elapsed : N) :
  a <> b ->
  let db_start := fst (start_session db (Some b) data now) in
  let db_complete := fst (complete_session db (Some b) data now elapsed) in
  (users db_start = users db /\ sessions_of db_start a = sessions_of db a)
  /\ (users db_complete = users db /\ sessions_of db_complete a = sessions_of db a).
Proof.
  intros Hab db_start db_complete. subst db_start db_complete.
  destruct (current_user db (Some b)) as [u|] eqn:H.
  - pose proof (load_user_id db b u H) as [Hid _].
    assert (Hne : (User.id u =? a) = false) by (apply Z.eqb_neq; lia).
    split.
    + destruct (fits_int64 (data_get (p_duration data) 25)) eqn:Hf.
      * rewrite (start_session_eq db (Some b) u data now H Hf). simpl fst.
        split; [reflexivity|]. rewrite sessions_of_add. simpl.
        rewrite Hne. apply app_nil_r.
      * rewrite (start_session_overflow db (Some b) u data now H Hf). now split.
    + destruct (datetime_in_range
                  (now - timedelta_minutes (data_get (p_duration data) 25))) eqn:Hr.
      * rewrite (complete_session_eq db (Some b) u data now elapsed H Hr). simpl fst.
        split; [reflexivity|]. rewrite sessions_of_add. simpl.
        rewrite Hne. apply app_nil_r.
      * rewrite (complete_session_overflow db (Some b) u data now elapsed H Hr).
        now split.
  - unfold start_session, complete_session.
    rewrite !login_required_none by exact H. now split.
Qed.

(** C10.  The statistics [get_stats] returns for user [a] are determined
    by [a]'s rows of the ledger: two databases in which [a] exists and has
    the same rows give the same answer, whatever rows other users have.  In
    particular a session started or completed by another user [b] does not
    change them. *)
Theorem get_stats_isolated (db1 db2 : DB) (a : Z) (u1 u2 : User.t)
    (now : datetime) :
  load_user db1 a = Some u1 ->
  load_user db2 a = Some u2 ->
  sessions_of db1 a = sessions_of db2 a ->
  snd (get_stats db1 (Some a) now) = snd (get_stats db2 (Some a) now)
  /\ forall (b : Z) (data : payload) (t : datetime) (elapsed : N),
       a <> b ->
       snd (get_stats (fst (start_session db1 (Some b) data t)) (Some a) now)
         = snd (get_stats db1 (Some a) now)
       /\ snd (get_stats (fst (complete_session db1 (Some b) data t elapsed))
                         (Some a) now)
         = snd (get_stats db1 (Some a) now).
Proof.
  intros H1 H2 Hrows.
  assert (Hagree : forall dbx dby ux uy,
            load_user dbx a = Some ux -> load_user dby a = Some uy ->
            sessions_of dbx a = sessions_of dby a ->
            snd (get_stats dbx (Some a) now) = snd (get_stats dby (Some a) now)).
  { intros dbx dby ux uy Hx Hy E.
    rewrite (get_stats_eq dbx a ux now Hx), (get_stats_eq dby a uy now Hy). simpl.
    now rewrite !count_on_date_sessions_of, !total_count_sessions_of, E. }
  split; [now apply (Hagree db1 db2 u1 u2)|].
  intros b data t elapsed Hab.
  destruct (other_user_frame db1 a b data t elapsed Hab) as [[Hu1 Hs1] [Hu2 Hs2]].
  split.
  - apply (Hagree _ db1 u1 u1); auto. unfold load_user. now rewrite Hu1.
  - apply (Hagree _ db1 u1 u1); auto. unfold load_user. now rewrite Hu2.
Qed.

Lemma get_stats_isolated_witness :
  load_user db_two_users 1 = Some alice
  /\ load_user db_bob_busy 1 = Some alice
  /\ sessions_of db_two_users 1 = sessions_of db_bob_busy 1
  /\ snd (get_stats db_two_users (Some 1) noon)
     = snd (get_stats db_bob_busy (Some 1) noon)
  /\ snd (get_stats
            (fst (complete_session db_two_users (Some 2) (mkPayload None None) noon 0))
            (Some 1) noon)
     = snd (get_stats db_two_users (Some 1) noon).
Proof.
  split; [reflexivity|]. split; [reflexivity|]. split; [reflexivity|].
  destruct (get_stats_isolated db_two_users db_bob_busy 1 alice alice noon
              eq_refl eq_refl eq_refl) as [H1 H2].
  split; [exact H1|].
  apply (H2 2 (mkPayload None None) noon 0%N). discriminate.
Defined.

Lemma long_break_decision (interval n : Z) :
  (0 <? n) && (n mod interval =? 0) = true <-> 0 < n /\ (interval | n).
Proof.
  rewrite andb_true_iff, Z.ltb_lt, Z.eqb_eq.
  destruct (Z.eq_dec interval 0) as [E|E].
  - rewrite E, Z.mod_0_r. split.
    + intros [Hn H0]. lia.
    + intros [Hn [k Hk]]. lia.
  - now rewrite (Z.mod_divide n _ E).
Qed.

(** C9.  [next_session_type s n] is a long break exactly when [n] is a
    positive multiple of the long-break interval of [s], and a short break
    otherwise; after a work session the suggestion is [next_session_type],
    after a short or a long break it is work. *)
Theorem next_session_type_policy (s : UserSettings.t) (n : Z) :
  let multiple := 0 < n /\ (UserSettings.long_break_interval s | n) in
  (next_session_type s n = long_break <-> multiple)
  /\ (next_session_type s n = short_break <-> ~ multiple)
  /\ suggest_next work s n = next_session_type s n
  /\ suggest_next short_break s n = work
  /\ suggest_next long_break s n = work.
Proof.
  intros multiple.
  pose proof (long_break_decision (UserSettings.long_break_interval s) n) as Hdec.
  fold multiple in Hdec.
  unfold suggest_next, next_session_type.
  destruct ((0 <? n) && (n mod UserSettings.long_break_interval s =? 0)).
  - split; [split; [intros _; now apply Hdec | reflexivity]|].
    split; [split; [discriminate | intros Hn; exfalso; apply Hn; now apply Hdec]|].
    repeat split.
  - split; [split; [discriminate | intros Hm; apply Hdec in Hm; discriminate]|].
    split; [split; [intros _ Hm; apply Hdec in Hm; discriminate | reflexivity]|].
    repeat split.
Qed.

(** Within a cycle the first long break comes after exactly
    [long_break_interval] work sessions. *)
Lemma first_long_break (s : UserSettings.t) (n : Z) :
  0 < n <= UserSettings.long_break_interval s ->
  next_session_type s n =
    if n =? UserSettings.long_break_interval s then long_break else short_break.
Proof.
  intros Hn. unfold next_session_type.
  pose proof (long_break_decision (UserSettings.long_break_interval s) n) as Hdec.
  destruct (Z.eqb_spec n (UserSettings.long_break_interval s)) as [E|E].
  - replace ((0 <? n) && (n mod UserSettings.long_break_interval s =? 0)) with true;
      [reflexivity|].
    symmetry. apply Hdec. split; [lia|]. exists 1. lia.
  - destruct ((0 <? n) && (n mod UserSettings.long_break_interval s =? 0));
      [|reflexivity].
    destruct (proj1 Hdec eq_refl) as [_ [k Hk]].
    assert (Hk' : k <= 0 \/ 1 <= k) by lia. destruct Hk'; nia.
Qed.

(** With the default interval of 4: three short breaks, then a long one. *)
Example default_cycle :
  map (next_session_type (UserSettings.new 1 1)) [1; 2; 3; 4; 5; 6; 7; 8]
  = [short_break; short_break; short_break; long_break;
     short_break; short_break; short_break; long_break].
Proof. reflexivity. Qed.

(** * Further properties of the routes *)

(** ** Guards *)



(** A visitor who is logged in can neither log in nor register again: both
    routes redirect to the index before looking at the form, and no user or
    settings row is created. *)
Theorem logged_in_visitors_skip_forms (db : DB) (cookie : option Z) (u : User.t) :
  current_user db cookie = Some u ->
  (forall post ok pw next_page now,
     login db cookie post ok pw next_page now = (db, Redirect "main.index"))
  /\ (forall post ok h now,
        register db cookie post ok h now = (db, Redirect "main.index")).
Proof.
  intros H. split; intros; [unfold login | unfold register]; now rewrite H.
Qed.

Lemma logged_in_visitors_skip_forms_witness :
  current_user db_alice (Some 1) = Some alice
  /\ register db_alice (Some 1) (Some bob_form) true "pbkdf2:sha256:0002" noon
       = (db_alice, Redirect "main.index").
Proof.
  split; [reflexivity|].
  apply (logged_in_visitors_skip_forms db_alice (Some 1) alice eq_refl).
Defined.

(** ** Login *)




(** A [next] argument of two slashes and a host name begins with a slash
    and is followed. *)
Example login_follows_double_slash :
  snd (login db_alice None (Some (LoginForm.mk "alice" "tomato25" false))
             true true (Some "//example.org/"%string) noon)
  = Redirect "//example.org/".
Proof. reflexivity. Qed.

(** ** Every request is a sequence of the five writes *)

Lemma effects_one (db db' : DB) : effect db db' -> effects db db'.
Proof. intros H. eapply effects_step; [apply effects_done | exact H]. Qed.

Lemma effects_trans (db1 db2 db3 : DB) :
  effects db1 db2 -> effects db2 db3 -> effects db1 db3.
Proof.
  intros H12 H23. induction H23 as [|dbx dby _ IH Hstep]; [exact H12|].
  eapply effects_step; [exact IH | exact Hstep].
Qed.

Lemma find_none_not_in {A : Type} (key : A -> string) (l : list A) (k : string) :
  find (fun x => String.eqb (key x) k) l = None -> ~ In k (map key l).
Proof.
  intros Hf Hin. apply in_map_iff in Hin. destruct Hin as (x & E & Hx).
  apply (find_none _ _ Hf) in Hx. simpl in Hx.
  rewrite E, String.eqb_refl in Hx. discriminate.
Qed.

Lemma get_or_create_settings_effects (db : DB) (uid : Z) :
  In uid (map User.id (users db)) ->
  effects db (fst (get_or_create_settings db uid)).
Proof.
  intros Hin. unfold get_or_create_settings.
  destruct (find _ (user_settings db)) as [s|] eqn:Hf; simpl.
  - apply effects_done.
  - apply effects_one. apply effect_settings_create; [exact Hin|].
    now apply find_none_user_id.
Qed.

Lemma handle_effects (db : DB) (r : request) : effects db (fst (handle db r)).
Proof.
  request_cases r.
  - unfold login. destruct (current_user db cookie); [apply effects_done|].
    destruct ok; [|apply effects_done].
    destruct (find _ (users db)) as [user|] eqn:Hf; [|apply effects_done].
    destruct pw; [|apply effects_done].
    apply effects_one. apply effect_stamp. now apply find_some in Hf.
  - unfold register. destruct (current_user db cookie); [apply effects_done|].
    destruct ok; simpl; [|apply effects_done].
    unfold RegistrationForm.validate_username, RegistrationForm.validate_email.
    destruct (find _ (users db)) eqn:Hu; simpl; [apply effects_done|].
    destruct (find (fun u => String.eqb (User.email u) _) (users db)) eqn:He;
      simpl; [apply effects_done|].
    apply effects_one.
    apply (effect_register db
             (User.mk (next_id (map User.id (users db)))
                      (RegistrationForm.username form)
                      (RegistrationForm.email form) h now None)).
    + reflexivity.
    + exact (find_none_not_in User.username _ _ Hu).
    + exact (find_none_not_in User.email _ _ He).
  - unfold settings, login_required.
    destruct (current_user db cookie) as [u|] eqn:H; [|apply effects_done].
    apply current_user_id in H. destruct H as [_ Hin].
    pose proof (get_or_create_settings_effects db (User.id u)
                  (in_map User.id _ _ Hin)) as H1.
    now destruct (get_or_create_settings db (User.id u)).
  - unfold settings, login_required.
    destruct (current_user db cookie) as [u|] eqn:H; [|apply effects_done].
    apply current_user_id in H. destruct H as [_ Hin].
    pose proof (get_or_create_settings_effects db (User.id u)
                  (in_map User.id _ _ Hin)) as H1.
    pose proof (get_or_create_settings_row db (User.id u)) as [H2 _].
    destruct (get_or_create_settings db (User.id u)) as [db1 s]. simpl in H1, H2.
    destruct (SettingsForm.errors form) eqn:Herr; [|exact H1]. simpl.
    eapply effects_step; [exact H1|]. now apply effect_settings_update.
  - destruct (current_user db cookie) as [u|] eqn:H.
    + destruct (fits_int64 (data_get (p_duration data) 25)) eqn:Hf.
      * rewrite (start_session_eq db cookie u data now H Hf). simpl fst.
        apply effects_one. apply effect_session; simpl.
        -- reflexivity.
        -- apply current_user_id in H. destruct H as [_ Hin]. now apply in_map.
        -- now split.
      * rewrite (start_session_overflow db cookie u data now H Hf).
        apply effects_done.
    + unfold start_session. rewrite login_required_none by exact H.
      apply effects_done.
  - destruct (current_user db cookie) as [u|] eqn:H.
    + destruct (datetime_in_range
                  (now - timedelta_minutes (data_get (p_duration data) 25))) eqn:Hr.
      * rewrite (complete_session_eq db cookie u data now elapsed H Hr). simpl fst.
        apply effects_one. apply effect_session; simpl.
        -- reflexivity.
        -- apply current_user_id in H. destruct H as [_ Hin]. now apply in_map.
        -- split; [reflexivity|]. simpl.
           exists (now + Z.of_N elapsed). split; [reflexivity|].
           split; [lia | exact Hr].
      * rewrite (complete_session_overflow db cookie u data now elapsed H Hr).
        apply effects_done.
    + unfold complete_session. rewrite login_required_none by exact H.
      apply effects_done.
  - unfold get_stats, login_required.
    destruct (current_user db cookie); apply effects_done.
  - unfold dashboard, login_required.
    destruct (current_user db cookie) as [u|]; [|apply effects_done].
    destruct (total_focus_hours db (User.id u)); apply effects_done.
Qed.

Lemma run_effects (db : DB) (rs : list request) : effects db (run db rs).
Proof.
  induction rs as [|r rs IH] using rev_ind.
  - apply effects_done.
  - rewrite run_snoc. eapply effects_trans; [exact IH | apply handle_effects].
Qed.

(** A property that the five writes preserve holds after every request
    sequence. *)
Lemma effects_invariant (P : DB -> Prop) :
  (forall db db', effect db db' -> P db -> P db') ->
  forall db db', effects db db' -> P db -> P db'.
Proof.
  intros Hstep db db' H H0. induction H as [|db1 db2 _ IH He]; [exact H0|].
  apply (Hstep db1 db2 He). exact IH.
Qed.

(** ** Keys *)

Lemma map_replace_same {A B : Type} (key : A -> Z) (f : A -> B) (l : list A)
    (old new : A) :
  NoDup (map key l) -> In old l -> key new = key old -> f new = f old ->
  map f (map (fun r => if key r =? key new then new else r) l) = map f l.
Proof.
  intros Hnd Hin Hk Hf. rewrite map_map. apply map_ext_in. intros r Hr.
  destruct (Z.eqb_spec (key r) (key new)) as [E|E]; [|reflexivity].
  rewrite Hf. f_equal. symmetry.
  apply (NoDup_map_eq key l r old Hnd Hr Hin). congruence.
Qed.

Lemma effect_user_ids (db db' : DB) :
  effect db db' ->
  exists added, map User.id (users db') = map User.id (users db) ++ added.
Proof.
  intros H. destruct H; simpl.
  - exists []. rewrite app_nil_r.
    exact (update_user_row_ids db (User.update_last_login user now)).
  - exists [User.id user]. now rewrite map_app.
  - exists []. now rewrite app_nil_r.
  - exists []. now rewrite app_nil_r.
  - exists []. now rewrite app_nil_r.
Qed.

Lemma effect_sessions (db db' : DB) :
  effect db db' ->
  exists added, pomodoro_sessions db' = pomodoro_sessions db ++ added.
Proof.
  intros H. destruct H; simpl; try (exists []; now rewrite app_nil_r).
  now exists [row].
Qed.

Lemma effect_users_wf (db db' : DB) : effect db db' -> users_wf db -> users_wf db'.
Proof.
  intros H (Hid & Hname & Hmail). destruct H; unfold users_wf.
  - unfold update_user_row. cbn [users].
    rewrite !(map_replace_same User.id _ (users db) user
                (User.update_last_login user now)) by auto.
    now repeat split.
  - simpl. rewrite !map_app. simpl. repeat split; apply NoDup_snoc; auto.
    rewrite H. apply next_id_fresh.
  - now repeat split.
  - now repeat split.
  - now repeat split.
Qed.

Lemma effect_ledger_wf (db db' : DB) :
  effect db db' -> ledger_wf db -> ledger_wf db'.
Proof.
  intros H (Hid & Hfk).
  destruct (effect_user_ids db db' H) as [added Hu].
  assert (Hfk' : forall s, In s (pomodoro_sessions db) ->
                   In (PomodoroSession.user_id s) (map User.id (users db'))).
  { intros s Hs. rewrite Hu. apply in_or_app. left. now apply Hfk. }
  clear Hu. destruct H; unfold ledger_wf.
  - split; [exact Hid | exact Hfk'].
  - split; [exact Hid | exact Hfk'].
  - split; [exact Hid | exact Hfk'].
  - split; [exact Hid | exact Hfk'].
  - simpl. rewrite map_app. simpl. split.
    + apply NoDup_snoc; [exact Hid|]. rewrite H. apply next_id_fresh.
    + intros s Hs. apply in_app_or in Hs. destruct Hs as [Hs | [<- | []]]; auto.
Qed.

Lemma effect_timed_rows (db db' : DB) :
  effect db db' ->
  Forall timed_row (pomodoro_sessions db) ->
  Forall timed_row (pomodoro_sessions db').
Proof.
  intros H Hall. destruct H; simpl; auto.
  apply Forall_app. split; [exact Hall | now constructor].
Qed.

(** X4.  In every database reached from the empty one, the ids, the names and
    the addresses of the users are pairwise distinct: [register] gives a new
    user the next id and its two uniqueness validators turn away a name or
    an address that is taken; [login] changes neither. *)
Theorem reachable_users_unique (rs : list request) :
  let db := run empty_db rs in
  NoDup (map User.id (users db))
  /\ NoDup (map User.username (users db))
  /\ NoDup (map User.email (users db)).
Proof.
  apply (effects_invariant users_wf effect_users_wf empty_db _ (run_effects _ rs)).
  repeat split; constructor.
Qed.

(** X5.  In every database reached from the empty one, the session ids are
    pairwise distinct and every session row belongs to an existing user, to
    exactly one by the distinct user ids. *)
Theorem reachable_ledger_keys (rs : list request) :
  let db := run empty_db rs in
  NoDup (map PomodoroSession.id (pomodoro_sessions db))
  /\ forall s, In s (pomodoro_sessions db) ->
       exists u, load_user db (PomodoroSession.user_id s) = Some u
                 /\ User.id u = PomodoroSession.user_id s.
Proof.
  intros db.
  assert (H : ledger_wf db).
  { apply (effects_invariant ledger_wf effect_ledger_wf empty_db _ (run_effects _ rs)).
    split; [constructor | intros s []]. }
  destruct H as [Hid Hfk]. split; [exact Hid|].
  intros s Hs. apply Hfk in Hs. apply in_map_iff in Hs.
  destruct Hs as (u & E & Hu). unfold load_user.
  destruct (find (fun u0 => User.id u0 =? PomodoroSession.user_id s) (users db))
    as [v|] eqn:Hf.
  - exists v. split; [reflexivity|]. apply find_some in Hf.
    now apply Z.eqb_eq.
  - apply (find_none _ _ Hf) in Hu. simpl in Hu.
    rewrite E, Z.eqb_refl in Hu. discriminate.
Qed.

(** X6.  In every database reached from the empty one, no session row has a
    task description; a pending row has no completion time; a completed row
    was started inside the calendar and completed at least [duration]
    minutes after its start, whatever the sign of the duration. *)
Theorem reachable_ledger_timed (rs : list request) :
  Forall timed_row (pomodoro_sessions (run empty_db rs)).
Proof.
  apply (effects_invariant (fun db => Forall timed_row (pomodoro_sessions db))
           effect_timed_rows empty_db _ (run_effects _ rs)).
  constructor.
Qed.

(** X7.  The ledger only grows.  Whatever requests are served, the session rows
    that were there stay as they were, the new ones come after them, no user
    id disappears, and no user's count of completed work sessions goes
    down. *)
Theorem ledger_append_only (db : DB) (rs : list request) :
  (exists added, pomodoro_sessions (run db rs) = pomodoro_sessions db ++ added)
  /\ (exists added, map User.id (users (run db rs)) = map User.id (users db) ++ added)
  /\ forall uid, (total_count db uid <= total_count (run db rs) uid)%nat.
Proof.
  assert (H : exists added1 added2,
            pomodoro_sessions (run db rs) = pomodoro_sessions db ++ added1
            /\ map User.id (users (run db rs)) = map User.id (users db) ++ added2).
  { apply (effects_invariant
             (fun db' => exists added1 added2,
                pomodoro_sessions db' = pomodoro_sessions db ++ added1
                /\ map User.id (users db') = map User.id (users db) ++ added2)
             ) with (db := db); [| apply run_effects |].
    - intros db1 db2 He (a1 & a2 & H1 & H2).
      destruct (effect_user_ids db1 db2 He) as [a3 H3].
      destruct (effect_sessions db1 db2 He) as [a4 H4].
      exists (a1 ++ a4), (a2 ++ a3). split.
      + now rewrite H4, H1, <- app_assoc.
      + now rewrite H3, H2, <- app_assoc.
    - exists [], []. now rewrite !app_nil_r. }
  destruct H as (a1 & a2 & H1 & H2).
  split; [now exists a1|]. split; [now exists a2|].
  intros uid. unfold total_count. rewrite H1, filter_app, length_app. lia.
Qed.

(** ** Settings rows *)

Lemma default_settings_in_range (i uid : Z) :
  settings_in_range (UserSettings.new i uid).
Proof. unfold settings_in_range. simpl. repeat split; lia. Qed.

Lemma populated_settings_in_range (form : SettingsForm.t) (row : UserSettings.t) :
  SettingsForm.errors form = [] ->
  settings_in_range row ->
  settings_in_range (SettingsForm.populate_obj form row).
Proof.
  intros He (_ & _ & _ & _ & Ht). apply errors_nil in He.
  destruct He as (H1 & H2 & H3 & H4). unfold settings_in_range. simpl.
  repeat split; try lia. exact Ht.
Qed.

Lemma effect_settings_complete (db db' : DB) :
  effect db db' -> settings_complete db -> settings_complete db'.
Proof.
  intros H (Hwf & Hall & Hrange).
  destruct (effect_user_ids db db' H) as [added Hu].
  destruct H.
  - (* stamp *)
    assert (Hids : map User.id (users (update_user_row db
                     (User.update_last_login user now))) = map User.id (users db))
      by exact (update_user_row_ids db _).
    destruct Hwf as (W1 & W2 & W3).
    unfold settings_complete, settings_wf. rewrite Hids.
    repeat split; auto.
  - (* register *)
    destruct Hwf as (W1 & W2 & W3).
    assert (Hwf1 : settings_wf (add_user db user)).
    { repeat split; auto. intros s Hs. simpl. rewrite map_app.
      apply in_or_app. left. now apply W3. }
    assert (Hnew : ~ In (User.id user)
                     (map UserSettings.user_id (user_settings (add_user db user)))).
    { simpl. intros Hin. apply in_map_iff in Hin. destruct Hin as (s & E & Hs).
      apply W3 in Hs. rewrite E, H in Hs. now apply (next_id_fresh _ Hs). }
    split; [|split].
    + apply (add_settings_wf (add_user db user) (User.id user) Hwf1); [|exact Hnew].
      simpl. rewrite map_app. apply in_or_app. right. now left.
    + simpl. intros uid Hin. rewrite map_app in *. simpl.
      apply in_app_or in Hin. apply in_or_app.
      destruct Hin as [Hin | [<- | []]]; [left; now apply Hall | right; now left].
    + simpl. apply Forall_app. split; [exact Hrange|].
      constructor; [apply default_settings_in_range | constructor].
  - (* lazy creation *)
    split; [|split].
    + now apply add_settings_wf.
    + simpl. intros u Hin. rewrite map_app. apply in_or_app. left. now apply Hall.
    + simpl. apply Forall_app. split; [exact Hrange|].
      constructor; [apply default_settings_in_range | constructor].
  - (* update *)
    split; [|split].
    + now apply (update_settings_row_wf db row).
    + destruct Hwf as (W1 & W2 & W3). unfold update_settings_row. cbn [users user_settings].
      rewrite (map_replace_same UserSettings.id UserSettings.user_id
                 (user_settings db) row (SettingsForm.populate_obj form row))
        by auto.
      exact Hall.
    + unfold update_settings_row. cbn [user_settings].
      rewrite Forall_forall in *. intros s Hs. apply in_map_iff in Hs.
      destruct Hs as (r & E & Hr).
      destruct (UserSettings.id r =? _); subst s.
      * apply populated_settings_in_range; auto.
      * now apply Hrange.
  - (* session *)
    exact (conj Hwf (conj Hall Hrange)).
Qed.

Lemma reachable_settings_complete (rs : list request) :
  settings_complete (run empty_db rs).
Proof.
  apply (effects_invariant settings_complete effect_settings_complete
           empty_db _ (run_effects _ rs)).
  split; [|split].
  - repeat split; simpl; try constructor. intros s [].
  - intros uid [].
  - constructor.
Qed.

(** X8.  In every database reached from the empty one, each settings row holds
    values the settings form accepts: durations within 1..60, 1..30 and
    1..60, an interval within 2..10.  The theme of every row is light: no
    route writes that column. *)
Theorem reachable_settings_in_range (rs : list request) :
  Forall settings_in_range (user_settings (run empty_db rs)).
Proof. apply (reachable_settings_complete rs). Qed.

(** The one settings row of a logged-in user of a reachable database. *)
Lemma registered_users_row (rs : list request) (cookie : option Z) (u : User.t) :
  current_user (run empty_db rs) cookie = Some u ->
  exists row,
    settings_of (run empty_db rs) (User.id u) = [row]
    /\ find (fun s => UserSettings.user_id s =? User.id u)
            (user_settings (run empty_db rs)) = Some row.
Proof.
  set (db := run empty_db rs). intros H.
  destruct (reachable_settings_complete rs) as ((_ & W2 & _) & Hall & _).
  fold db in W2, Hall.
  pose proof (current_user_id db cookie u H) as [_ Hin].
  pose proof (Hall _ (in_map User.id _ _ Hin)) as Hrow.
  pose proof (filter_unique_key UserSettings.user_id (user_settings db)
                (User.id u) W2) as Hle.
  fold (settings_of db (User.id u)) in Hle.
  pose proof (find_filter (fun s => UserSettings.user_id s =? User.id u)
                (user_settings db)) as Hfind.
  fold (settings_of db (User.id u)) in Hfind.
  destruct (settings_of db (User.id u)) as [|row rest] eqn:Hrows.
  - exfalso. apply in_map_iff in Hrow. destruct Hrow as (s & E & Hs).
    assert (Hs' : In s (settings_of db (User.id u))).
    { unfold settings_of. apply filter_In. split; [exact Hs|]. now apply Z.eqb_eq. }
    rewrite Hrows in Hs'. exact Hs'.
  - assert (rest = []) by (destruct rest; [reflexivity | simpl in Hle; lia]).
    subst rest. exists row. split; [reflexivity | exact Hfind].
Qed.

(** X9.  Every user who registered through the site has exactly one settings
    row, the one [register] inserted.  For such a user the creation branch
    of the settings route is never taken: a GET of the settings page shows
    that row and leaves the database as it is. *)
Theorem registered_users_have_settings (rs : list request)
    (cookie : option Z) (u : User.t) :
  let db := run empty_db rs in
  current_user db cookie = Some u ->
  exists row,
    settings_of db (User.id u) = [row]
    /\ settings db cookie None = (db, RenderSettings [] row).
Proof.
  intros db H.
  destruct (registered_users_row rs cookie u H) as (row & Hrows & Hfind).
  exists row. split; [exact Hrows|].
  unfold settings. rewrite (login_required_some _ _ u _ H).
  unfold get_or_create_settings. fold db in Hfind. now rewrite Hfind.
Qed.

Lemma registered_users_have_settings_witness :
  current_user (run empty_db
      [POST_register None alice_form true "pbkdf2:sha256:0001" (noon - 1)])
    (Some 1) = Some alice
  /\ exists row,
       settings_of db_alice 1 = [row]
       /\ settings db_alice (Some 1) None = (db_alice, RenderSettings [] row).
Proof.
  split; [reflexivity|].
  exact (registered_users_have_settings
           [POST_register None alice_form true "pbkdf2:sha256:0001" (noon - 1)]
           (Some 1) alice eq_refl).
Defined.

(** ** Registration and seeding *)

Lemma find_all_false {A : Type} (f : A -> bool) (l : list A) :
  (forall x, In x l -> f x = false) -> find f l = None.
Proof.
  induction l as [|x l IH]; simpl; intros H; [reflexivity|].
  rewrite (H x (or_introl eq_refl)). apply IH. intros y Hy. apply H. now right.
Qed.

Lemma find_is_some {A : Type} (f : A -> bool) (l : list A) (x : A) :
  In x l -> f x = true -> exists y, find f l = Some y.
Proof.
  intros Hin Hx. destruct (find f l) as [y|] eqn:E; [now exists y|].
  apply (find_none _ _ E) in Hin. congruence.
Qed.

Lemma load_new_user (db : DB) (user : User.t) :
  User.id user = next_id (map User.id (users db)) ->
  load_user (add_user db user) (User.id user) = Some user.
Proof.
  intros Hid. unfold load_user. simpl. apply find_snoc; [|apply Z.eqb_refl].
  apply find_all_false. intros x Hx. apply Z.eqb_neq. intros E.
  apply (next_id_fresh (map User.id (users db))).
  rewrite <- Hid, <- E. now apply in_map.
Qed.

(** X10.  A registration that passes the validators creates the account: the
    new user is found by the id the database gave it, it has a settings row
    with the defaults, the ledger is untouched and the visitor is sent to
    the login view.  From then on the name and the address are taken: a
    further registration with either is turned away and changes nothing. *)
Theorem register_creates_account (db : DB) (form : RegistrationForm.t)
    (h : string) (now : datetime) :
  RegistrationForm.validate_username db form = true ->
  RegistrationForm.validate_email db form = true ->
  let user :=
    User.mk (next_id (map User.id (users db))) (RegistrationForm.username form)
            (RegistrationForm.email form) h now None in
  let db' := fst (register db None (Some form) true h now) in
  snd (register db None (Some form) true h now) = Redirect "main.login"
  /\ current_user db' (Some (User.id user)) = Some user
  /\ users db' = users db ++ [user]
  /\ user_settings db' =
       user_settings db
       ++ [UserSettings.mk (next_id (map UserSettings.id (user_settings db)))
             (User.id user) 25 5 15 4 false false true true "light"]
  /\ pomodoro_sessions db' = pomodoro_sessions db
  /\ forall form2 ok2 h2 now2,
       RegistrationForm.username form2 = RegistrationForm.username form
       \/ RegistrationForm.email form2 = RegistrationForm.email form ->
       register db' None (Some form2) ok2 h2 now2 = (db', RenderRegister).
Proof.
  intros Hu He user db'.
  assert (E : register db None (Some form) true h now =
              (add_settings (add_user db user)
                 (UserSettings.new (next_id (map UserSettings.id (user_settings db)))
                                   (User.id user)),
               Redirect "main.login")).
  { unfold register. simpl. now rewrite Hu, He. }
  subst db'. rewrite E. cbn [fst snd].
  split; [reflexivity|]. split; [exact (load_new_user db user eq_refl)|].
  split; [reflexivity|]. split; [reflexivity|]. split; [reflexivity|].
  intros form2 ok2 h2 now2 Hdup. unfold register, current_user. cbv iota.
  assert (Hin : In user (users (add_settings (add_user db user)
            (UserSettings.new (next_id (map UserSettings.id (user_settings db)))
                              (User.id user))))).
  { simpl. apply in_or_app. right. now left. }
  destruct Hdup as [Hn | Hm].
  - destruct (find_is_some
                (fun u => String.eqb (User.username u) (RegistrationForm.username form2))
                _ user Hin) as [y Hy].
    { simpl. rewrite Hn. apply String.eqb_refl. }
    unfold RegistrationForm.validate_username. rewrite Hy.
    now destruct ok2.
  - destruct (find_is_some
                (fun u => String.eqb (User.email u) (RegistrationForm.email form2))
                _ user Hin) as [y Hy].
    { simpl. rewrite Hm. apply String.eqb_refl. }
    unfold RegistrationForm.validate_email at 1. rewrite Hy.
    destruct ok2; simpl; [|reflexivity].
    now destruct (RegistrationForm.validate_username _ form2).
Qed.

Lemma register_creates_account_witness :
  RegistrationForm.validate_username db_alice bob_form = true
  /\ RegistrationForm.validate_email db_alice bob_form = true
  /\ current_user
       (fst (register db_alice None (Some bob_form) true "pbkdf2:sha256:0002" noon))
       (Some 2)
     = Some (User.mk 2 "bob" "bob@example.org" "pbkdf2:sha256:0002" noon None).
Proof.
  split; [reflexivity|]. split; [reflexivity|].
  apply (register_creates_account db_alice bob_form "pbkdf2:sha256:0002" noon
           eq_refl eq_refl).
Defined.

(** X11.  [seed_db] on a database reached through the site.  When it succeeds it
    has added the user demo and nothing else: demo can be loaded by its id
    and has no settings row, and the first visit of the settings page
    creates the row with the defaults.  A second [seed_db] fails on the
    unique columns.  When it fails, the name or the address was taken. *)
Theorem seed_db_leaves_settings_to_the_route (rs : list request)
    (h : string) (now : datetime) :
  let db := run empty_db rs in
  match seed_db db h now with
  | Seeded db' =>
      exists demo,
        users db' = users db ++ [demo]
        /\ User.username demo = "demo"%string
        /\ pomodoro_sessions db' = pomodoro_sessions db
        /\ user_settings db' = user_settings db
        /\ current_user db' (Some (User.id demo)) = Some demo
        /\ settings_of db' (User.id demo) = []
        /\ (let row := UserSettings.new
                         (next_id (map UserSettings.id (user_settings db')))
                         (User.id demo) in
            settings db' (Some (User.id demo)) None
              = (add_settings db' row, RenderSettings [] row))
        /\ forall h2 now2, seed_db db' h2 now2 = IntegrityError
  | IntegrityError =>
      In "demo"%string (map User.username (users db))
      \/ In "demo@example.com"%string (map User.email (users db))
  end.
Proof.
  intros db. unfold seed_db.
  destruct (existsb (fun u => String.eqb (User.username u) "demo") (users db)) eqn:E1.
  { simpl. left. apply existsb_exists in E1. destruct E1 as (u & Hu & E).
    apply String.eqb_eq in E. rewrite <- E. now apply in_map. }
  destruct (existsb (fun u => String.eqb (User.email u) "demo@example.com") (users db))
    eqn:E2.
  { simpl. right. apply existsb_exists in E2. destruct E2 as (u & Hu & E).
    apply String.eqb_eq in E. rewrite <- E. now apply in_map. }
  simpl.
  set (demo := User.mk (next_id (map User.id (users db))) "demo" "demo@example.com"
                       h now None).
  exists demo.
  pose proof (load_new_user db demo eq_refl) as Hload.
  assert (Hnone : settings_of (add_user db demo) (User.id demo) = []).
  { destruct (reachable_settings_complete rs) as ((_ & _ & W3) & _ & _).
    fold db in W3. unfold settings_of. simpl.
    destruct (filter _ (user_settings db)) as [|s rest] eqn:F; [reflexivity|].
    exfalso.
    assert (Hs : In s (filter (fun s => UserSettings.user_id s
                                 =? next_id (map User.id (users db)))
                         (user_settings db))) by (rewrite F; now left).
    apply filter_In in Hs. destruct Hs as [Hs E]. apply Z.eqb_eq in E.
    apply W3 in Hs. rewrite E in Hs. now apply (next_id_fresh _ Hs). }
  repeat split; try reflexivity; try exact Hload; try exact Hnone.
  - unfold settings.
    rewrite (login_required_some (add_user db demo) (Some (User.id demo)) demo _ Hload).
    unfold get_or_create_settings. rewrite find_filter.
    fold (settings_of (add_user db demo) (User.id demo)). rewrite Hnone.
    reflexivity.
  - intros h2 now2. unfold seed_db. simpl users. rewrite existsb_app. simpl.
    now rewrite orb_true_r.
Qed.

(** ** A settings update touches one row *)

Lemma filter_map_same {A : Type} (h : A -> bool) (g : A -> A) (l : list A) :
  (forall r, In r l -> h (g r) = h r) ->
  filter h (map g l) = map g (filter h l).
Proof.
  induction l as [|x l IH]; simpl; intros H; [reflexivity|].
  rewrite (H x (or_introl eq_refl)).
  rewrite IH by (intros r Hr; apply H; now right).
  now destruct (h x).
Qed.

(** X12.  An accepted settings form, posted by a user who registered through the
    site, rewrites that user's one settings row and nothing else: the users,
    the ledger and every other user's settings stay as they were, the row
    keeps its id, its owner and its theme, and posting the same form again
    changes nothing. *)
Theorem settings_post_changes_one_row (rs : list request)
    (cookie : option Z) (u : User.t) (form : SettingsForm.t) :
  let db := run empty_db rs in
  current_user db cookie = Some u ->
  SettingsForm.errors form = [] ->
  let db' := fst (settings db cookie (Some form)) in
  users db' = users db
  /\ pomodoro_sessions db' = pomodoro_sessions db
  /\ (forall v, v <> User.id u -> settings_of db' v = settings_of db v)
  /\ (exists row,
        settings_of db (User.id u) = [row]
        /\ settings_of db' (User.id u) =
             [UserSettings.mk (UserSettings.id row) (UserSettings.user_id row)
                (SettingsForm.work_duration form)
                (SettingsForm.short_break_duration form)
                (SettingsForm.long_break_duration form)
                (SettingsForm.long_break_interval form)
                (SettingsForm.auto_start_breaks form)
                (SettingsForm.auto_start_pomodoros form)
                (SettingsForm.notifications_enabled form)
                (SettingsForm.sound_enabled form)
                (UserSettings.theme row)])
  /\ fst (settings db' cookie (Some form)) = db'.
Proof.
  intros db H Herr db'.
  destruct (registered_users_row rs cookie u H) as (row & Hrows & Hfind).
  fold db in Hrows, Hfind.
  destruct (reachable_settings_complete rs) as ((W1 & _ & _) & _ & _). fold db in W1.
  set (p := SettingsForm.populate_obj form row).
  set (g := fun r => if UserSettings.id r =? UserSettings.id p then p else r).
  assert (Hin : In row (user_settings db)) by (now apply find_some in Hfind).
  assert (Huid : UserSettings.user_id row = User.id u).
  { apply find_some in Hfind. now apply Z.eqb_eq. }
  assert (Hpost : forall dbx,
            current_user dbx cookie = Some u ->
            find (fun s => UserSettings.user_id s =? User.id u) (user_settings dbx)
              = Some row \/
            find (fun s => UserSettings.user_id s =? User.id u) (user_settings dbx)
              = Some p ->
            fst (settings dbx cookie (Some form)) = update_settings_row dbx p).
  { intros dbx Hx Hf. unfold settings. rewrite (login_required_some _ _ u _ Hx).
    unfold get_or_create_settings. destruct Hf as [-> | ->]; now rewrite Herr. }
  assert (E : db' = update_settings_row db p) by (apply Hpost; auto).
  assert (Hg : forall r, In r (user_settings db) -> UserSettings.id r = UserSettings.id p
                         -> r = row).
  { intros r Hr Er. now apply (NoDup_map_eq UserSettings.id (user_settings db)). }
  assert (Hsame : forall v r, In r (user_settings db) ->
            (UserSettings.user_id (g r) =? v) = (UserSettings.user_id r =? v)).
  { intros v r Hr. unfold g.
    destruct (Z.eqb_spec (UserSettings.id r) (UserSettings.id p)) as [Er|Er];
      [|reflexivity].
    now rewrite (Hg r Hr Er). }
  assert (Hof : forall v, settings_of db' v = map g (settings_of db v)).
  { intros v. rewrite E. unfold settings_of, update_settings_row. cbn [user_settings].
    apply filter_map_same. intros r Hr. now apply Hsame. }
  rewrite E at 1 2. split; [reflexivity|]. split; [reflexivity|]. split; [|split].
  - intros v Hv. rewrite Hof. rewrite <- (map_id (settings_of db v)) at 2.
    apply map_ext_in. intros r Hr. unfold settings_of in Hr.
    apply filter_In in Hr. destruct Hr as [Hr Ev]. apply Z.eqb_eq in Ev.
    unfold g. destruct (Z.eqb_spec (UserSettings.id r) (UserSettings.id p)) as [Er|Er];
      [|reflexivity].
    exfalso. apply Hv. rewrite <- Ev, (Hg r Hr Er). exact Huid.
  - exists row. split; [exact Hrows|]. rewrite Hof, Hrows. simpl. unfold g.
    now rewrite Z.eqb_refl.
  - assert (Hx : current_user db' cookie = Some u) by (rewrite E; exact H).
    rewrite (Hpost db' Hx).
    + rewrite E. unfold update_settings_row. cbn [users pomodoro_sessions user_settings].
      f_equal. rewrite map_map. apply map_ext. intros r. fold (g r). fold (g (g r)).
      unfold g. destruct (Z.eqb_spec (UserSettings.id r) (UserSettings.id p)) as [Er|Er].
      * now rewrite Z.eqb_refl.
      * destruct (Z.eqb_spec (UserSettings.id r) (UserSettings.id p)); [contradiction|].
        reflexivity.
    + right. rewrite find_filter. fold (settings_of db' (User.id u)).
      rewrite Hof, Hrows. simpl. unfold g. now rewrite Z.eqb_refl.
Qed.

Lemma settings_post_changes_one_row_witness :
  current_user (run empty_db
      [POST_register None alice_form true "pbkdf2:sha256:0001" (noon - 1);
       POST_register None bob_form true "pbkdf2:sha256:0002" noon])
    (Some 2)
    = Some (User.mk 2 "bob" "bob@example.org" "pbkdf2:sha256:0002" noon None)
  /\ SettingsForm.errors form_short = []
  /\ forall v, v <> 2 ->
       settings_of
         (fst (settings
                 (run empty_db
                    [POST_register None alice_form true "pbkdf2:sha256:0001" (noon - 1);
                     POST_register None bob_form true "pbkdf2:sha256:0002" noon])
                 (Some 2) (Some form_short))) v
       = settings_of
           (run empty_db
              [POST_register None alice_form true "pbkdf2:sha256:0001" (noon - 1);
               POST_register None bob_form true "pbkdf2:sha256:0002" noon]) v.
Proof.
  split; [reflexivity|]. split; [reflexivity|].
  apply (settings_post_changes_one_row
           [POST_register None alice_form true "pbkdf2:sha256:0001" (noon - 1);
            POST_register None bob_form true "pbkdf2:sha256:0002" noon]
           (Some 2)
           (User.mk 2 "bob" "bob@example.org" "pbkdf2:sha256:0002" noon None)
           form_short eq_refl eq_refl).
Defined.

(** ** The numbers of the dashboard *)

Lemma filter_length_le {A : Type} (f g : A -> bool) (l : list A) :
  (forall x, f x = true -> g x = true) ->
  (List.length (filter f l) <= List.length (filter g l))%nat.
Proof.
  intros H. induction l as [|x l IH]; simpl; [lia|].
  destruct (f x) eqn:E.
  - rewrite (H x E). simpl. lia.
  - destruct (g x); simpl; lia.
Qed.

(** A session counted from day [d] on falls on [d] or is counted from the
    next day on. *)
Lemma day_partition (l : list PomodoroSession.t) (uid : Z) (d : date) :
  (List.length (filter (fun s => completed_work uid s
       && (d <=? date_of (PomodoroSession.started_at s))%Z) l)
   = List.length (filter (fun s => completed_work uid s
       && (date_of (PomodoroSession.started_at s) =? d)%Z) l)
     + List.length (filter (fun s => completed_work uid s
       && (d + 1 <=? date_of (PomodoroSession.started_at s))%Z) l))%nat.
Proof.
  induction l as [|x l IH]; [reflexivity|].
  rewrite !length_filter_cons.
  destruct (completed_work uid x); simpl andb; [|simpl; exact IH].
  generalize dependent (date_of (PomodoroSession.started_at x)). intros t.
  destruct (Z.leb_spec d t), (Z.eqb_spec t d), (Z.leb_spec (d + 1) t); lia.
Qed.

(** Past the first week of the calendar the eight dates that the dashboard
    computes from today are dates of the calendar. *)
Lemma dashboard_dates_in_calendar (now : datetime) :
  7 <= date_of now < MAXORDINAL ->
  date_in_range (date_of now - 7) = true
  /\ forall i : Z, 0 <= i <= 6 -> date_in_range (date_of now - (6 - i)) = true.
Proof.
  intros H. unfold date_in_range. split; [|intros i Hi];
    apply andb_true_iff; rewrite Z.leb_le, Z.ltb_lt; lia.
Qed.

Lemma dashboard_eq (db : DB) (cookie : option Z) (u : User.t) (now : datetime) :
  current_user db cookie = Some u ->
  snd (dashboard db cookie now) =
  match total_focus_hours db (User.id u) with
  | Ok total_hours =>
      RenderDashboard
        (mkStats (count_on_date db (User.id u) (date_of now))
                 (count_since db (User.id u) (date_of now - 7))
                 (total_count db (User.id u)) total_hours)
        (weekly_histogram db (User.id u) (date_of now))
  | Raise e => InternalServerError e
  end.
Proof.
  intros H. unfold dashboard. rewrite (login_required_some _ _ u _ H).
  now destruct (total_focus_hours db (User.id u)).
Qed.

(** X13.  The numbers on one dashboard fit together, at a clock past the first
    week of the calendar.  Today's count is the last
    entry of the chart and is at most the week's count, which is at most
    the total.  The week's count covers eight days and has no upper end: it
    is the sum of the chart plus the sessions of the day seven days ago
    plus those dated after today.  The hours are those of
    [total_focus_hours].  The page fails when the totals that SQL [sum]
    runs through leave the 64-bit range, with the integer overflow of the
    query, and only then: the division of a 64-bit total by 60 never
    overflows. *)
Theorem dashboard_numbers_fit (db : DB) (cookie : option Z) (u : User.t)
    (now : datetime) :
  current_user db cookie = Some u ->
  7 <= date_of now < MAXORDINAL ->
  let durations :=
    map PomodoroSession.duration
        (filter (completed_work (User.id u)) (pomodoro_sessions db)) in
  match snd (dashboard db cookie now) with
  | RenderDashboard stats weekly_data =>
      List.length weekly_data = 7%nat
      /\ nth 6 weekly_data 0%nat = today_sessions stats
      /\ (today_sessions stats <= week_sessions stats <= total_sessions stats)%nat
      /\ (week_sessions stats =
            list_sum weekly_data
            + count_on_date db (User.id u) (date_of now - 7)%Z
            + count_since db (User.id u) (date_of now + 1)%Z)%nat
      /\ total_focus_hours db (User.id u) = Ok (total_hours stats)
      /\ forallb fits_int64 (running_totals 0 durations) = true
  | InternalServerError e =>
      e = OperationalError
      /\ forallb fits_int64 (running_totals 0 durations) = false
  | _ => False
  end.
Proof.
  intros H _ durations. rewrite (dashboard_eq db cookie u now H).
  assert (Hh : total_focus_hours db (User.id u) =
               if forallb fits_int64 (running_totals 0 durations)
               then match int_true_divide (fold_right Z.add 0 durations) 60 with
                    | Ok q => Ok (float_round1 q)
                    | Raise e => Raise e
                    end
               else Raise OperationalError).
  { unfold total_focus_hours. rewrite total_focus_minutes_spec. fold durations.
    now destruct (forallb fits_int64 (running_totals 0 durations)). }
  destruct (forallb fits_int64 (running_totals 0 durations)) eqn:Hrun;
    [|rewrite Hh; now split].
  assert (Hmin : total_focus_minutes db (User.id u) = Ok (fold_right Z.add 0 durations)).
  { rewrite total_focus_minutes_spec. fold durations. now rewrite Hrun. }
  destruct (int_true_divide_60 _ (total_focus_minutes_fits db (User.id u) _ Hmin))
    as (q & Eq & _).
  rewrite Eq in Hh. rewrite Hh.
  cbv beta iota. cbn [today_sessions week_sessions total_sessions total_hours].
  set (today := date_of now). set (uid := User.id u).
  rewrite weekly_histogram_days.
  split; [reflexivity|]. split; [reflexivity|]. split; [split|split; [|now split]].
  - unfold count_on_date, count_since. apply filter_length_le. intros s Hs.
    apply andb_true_iff in Hs. destruct Hs as [-> Hd]. apply Z.eqb_eq in Hd.
    simpl. apply Z.leb_le. lia.
  - unfold count_since, total_count. apply filter_length_le. intros s Hs.
    apply andb_true_iff in Hs. now destruct Hs.
  - pose proof (week_partition (pomodoro_sessions db) uid (today - 6)) as Hw.
    pose proof (day_partition (pomodoro_sessions db) uid (today - 7)) as Hd.
    cbv zeta in Hw. unfold count_on_date, count_since.
    replace (today - 6 + 1) with (today - 5) in Hw by lia.
    replace (today - 6 + 2) with (today - 4) in Hw by lia.
    replace (today - 6 + 3) with (today - 3) in Hw by lia.
    replace (today - 6 + 4) with (today - 2) in Hw by lia.
    replace (today - 6 + 5) with (today - 1) in Hw by lia.
    replace (today - 6 + 6) with today in Hw by lia.
    replace (today - 6 + 7) with (today + 1) in Hw by lia.
    replace (today - 7 + 1) with (today - 6) in Hd by lia.
    simpl list_sum. lia.
Qed.

Lemma dashboard_numbers_fit_witness :
  current_user db_three_sessions (Some 1) = Some alice
  /\ 7 <= date_of noon < MAXORDINAL
  /\ snd (dashboard db_three_sessions (Some 1) noon)
     = RenderDashboard (mkStats 3 3 3 float_one) [0; 0; 0; 0; 0; 0; 3]%nat.
Proof.
  split; [reflexivity|].
  assert (Hclock : 7 <= date_of noon < MAXORDINAL)
    by (vm_compute; split; [discriminate | reflexivity]).
  split; [exact Hclock|].
  pose proof (dashboard_numbers_fit db_three_sessions (Some 1) alice noon eq_refl
                Hclock) as H.
  cbv zeta in H.
  destruct (snd (dashboard db_three_sessions (Some 1) noon)) eqn:E;
    try contradiction; vm_compute in E; try discriminate E.
  injection E as <- <-. reflexivity.
Defined.

(** ** Statistics and the session routes *)

Lemma completed_work_pending (uid : Z) (s : PomodoroSession.t) :
  PomodoroSession.completed s = false -> completed_work uid s = false.
Proof. intros H. unfold completed_work. rewrite H. apply andb_false_r. Qed.

(** X14.  The total that [complete_session] reports is the user's count of
    completed work sessions with the new row included: one more than before
    for a work session, the same for a break or any other type.  [get_stats]
    asked next reports the same total. *)
Theorem complete_session_reports_total (db : DB) (cookie : option Z)
    (u : User.t) (data : payload) (now : datetime) (elapsed : N)
    (later : datetime) :
  current_user db cookie = Some u ->
  datetime_in_range (now - timedelta_minutes (data_get (p_duration data) 25)) = true ->
  let total :=
    Z.of_nat (total_count db (User.id u))
    + (if String.eqb (data_get (p_session_type data) "work"%string) "work"
       then 1 else 0) in
  let db' := fst (complete_session db cookie data now elapsed) in
  (exists id,
     snd (complete_session db cookie data now elapsed) =
       Jsonify [("success"%string, JBool true); ("session_id"%string, JInt id);
                ("total_sessions"%string, JInt total)])
  /\ exists today,
       snd (get_stats db' cookie later) =
         Jsonify [("today_sessions"%string, JInt today);
                  ("total_sessions"%string, JInt total)].
Proof.
  intros H Hr total db'. subst db'.
  rewrite (complete_session_eq db cookie u data now elapsed H Hr).
  cbn [fst snd].
  set (row := PomodoroSession.mk _ _ _ true _ _ _ None).
  assert (Ht : Z.of_nat (total_count (add_session db row) (User.id u)) = total).
  { subst total. unfold total_count. simpl pomodoro_sessions.
    rewrite filter_app, length_app. simpl filter.
    unfold completed_work at 2. simpl. rewrite Z.eqb_refl. simpl.
    destruct (String.eqb (data_get (p_session_type data) "work"%string) "work");
      simpl; lia. }
  split.
  - eexists. now rewrite Ht.
  - assert (H' : current_user (add_session db row) cookie = Some u) by exact H.
    unfold get_stats. rewrite (login_required_some _ _ u _ H'). cbn [snd].
    eexists. now rewrite Ht.
Qed.

Lemma complete_session_reports_total_witness :
  current_user db_three_sessions (Some 1) = Some alice
  /\ datetime_in_range (noon - timedelta_minutes 25) = true
  /\ exists id,
       snd (complete_session db_three_sessions (Some 1) (mkPayload None None) noon 0) =
         Jsonify [("success"%string, JBool true); ("session_id"%string, JInt id);
                  ("total_sessions"%string, JInt 4)].
Proof.
  split; [reflexivity|]. split; [reflexivity|].
  apply (complete_session_reports_total db_three_sessions (Some 1) alice
           (mkPayload None None) noon 0 noon eq_refl eq_refl).
Defined.

(** X15.  A started session is not counted anywhere: whoever starts it, for every
    user the counts per day, the counts since a day, the total and the
    focus minutes stay the same, and so do the answers of [get_stats] and of
    [dashboard] to every visitor. *)
Theorem start_session_leaves_statistics (db : DB) (cookie : option Z)
    (data : payload) (now : datetime) :
  let db' := fst (start_session db cookie data now) in
  (forall uid day,
     count_on_date db' uid day = count_on_date db uid day
     /\ count_since db' uid day = count_since db uid day
     /\ total_count db' uid = total_count db uid
     /\ total_focus_minutes db' uid = total_focus_minutes db uid)
  /\ forall visitor later,
       snd (get_stats db' visitor later) = snd (get_stats db visitor later)
       /\ snd (dashboard db' visitor later) = snd (dashboard db visitor later).
Proof.
  intros db'.
  assert (Hcase : db' = db \/
            exists row, db' = add_session db row
                        /\ PomodoroSession.completed row = false).
  { subst db'. destruct (current_user db cookie) as [u|] eqn:H.
    - destruct (fits_int64 (data_get (p_duration data) 25)) eqn:Hf.
      + right. rewrite (start_session_eq db cookie u data now H Hf).
        eexists. split; reflexivity.
      + left. now rewrite (start_session_overflow db cookie u data now H Hf).
    - left. unfold start_session. now rewrite login_required_none. }
  assert (Hcw : forall uid,
            filter (completed_work uid) (pomodoro_sessions db')
            = filter (completed_work uid) (pomodoro_sessions db)).
  { intros uid. destruct Hcase as [-> | (row & -> & Hrow)]; [reflexivity|].
    simpl. rewrite filter_app. simpl.
    rewrite (completed_work_pending uid row Hrow). apply app_nil_r. }
  assert (Husers : users db' = users db).
  { destruct Hcase as [-> | (row & -> & _)]; reflexivity. }
  assert (Hcounts : forall uid day,
     count_on_date db' uid day = count_on_date db uid day
     /\ count_since db' uid day = count_since db uid day
     /\ total_count db' uid = total_count db uid
     /\ total_focus_minutes db' uid = total_focus_minutes db uid).
  { intros uid day. unfold count_on_date, count_since, total_count, total_focus_minutes.
    rewrite !filter_and, !Hcw. repeat split. }
  split; [exact Hcounts|].
  intros visitor later.
  assert (Hcu : current_user db' visitor = current_user db visitor).
  { unfold current_user, load_user. now rewrite Husers. }
  unfold get_stats, dashboard, login_required, total_focus_hours, weekly_histogram.
  rewrite Hcu. destruct (current_user db visitor) as [v|]; [|now split].
  split.
  - cbn [snd].
    destruct (Hcounts (User.id v) (date_of later)) as (-> & _ & -> & _). reflexivity.
  - destruct (Hcounts (User.id v) (date_of later)) as (E1 & _ & E3 & E4).
    destruct (Hcounts (User.id v) (date_of later - 7)) as (_ & E2 & _).
    rewrite E4.
    destruct (total_focus_minutes db (User.id v)) as [total|]; [|reflexivity].
    destruct (int_true_divide total 60); [|reflexivity].
    cbn [snd]. rewrite E1, E2, E3. f_equal. apply map_ext. intros i.
    now destruct (Hcounts (User.id v) (date_of later - (6 - Z.of_nat i))) as (-> & _).
Qed.

Lemma count_since_sessions_of (db : DB) (uid : Z) (day : date) :
  count_since db uid day =
  List.length
    (filter (fun s => String.eqb (PomodoroSession.session_type s) "work"
                      && PomodoroSession.completed s
                      && (day <=? date_of (PomodoroSession.started_at s)))
            (sessions_of db uid)).
Proof.
  unfold count_since, sessions_of. rewrite <- filter_and. f_equal.
  apply filter_ext. intros s. unfold completed_work.
  now rewrite <- !andb_assoc.
Qed.

Lemma total_focus_minutes_sessions_of (db : DB) (uid : Z) :
  total_focus_minutes db uid =
  match sql_sum (map PomodoroSession.duration
    (filter (fun s => String.eqb (PomodoroSession.session_type s) "work"
                      && PomodoroSession.completed s)
            (sessions_of db uid))) with
  | Ok total => Ok (or_zero total)
  | Raise e => Raise e
  end.
Proof.
  unfold total_focus_minutes, sessions_of. rewrite <- filter_and.
  replace (filter (completed_work uid) (pomodoro_sessions db))
    with (filter (fun x => (PomodoroSession.user_id x =? uid)
                           && (String.eqb (PomodoroSession.session_type x) "work"
                               && PomodoroSession.completed x))
                 (pomodoro_sessions db)); [reflexivity|].
  apply filter_ext. intros s. unfold completed_work.
  now rewrite <- !andb_assoc.
Qed.

(** X16.  The dashboard of a user is computed from that user's rows alone: two
    databases in which the user exists with the same session rows render
    the same dashboard, whatever the other users have recorded. *)
Theorem dashboard_isolated (db1 db2 : DB) (a : Z) (u1 u2 : User.t)
    (now : datetime) :
  load_user db1 a = Some u1 ->
  load_user db2 a = Some u2 ->
  sessions_of db1 a = sessions_of db2 a ->
  snd (dashboard db1 (Some a) now) = snd (dashboard db2 (Some a) now).
Proof.
  intros H1 H2 E.
  assert (Hc1 : current_user db1 (Some a) = Some u1) by exact H1.
  assert (Hc2 : current_user db2 (Some a) = Some u2) by exact H2.
  rewrite (dashboard_eq db1 (Some a) u1 now Hc1), (dashboard_eq db2 (Some a) u2 now Hc2).
  apply load_user_id in H1. apply load_user_id in H2.
  destruct H1 as [-> _]. destruct H2 as [-> _].
  unfold total_focus_hours, weekly_histogram.
  rewrite !total_focus_minutes_sessions_of, !count_on_date_sessions_of,
          !count_since_sessions_of, !total_count_sessions_of, E.
  destruct (sql_sum _) as [total|]; [|reflexivity].
  destruct (int_true_divide _ 60); [|reflexivity].
  f_equal. apply map_ext. intros i.
  now rewrite !count_on_date_sessions_of, E.
Qed.

Lemma dashboard_isolated_witness :
  load_user db_two_users 1 = Some alice
  /\ load_user db_bob_busy 1 = Some alice
  /\ sessions_of db_two_users 1 = sessions_of db_bob_busy 1
  /\ snd (dashboard db_two_users (Some 1) noon)
     = snd (dashboard db_bob_busy (Some 1) noon).
Proof.
  split; [reflexivity|]. split; [reflexivity|]. split; [reflexivity|].
  apply (dashboard_isolated db_two_users db_bob_busy 1 alice alice noon);
    reflexivity.
Defined.

(** X17.  The dashboard of a user without completed work sessions: every count
    is zero, the chart is seven zeros and the hours are 0.0; the sum over no
    rows is NULL and counts as zero minutes. *)
Theorem dashboard_without_sessions (db : DB) (cookie : option Z) (u : User.t)
    (now : datetime) :
  current_user db cookie = Some u ->
  filter (completed_work (User.id u)) (pomodoro_sessions db) = [] ->
  dashboard db cookie now =
    (db, RenderDashboard (mkStats 0 0 0 (S754_zero false))
                         [0; 0; 0; 0; 0; 0; 0]%nat).
Proof.
  intros H Hnone.
  assert (Hcounts : forall day,
            count_on_date db (User.id u) day = 0%nat
            /\ count_since db (User.id u) day = 0%nat).
  { intros day. unfold count_on_date, count_since.
    now rewrite !filter_and, Hnone. }
  unfold dashboard. rewrite (login_required_some _ _ u _ H).
  unfold total_focus_hours, total_focus_minutes, total_count.
  rewrite Hnone. simpl.
  rewrite weekly_histogram_days.
  now rewrite !(proj1 (Hcounts _)), !(proj2 (Hcounts _)).
Qed.

Lemma dashboard_without_sessions_witness :
  current_user db_alice (Some 1) = Some alice
  /\ filter (completed_work 1) (pomodoro_sessions db_alice) = []
  /\ dashboard db_alice (Some 1) noon =
       (db_alice, RenderDashboard (mkStats 0 0 0 (S754_zero false))
                                  [0; 0; 0; 0; 0; 0; 0]%nat).
Proof.
  split; [reflexivity|]. split; [reflexivity|].
  apply (dashboard_without_sessions db_alice (Some 1) alice noon); reflexivity.
Defined.

(** The chart slides by one day: tomorrow's chart is today's without its
    oldest entry, followed by tomorrow's count. *)
Theorem weekly_histogram_slides (db : DB) (uid : Z) (today : date) :
  weekly_histogram db uid (today + 1) =
  tl (weekly_histogram db uid today) ++ [count_on_date db uid (today + 1)].
Proof.
  rewrite !weekly_histogram_days. simpl.
  repeat (f_equal; try (f_equal; lia)).
Qed.

(** ** Completing a pending row with the model's method *)

Lemma reachable_ledger_wf (rs : list request) : ledger_wf (run empty_db rs).
Proof.
  apply (effects_invariant ledger_wf effect_ledger_wf empty_db _ (run_effects _ rs)).
  split; [constructor | intros s []].
Qed.

Lemma map_replace_absent (l : list PomodoroSession.t) (p : PomodoroSession.t) :
  ~ In (PomodoroSession.id p) (map PomodoroSession.id l) ->
  map (fun r => if PomodoroSession.id r =? PomodoroSession.id p then p else r) l = l.
Proof.
  intros H. rewrite <- (map_id l) at 2. apply map_ext_in. intros r Hr.
  destruct (Z.eqb_spec (PomodoroSession.id r) (PomodoroSession.id p)) as [E|E];
    [|reflexivity].
  exfalso. apply H. rewrite <- E. now apply in_map.
Qed.

(** The ledger after the row [s] has been replaced by [p], which carries
    the same id: the rows before [s], then [p], then the rows after [s]. *)
Lemma replace_row_split (l : list PomodoroSession.t) (s p : PomodoroSession.t) :
  NoDup (map PomodoroSession.id l) -> In s l ->
  PomodoroSession.id p = PomodoroSession.id s ->
  exists before after,
    l = before ++ s :: after
    /\ map (fun r => if PomodoroSession.id r =? PomodoroSession.id p then p else r) l
       = before ++ p :: after.
Proof.
  intros Hnd Hin Hid. apply in_split in Hin. destruct Hin as (before & after & ->).
  exists before, after. split; [reflexivity|].
  rewrite map_app in Hnd. simpl in Hnd.
  pose proof (NoDup_remove_2 _ _ _ Hnd) as Hnot.
  rewrite map_app. simpl. rewrite Hid, Z.eqb_refl. rewrite <- Hid.
  rewrite !map_replace_absent; [reflexivity | |];
    rewrite Hid; intros H; apply Hnot; apply in_or_app; [now right | now left].
Qed.

(** X18.  The method [complete_session] of the model, applied to a pending row of
    a ledger reached through the site and committed: the row keeps its place
    and everything but [completed] and [completed_at], every other row is
    untouched, and the owner's count of completed work sessions goes up by
    one when the row is a work session and stays the same otherwise. *)
Theorem complete_row_counts_once (rs : list request) (s : PomodoroSession.t)
    (now : datetime) :
  let db := run empty_db rs in
  In s (pomodoro_sessions db) ->
  PomodoroSession.completed s = false ->
  let db' := complete_row db s now in
  (exists before after,
     pomodoro_sessions db = before ++ s :: after
     /\ pomodoro_sessions db' =
          before
          ++ PomodoroSession.mk (PomodoroSession.id s) (PomodoroSession.user_id s)
               (PomodoroSession.duration s) true (PomodoroSession.session_type s)
               (PomodoroSession.started_at s) (Some now)
               (PomodoroSession.task_description s)
          :: after)
  /\ users db' = users db
  /\ user_settings db' = user_settings db
  /\ forall uid,
       total_count db' uid =
       (total_count db uid
        + if (PomodoroSession.user_id s =? uid)%Z
             && String.eqb (PomodoroSession.session_type s) "work"
          then 1 else 0)%nat.
Proof.
  intros db Hin Hpending db'.
  destruct (reachable_ledger_wf rs) as [Hnd _]. fold db in Hnd.
  destruct (replace_row_split (pomodoro_sessions db) s
              (PomodoroSession.complete_session s now) Hnd Hin eq_refl)
    as (before & after & E1 & E2).
  assert (E3 : pomodoro_sessions db' =
               before ++ PomodoroSession.complete_session s now :: after)
    by exact E2.
  split; [exists before, after; split; [exact E1 | exact E3]|].
  split; [reflexivity|]. split; [reflexivity|].
  intros uid. unfold total_count. rewrite E3, E1, !filter_app, !length_app.
  simpl filter. rewrite (completed_work_pending uid s Hpending).
  unfold completed_work at 2. simpl.
  rewrite andb_true_r.
  destruct ((PomodoroSession.user_id s =? uid)
            && String.eqb (PomodoroSession.session_type s) "work"); simpl; lia.
Qed.

Lemma complete_row_counts_once_witness :
  In (PomodoroSession.mk 1 1 25 false "work" noon None None)
     (pomodoro_sessions
        (run empty_db
           [POST_register None alice_form true "pbkdf2:sha256:0001" (noon - 1);
            POST_session_start (Some 1) (mkPayload None None) noon]))
  /\ total_count
       (complete_row
          (run empty_db
             [POST_register None alice_form true "pbkdf2:sha256:0001" (noon - 1);
              POST_session_start (Some 1) (mkPayload None None) noon])
          (PomodoroSession.mk 1 1 25 false "work" noon None None) (noon + 9)) 1
     = 1%nat.
Proof.
  split; [now left|].
  destruct (complete_row_counts_once
              [POST_register None alice_form true "pbkdf2:sha256:0001" (noon - 1);
               POST_session_start (Some 1) (mkPayload None None) noon]
              (PomodoroSession.mk 1 1 25 false "work" noon None None) (noon + 9)
              (or_introl eq_refl) eq_refl) as (_ & _ & _ & H).
  rewrite (H 1). reflexivity.
Defined.

(** ** Listings *)

Lemma firstn_skipn_add {A : Type} (a b : nat) (l : list A) :
  firstn a l ++ firstn b (skipn a l) = firstn (a + b) l.
Proof.
  revert l. induction a as [|a IH]; intros l; [reflexivity|].
  destruct l as [|x l]; simpl.
  - now rewrite firstn_nil.
  - now rewrite IH.
Qed.

Lemma In_firstn {A : Type} (n : nat) (l : list A) (x : A) :
  In x (firstn n l) -> In x l.
Proof.
  intros H. rewrite <- (firstn_skipn n l). apply in_or_app. now left.
Qed.

Lemma In_skipn {A : Type} (n : nat) (l : list A) (x : A) :
  In x (skipn n l) -> In x l.
Proof.
  intros H. rewrite <- (firstn_skipn n l). apply in_or_app. now right.
Qed.

(** A page of 20 rows, for a page number from 1 to the last one. *)
Lemma paginate_20 {A : Type} (items : list A) (p : Z) :
  1 <= p <= LAST_PAGE ->
  paginate items p 20 = Ok (firstn 20 (skipn (Z.to_nat ((p - 1) * 20)) items)).
Proof.
  unfold LAST_PAGE. intros Hp. unfold paginate.
  destruct (Z.ltb_spec p 1); [lia|]. change (20 <? 1) with false. cbv iota zeta.
  replace (fits_int64 20 && fits_int64 ((p - 1) * 20)) with true; [reflexivity|].
  symmetry. apply andb_true_iff. split; [reflexivity|].
  apply fits_int64_bounds. change (2 ^ 63) with 9223372036854775808. lia.
Qed.

Lemma paginate_20_overflow {A : Type} (items : list A) (p : Z) :
  LAST_PAGE < p -> paginate items p 20 = Raise OverflowError.
Proof.
  unfold LAST_PAGE. intros Hp. unfold paginate.
  destruct (Z.ltb_spec p 1); [lia|]. change (20 <? 1) with false. cbv iota zeta.
  replace (fits_int64 ((p - 1) * 20)) with false; [reflexivity|].
  symmetry. destruct (fits_int64 ((p - 1) * 20)) eqn:E; [|reflexivity].
  apply fits_int64_bounds in E. change (2 ^ 63) with 9223372036854775808 in E. lia.
Qed.

Lemma paginate_below_1 {A : Type} (items : list A) (p : Z) :
  p < 1 -> paginate items p 20 = paginate items 1 20.
Proof.
  intros Hp. unfold paginate. destruct (Z.ltb_spec p 1); [reflexivity | lia].
Qed.

(** The first [n] pages, one after the other, are the first [20 * n]
    items. *)
Lemma pages_concat {A : Type} (items : list A) (n : nat) :
  List.concat
    (map (fun i => firstn 20 (skipn (Z.to_nat ((Z.of_nat i - 1) * 20)) items))
         (seq 1 n))
  = firstn (n * 20) items.
Proof.
  induction n as [|n IH]; [reflexivity|].
  rewrite seq_S, map_app, concat_app, IH. cbn [map List.concat].
  rewrite app_nil_r.
  replace (Z.to_nat ((Z.of_nat (1 + n) - 1) * 20)) with (n * 20)%nat by lia.
  rewrite firstn_skipn_add. f_equal. lia.
Qed.

Lemma StronglySorted_app_order {A : Type} (R : A -> A -> Prop) (l1 l2 : list A) :
  StronglySorted R (l1 ++ l2) ->
  StronglySorted R l1 /\ forall x y, In x l1 -> In y l2 -> R x y.
Proof.
  induction l1 as [|a l1 IH]; simpl; intros H.
  - split; [constructor | intros x y []].
  - apply StronglySorted_inv in H. destruct H as [Hs Hall].
    destruct (IH Hs) as [IH1 IH2]. split.
    + constructor; [exact IH1|]. rewrite Forall_forall in *.
      intros x Hx. apply Hall. apply in_or_app. now left.
    + intros x y [<- | Hx] Hy.
      * rewrite Forall_forall in Hall. apply Hall. apply in_or_app. now right.
      * now apply IH2.
Qed.

Section Listings.

Variable order_by : list PomodoroSession.t -> list PomodoroSession.t.
Hypothesis order_by_permutes : forall l, Permutation l (order_by l).
Hypothesis order_by_sorts : forall l, StronglySorted newer_or_equal (order_by l).

(** X19.  The history of a logged-in user, page by page.  A missing page number
    and any page number below 1 show the first page.  A page up to the
    last one whose offset fits 64 bits holds at most twenty rows, all of
    them rows of the user; a page beyond it is answered with the
    [OverflowError] of the driver.  The first [n] pages in a row are newest
    first; once [20 * n] reaches the number of the user's rows they list
    each of them exactly once, and every later page up to the last one is
    empty. *)
Theorem history_pages (db : DB) (cookie : option Z) (u : User.t) :
  current_user db cookie = Some u ->
  let mine := sessions_of db (User.id u) in
  let page p := paginate (order_by mine) p 20 in
  (forall page_arg,
     history order_by db cookie page_arg =
       match page (match page_arg with Some p => p | None => 1 end) with
       | Ok rows => RenderHistory rows
       | Raise e => ListingError e
       end)
  /\ (forall p, p < 1 -> page p = page 1)
  /\ (forall p, p <= LAST_PAGE ->
        exists rows,
          page p = Ok rows
          /\ (List.length rows <= 20)%nat
          /\ forall s, In s rows ->
               In s (pomodoro_sessions db)
               /\ PomodoroSession.user_id s = User.id u)
  /\ (forall p, LAST_PAGE < p -> page p = Raise OverflowError)
  /\ (forall n, Z.of_nat n <= LAST_PAGE ->
        exists pages,
          map (fun i => page (Z.of_nat i)) (seq 1 n) = map Ok pages
          /\ StronglySorted newer_or_equal (List.concat pages)
          /\ ((List.length mine <= 20 * n)%nat ->
              Permutation mine (List.concat pages)
              /\ forall p, Z.of_nat n < p <= LAST_PAGE -> page p = Ok [])).
Proof.
  intros H mine page.
  set (rows p := firstn 20 (skipn (Z.to_nat ((p - 1) * 20)) (order_by mine))).
  assert (Hpage : forall p, 1 <= p <= LAST_PAGE -> page p = Ok (rows p)).
  { intros p Hp. exact (paginate_20 (order_by mine) p Hp). }
  assert (Hlow : forall p, p < 1 -> page p = page 1).
  { intros p Hp. exact (paginate_below_1 (order_by mine) p Hp). }
  assert (Hlen : List.length (order_by mine) = List.length mine).
  { symmetry. apply Permutation_length. apply order_by_permutes. }
  assert (Hlast : 1 <= LAST_PAGE) by (unfold LAST_PAGE; lia).
  split; [|split; [|split; [|split]]].
  - intros page_arg. unfold history. rewrite H. now destruct page_arg.
  - exact Hlow.
  - intros p Hp.
    assert (Hrows : forall q, (List.length (rows q) <= 20)%nat
              /\ forall s, In s (rows q) ->
                   In s (pomodoro_sessions db)
                   /\ PomodoroSession.user_id s = User.id u).
    { intros q. split.
      - unfold rows. rewrite length_firstn. lia.
      - intros s Hs. unfold rows in Hs.
        apply In_firstn in Hs. apply In_skipn in Hs.
        apply (Permutation_in _ (Permutation_sym (order_by_permutes mine))) in Hs.
        subst mine. unfold sessions_of in Hs. apply filter_In in Hs.
        destruct Hs as [Hin E]. split; [exact Hin | now apply Z.eqb_eq]. }
    destruct (Z.lt_ge_cases p 1) as [Hp1|Hp1].
    + exists (rows 1). rewrite (Hlow p Hp1), (Hpage 1) by lia.
      split; [reflexivity | apply Hrows].
    + exists (rows p). rewrite (Hpage p) by lia.
      split; [reflexivity | apply Hrows].
  - intros p Hp. exact (paginate_20_overflow (order_by mine) p Hp).
  - intros n Hn. exists (map (fun i => rows (Z.of_nat i)) (seq 1 n)).
    assert (Hconcat : List.concat (map (fun i => rows (Z.of_nat i)) (seq 1 n))
                      = firstn (n * 20) (order_by mine)).
    { exact (pages_concat (order_by mine) n). }
    rewrite Hconcat. split; [|split].
    + rewrite map_map. apply map_ext_in. intros i Hi. apply in_seq in Hi.
      apply Hpage. lia.
    + pose proof (order_by_sorts mine) as Hs.
      rewrite <- (firstn_skipn (n * 20) (order_by mine)) in Hs.
      now apply StronglySorted_app_order in Hs.
    + intros Hall. split.
      * rewrite firstn_all2 by lia. apply order_by_permutes.
      * intros p Hp. rewrite (Hpage p) by lia. unfold rows.
        rewrite skipn_all2; [reflexivity | lia].
Qed.

(** X20.  The recent sessions of the dashboard: at most ten rows, all of them
    rows of the user, newest first, and no row left out started after a row
    that is shown. *)
Theorem recent_sessions_newest (db : DB) (uid : Z) :
  let mine := sessions_of db uid in
  let shown := recent_sessions order_by db uid in
  (List.length shown = Nat.min 10 (List.length mine))
  /\ StronglySorted newer_or_equal shown
  /\ exists hidden,
       Permutation mine (shown ++ hidden)
       /\ forall s t, In s shown -> In t hidden ->
            PomodoroSession.started_at t <= PomodoroSession.started_at s.
Proof.
  intros mine shown. subst shown. unfold recent_sessions. fold mine.
  pose proof (order_by_sorts mine) as Hs.
  rewrite <- (firstn_skipn 10 (order_by mine)) in Hs.
  apply StronglySorted_app_order in Hs. destruct Hs as [Hs1 Hs2].
  split; [|split; [exact Hs1|]].
  - rewrite length_firstn. f_equal. symmetry. apply Permutation_length.
    apply order_by_permutes.
  - exists (skipn 10 (order_by mine)). split.
    + rewrite firstn_skipn. apply order_by_permutes.
    + intros s t Hin Ht. exact (Hs2 s t Hin Ht).
Qed.

End Listings.

(** Ordering by insertion is one such ordering. *)
Lemma insert_desc_permutes (x : PomodoroSession.t) (l : list PomodoroSession.t) :
  Permutation (x :: l) (insert_desc x l).
Proof.
  induction l as [|y l IH]; simpl; [reflexivity|].
  destruct (PomodoroSession.started_at y <=? PomodoroSession.started_at x);
    [reflexivity|].
  rewrite perm_swap. now constructor.
Qed.

Lemma sort_desc_permutes (l : list PomodoroSession.t) : Permutation l (sort_desc l).
Proof.
  induction l as [|x l IH]; simpl; [constructor|].
  rewrite <- insert_desc_permutes. now constructor.
Qed.

Lemma insert_desc_sorts (x : PomodoroSession.t) (l : list PomodoroSession.t) :
  StronglySorted newer_or_equal l -> StronglySorted newer_or_equal (insert_desc x l).
Proof.
  induction l as [|y l IH]; simpl; intros H.
  - repeat constructor.
  - apply StronglySorted_inv in H. destruct H as [Hs Hall].
    destruct (Z.leb_spec (PomodoroSession.started_at y) (PomodoroSession.started_at x))
      as [E|E].
    + constructor; [now constructor|]. constructor; [exact E|].
      rewrite Forall_forall in *. intros z Hz. unfold newer_or_equal in *.
      specialize (Hall z Hz). lia.
    + constructor; [now apply IH|].
      rewrite Forall_forall in *. intros z Hz.
      apply (Permutation_in _ (Permutation_sym (insert_desc_permutes x l))) in Hz.
      destruct Hz as [<- | Hz]; [unfold newer_or_equal; lia | now apply Hall].
Qed.

Lemma sort_desc_sorts (l : list PomodoroSession.t) :
  StronglySorted newer_or_equal (sort_desc l).
Proof.
  induction l as [|x l IH]; simpl; [constructor | now apply insert_desc_sorts].
Qed.

Lemma history_pages_witness :
  current_user db_history (Some 1) = Some alice
  /\ (exists rows,
        history sort_desc db_history (Some 1) (Some 0) = RenderHistory rows
        /\ map PomodoroSession.id rows = [5; 8; 6; 1; 7])
  /\ history sort_desc db_history (Some 1) (Some 2) = RenderHistory []
  /\ history sort_desc db_history (Some 1) (Some (LAST_PAGE + 1))
     = ListingError OverflowError.
Proof.
  split; [reflexivity|].
  destruct (history_pages sort_desc sort_desc_permutes sort_desc_sorts
              db_history (Some 1) alice eq_refl) as (H1 & H2 & _ & H4 & H5).
  split; [|split].
  - rewrite H1, (H2 0) by lia. eexists. split; reflexivity.
  - rewrite H1. destruct (H5 1%nat ltac:(unfold LAST_PAGE; lia)) as (pages & _ & _ & H6).
    destruct (H6 ltac:(simpl; lia)) as [_ H7].
    now rewrite (H7 2 ltac:(unfold LAST_PAGE; lia)).
  - rewrite H1. now rewrite (H4 (LAST_PAGE + 1) ltac:(lia)).
Defined.

Lemma recent_sessions_newest_witness :
  (forall l, Permutation l (sort_desc l))
  /\ (forall l, StronglySorted newer_or_equal (sort_desc l))
  /\ List.length (recent_sessions sort_desc db_history 1)
     = Nat.min 10 (List.length (sessions_of db_history 1)).
Proof.
  split; [exact sort_desc_permutes|]. split; [exact sort_desc_sorts|].
  apply (recent_sessions_newest sort_desc sort_desc_permutes sort_desc_sorts
           db_history 1).
Defined.

(** ** The retry helper *)

(** As long as the calls raise the stale-element exception before the last
    attempt, the loop goes on to the next one. *)
Lemma retry_loop_skips {A : Type} (func : nat -> call_outcome A) (max_attempts : Z)
    (j remaining attempt : nat) :
  (forall i, (attempt <= i < attempt + j)%nat -> func i = RaisesStale) ->
  (attempt + j < Z.to_nat max_attempts)%nat ->
  retry_loop func max_attempts (j + remaining) attempt
  = retry_loop func max_attempts remaining (attempt + j).
Proof.
  revert attempt. induction j as [|j IH]; intros attempt Hstale Hlt.
  - now rewrite Nat.add_0_r.
  - simpl. rewrite (Hstale attempt) by lia.
    destruct (Z.eqb_spec (Z.of_nat attempt) (max_attempts - 1)) as [E|E]; [lia|].
    rewrite IH; [f_equal; lia | | lia].
    intros i Hi. apply Hstale. lia.
Qed.

(** X21.  What [retry_on_stale_element] does.  It returns what the first call of
    [func] that does not raise the stale-element exception returns, or
    raises what it raises, after one sleep per failed call.  When all
    [max_attempts] calls raise the stale-element exception, the last one is
    re-raised.  With [max_attempts] of zero or less, [func] is not called
    and the result is [None]. *)
Theorem retry_on_stale_element_outcome {A : Type} (func : nat -> call_outcome A)
    (max_attempts : Z) :
  (max_attempts <= 0 ->
   retry_on_stale_element func max_attempts = (ReturnedNone, 0%nat, 0%nat))
  /\ (forall k,
        (k < Z.to_nat max_attempts)%nat ->
        (forall i, (i < k)%nat -> func i = RaisesStale) ->
        func k <> RaisesStale ->
        retry_on_stale_element func max_attempts =
          (match func k with
           | Returns a => Returned a
           | RaisesOther name => RaisedOther name
           | RaisesStale => RaisedStale
           end, S k, k))
  /\ (0 < max_attempts ->
      (forall i, (i < Z.to_nat max_attempts)%nat -> func i = RaisesStale) ->
      retry_on_stale_element func max_attempts =
        (RaisedStale, Z.to_nat max_attempts, (Z.to_nat max_attempts - 1)%nat)).
Proof.
  unfold retry_on_stale_element. split; [|split].
  - intros H. replace (Z.to_nat max_attempts) with 0%nat by lia. reflexivity.
  - intros k Hk Hstale Hsettled.
    replace (Z.to_nat max_attempts) with (k + S (Z.to_nat max_attempts - S k))%nat
      at 1 by lia.
    rewrite retry_loop_skips; [| intros i Hi; apply Hstale; lia | lia].
    simpl. destruct (func k); [reflexivity | contradiction | reflexivity].
  - intros Hpos Hstale.
    replace (Z.to_nat max_attempts) with ((Z.to_nat max_attempts - 1) + 1)%nat
      at 1 by lia.
    rewrite retry_loop_skips; [| intros i Hi; apply Hstale; lia | lia].
    simpl. rewrite Hstale by lia.
    destruct (Z.eqb_spec (Z.of_nat (Z.to_nat max_attempts - 1)) (max_attempts - 1));
      [|lia].
    f_equal. f_equal. lia.
Qed.

Lemma retry_on_stale_element_outcome_witness :
  let func (k : nat) : call_outcome Z :=
    match k with 2%nat => Returns 42 | _ => RaisesStale end in
  (2 < Z.to_nat 3)%nat
  /\ func 2%nat <> RaisesStale
  /\ retry_on_stale_element func 3 = (Returned 42, 3%nat, 2%nat)
  /\ retry_on_stale_element func 2 = (RaisedStale, 2%nat, 1%nat)
  /\ retry_on_stale_element func 0 = (ReturnedNone, 0%nat, 0%nat).
Proof.
  intros func. split; [simpl; lia|]. split; [discriminate|].
  destruct (retry_on_stale_element_outcome func 3) as (_ & H3 & _).
  destruct (retry_on_stale_element_outcome func 2) as (_ & _ & H2).
  destruct (retry_on_stale_element_outcome func 0) as (H0 & _).
  split; [|split].
  - apply (H3 2%nat); [simpl; lia | | discriminate].
    intros i Hi. destruct i as [|[|i]]; [reflexivity | reflexivity | lia].
  - apply H2; [lia|]. intros i Hi. simpl in Hi.
    destruct i as [|[|i]]; [reflexivity | reflexivity | lia].
  - apply H0. lia.
Defined.
